(** * Cosmopolitan Address Sanitizer runtime (libc/log/asan.c)

    A shallow embedding of the shadow-memory engine, the instrumented
    allocator family, the quarantine ring, the globals tracker and the
    stack-slot hooks, followed by the properties the specification states
    about them.

    Conventions.  Machine integers are [Z] with the wrap-around of the C type
    written out ([wrap64] for [size_t]/[uintptr_t], [sint64] for [intptr_t],
    [wrap32] for [unsigned], [schar] for a stored [char]).  Pointers are [Z]
    and [NULL] is [0].  Shadow memory and application memory are total maps
    from addresses to byte values; page provisioning ([__asan_map_shadow]) is
    not part of the model.  Effects are threaded through a state monad whose
    state also logs, in program order, every shadow write and every call into
    the backing allocator. *)

From Stdlib Require Import ZArith Lia String Ascii.
From stdpp Require Import base numbers list.

Open Scope Z_scope.

(** ** Machine arithmetic *)

Definition wrap64 (z : Z) : Z := z mod 2 ^ 64.
Definition wrap32 (z : Z) : Z := z mod 2 ^ 32.
Definition sint64 (z : Z) : Z := (z + 2 ^ 63) mod 2 ^ 64 - 2 ^ 63.
Definition schar (z : Z) : Z := (z + 128) mod 256 - 128.
Definition SIZE_MAX : Z := 2 ^ 64 - 1.

(** Modelled from the spec: the rounding macros [ROUNDUP] and [ROUNDDOWN] of
    libc/macros.h (not part of the sources at hand); the spec only calls them
    "roundUp(x, k)" and "roundDown(x, k)", the nearest multiples of [k] above
    and below [x].  The C type's wrap-around is applied at each use. *)
Definition ROUNDUP (x k : Z) : Z := (x + k - 1) / k * k.
Definition ROUNDDOWN (x k : Z) : Z := x / k * k.

(** Modelled from the spec: the shadow mapping of libc/log/asan.h,
    "shadow(a) = (a >> 3) + OFFSET" with "OFFSET = 0x7fff8000". *)
Definition kAsanMagic : Z := 0x7fff8000.
Definition SHADOW (x : Z) : Z := Z.shiftr x 3 + kAsanMagic.

(** The poison palette of libc/log/asan.h.  Its numeric values are not in the
    sources at hand, so the development is parametric in them; the spec only
    fixes that every kind is a negative signed byte. *)
Class AsanKinds := {
  kAsanHeapFree : Z;
  kAsanStackFree : Z;
  kAsanRelocated : Z;
  kAsanHeapUnderrun : Z;
  kAsanHeapOverrun : Z;
  kAsanGlobalOverrun : Z;
  kAsanGlobalUnregistered : Z;
  kAsanStackUnderrun : Z;
  kAsanStackOverrun : Z;
  kAsanAllocaOverrun : Z;
  kAsanUnscoped : Z
}.

Definition is_poison (k : Z) : Prop := -128 <= k < 0.

(** The backing (unsanitized) allocator of third_party/dlmalloc, over an
    abstract heap.  [dlmemalign] returns [0] for [NULL]. *)
Class Backing := {
  heap : Type;
  dlmemalign : heap -> Z -> Z -> Z * heap;
  dlmalloc_usable_size : heap -> Z -> Z;
  dlfree : heap -> Z -> heap
}.

(** The integer formatters of libc/conv/itoa.h used by the fault reports. *)
Class Itoa := {
  int64toarray_radix10 : Z -> string;
  uint64toarray_radix10 : Z -> string;
  uint64toarray_fixed16 : Z -> Z -> string
}.

(** ** Byte-addressed memory *)

Definition bytes : Type := Z -> Z.

Definition poke (m : bytes) (a v : Z) : bytes :=
  fun x => if x =? a then v else m x.

Definition memset (m : bytes) (s c n : Z) : bytes :=
  fun x => if (s <=? x) && (x <? s + n) then schar c else m x.

Definition memcpy (m : bytes) (dst src n : Z) : bytes :=
  fun x => if (dst <=? x) && (x <? dst + n) then m (src + (x - dst)) else m x.

(** ** Data structures *)

Module AsanMorgue.
Record t := { i : Z; p : list Z }.
End AsanMorgue.

Module AsanGlobal.
Record t := {
  addr : Z;
  size : Z;
  size_with_redzone : Z;
  name : Z;
  module_name : Z;
  has_cxx_init : Z;
  location : Z;
  odr_indicator : Z
}.
End AsanGlobal.

(** [static struct AsanMorgue __asan_morgue;] is zero-initialised. *)
Definition morgue_init : AsanMorgue.t :=
  {| AsanMorgue.i := 0; AsanMorgue.p := replicate 16 0 |}.

Inductive event :=
| EvMemalign (align size ret : Z)
| EvFree (ptr : Z)
| EvStore (s v : Z)
| EvMemset (s c n : Z).

Definition is_shadow_write (e : event) : bool :=
  match e with
  | EvStore _ _ => true
  | EvMemset _ _ n => 0 <? n
  | _ => false
  end.

Definition is_backing_free (e : event) : bool :=
  match e with EvFree _ => true | _ => false end.

Definition is_backing_alloc (e : event) : bool :=
  match e with EvMemalign _ _ _ => true | _ => false end.

Definition freed_of (e : event) : option Z :=
  match e with EvFree r => Some r | _ => None end.

(** Pointers handed to [dlfree], in call order. *)
Definition frees (tr : list event) : list Z := omap freed_of tr.

(** The effect of a logged event on shadow memory, and of a run of them. *)
Definition apply_write (sh : bytes) (e : event) : bytes :=
  match e with
  | EvStore s v => poke sh s v
  | EvMemset s c n => memset sh s c n
  | _ => sh
  end.

Definition replay (sh : bytes) (evs : list event) : bytes :=
  fold_left apply_write evs sh.

(** The shadow writes of [__asan_allocate] for a block at [ptr], in order. *)
Definition allocate_writes (ptr size underrun overrun : Z) : list event :=
  let s := SHADOW (ptr - 16) in
  let q := size / 8 in
  let r := size mod 8 in
  let s' := if r =? 0 then s + 2 + q else s + 2 + q + 1 in
  [EvStore s (schar underrun); EvStore (s + 1) (schar underrun);
   EvMemset (s + 2) 0 q]
  ++ (if r =? 0 then [] else [EvStore (s + 2 + q) (schar r)])
  ++ [EvStore s' (schar overrun); EvStore (s' + 1) (schar overrun)].

(** [P]-events all come strictly before [Q]-events in a trace. *)
Definition all_before (P Q : event -> bool) (tr : list event) : Prop :=
  forall (i j : nat) (e1 e2 : event),
    tr !! i = Some e1 -> tr !! j = Some e2 ->
    P e1 = true -> Q e2 = true -> (i < j)%nat.

(** ** The [char *s] scan of [__asan_malloc_usable_size]

    The [for (;;)] loop has no bound, so the embedding takes fuel: [None]
    means the loop is still running after [fuel] iterations. *)
Fixpoint usable_scan (fuel : nat) (sh : bytes) (s n : Z) : option Z :=
  match fuel with
  | O => None
  | S fuel' =>
      let c := sh s in
      if c =? 0 then usable_scan fuel' sh (s + 1) (wrap64 (n + 8))
      else if 0 <? c then usable_scan fuel' sh (s + 1) (wrap64 (n + Z.land c 7))
      else Some n
  end.

Definition __asan_malloc_usable_size (fuel : nat) (sh : bytes) (vp : Z)
  : option Z :=
  usable_scan fuel sh (SHADOW vp) 0.

(** ** The quarantine ring *)

Definition __asan_morgue_add (m : AsanMorgue.t) (ptr : Z)
  : Z * AsanMorgue.t :=
  let idx := Z.to_nat (AsanMorgue.i m) in
  let r := default 0 (AsanMorgue.p m !! idx) in
  (r, {| AsanMorgue.i := Z.land (wrap32 (AsanMorgue.i m + 1)) (16 - 1);
         AsanMorgue.p := <[idx := ptr]> (AsanMorgue.p m) |}).

Definition morgue_ok (m : AsanMorgue.t) : Prop :=
  length (AsanMorgue.p m) = 16%nat /\ 0 <= AsanMorgue.i m < 16.

(** The shadow bytes [__asan_unregister_globals] paints for one descriptor:
    those of the words from [ROUNDUP addr 8] up to
    [ROUNDDOWN (addr + size_with_redzone) 8]. *)
Definition in_unregistered_span (g : AsanGlobal.t) (x : Z) : bool :=
  let a := ROUNDUP (AsanGlobal.addr g) 8 in
  let b := ROUNDDOWN (AsanGlobal.addr g + AsanGlobal.size_with_redzone g) 8 in
  (SHADOW a <=? x) && (x <? SHADOW b).

(** Descriptors on which the unsigned arithmetic of the globals hooks does
    not wrap, whose redzone reaches the end of the last body word, and whose
    body ends on a word boundary or at or after the first whole word. *)
Definition global_wf (g : AsanGlobal.t) : Prop :=
  let addr := AsanGlobal.addr g in
  let size := AsanGlobal.size g in
  let redsize := AsanGlobal.size_with_redzone g in
  0 <= addr /\ 0 <= size /\ 0 <= redsize /\ addr + redsize + 8 < 2 ^ 63 /\
  ROUNDUP (addr mod 8 + size) 8 <= addr mod 8 + redsize /\
  ((addr + size) mod 8 = 0 \/ ROUNDUP addr 8 <= addr + size).

(** The ring read in eviction order: the slot [__asan_morgue_add] will hand
    back next comes first, the most recently inserted pointer last. *)
Definition morgue_queue (m : AsanMorgue.t) : list Z :=
  let idx := Z.to_nat (AsanMorgue.i m) in
  drop idx (AsanMorgue.p m) ++ take idx (AsanMorgue.p m).

Section Runtime.
Context {K : AsanKinds} {B : Backing} {F : Itoa}.

(** ** Program state and the effect monad *)

Record state := {
  shadow : bytes;
  memory : bytes;
  morgue : AsanMorgue.t;
  backing : heap;
  trace : list event
}.

Inductive outcome (A : Type) :=
| Ret (a : A) (st : state)
| Exit (status : Z) (msg : string) (st : state).
Arguments Ret {A} a st.
Arguments Exit {A} status msg st.

Definition state_of {A} (o : outcome A) : state :=
  match o with
  | Ret _ st => st
  | Exit _ _ st => st
  end.

Definition result_of {A} (o : outcome A) : option A :=
  match o with
  | Ret a _ => Some a
  | Exit _ _ _ => None
  end.

Definition M (A : Type) : Type := state -> outcome A.

Definition ret {A} (a : A) : M A := fun st => Ret a st.

Definition bind {A C} (c : M A) (k : A -> M C) : M C :=
  fun st =>
    match c st with
    | Ret a st' => k a st'
    | Exit status msg st' => Exit status msg st'
    end.

Notation "x <- c ;; k" := (bind c (fun x => k))
  (at level 100, c at next level, right associativity).
Notation "c ;;; k" := (bind c (fun _ => k))
  (at level 100, right associativity).

Definition log (e : event) (st : state) : list event := trace st ++ [e].

Definition load_shadow (s : Z) : M Z := fun st => Ret (shadow st s) st.

Definition store_shadow (s v : Z) : M unit := fun st =>
  Ret tt {| shadow := poke (shadow st) s (schar v); memory := memory st;
            morgue := morgue st; backing := backing st;
            trace := log (EvStore s (schar v)) st |}.

Definition memset_shadow (s c n : Z) : M unit := fun st =>
  Ret tt {| shadow := memset (shadow st) s c n; memory := memory st;
            morgue := morgue st; backing := backing st;
            trace := log (EvMemset s c n) st |}.

Definition memset_memory (ptr c n : Z) : M unit := fun st =>
  Ret tt {| shadow := shadow st; memory := memset (memory st) ptr c n;
            morgue := morgue st; backing := backing st; trace := trace st |}.

Definition memcpy_memory (dst src n : Z) : M unit := fun st =>
  Ret tt {| shadow := shadow st; memory := memcpy (memory st) dst src n;
            morgue := morgue st; backing := backing st; trace := trace st |}.

Definition call_dlmemalign (align size : Z) : M Z := fun st =>
  let '(r, h) := dlmemalign (backing st) align size in
  Ret r {| shadow := shadow st; memory := memory st; morgue := morgue st;
           backing := h; trace := log (EvMemalign align size r) st |}.

Definition call_dlmalloc_usable_size (ptr : Z) : M Z := fun st =>
  Ret (dlmalloc_usable_size (backing st) ptr) st.

Definition call_dlfree (ptr : Z) : M unit := fun st =>
  Ret tt {| shadow := shadow st; memory := memory st; morgue := morgue st;
            backing := dlfree (backing st) ptr; trace := log (EvFree ptr) st |}.

Definition morgue_add (ptr : Z) : M Z := fun st =>
  let '(r, m) := __asan_morgue_add (morgue st) ptr in
  Ret r {| shadow := shadow st; memory := memory st; morgue := m;
           backing := backing st; trace := trace st |}.

(** [__asan_die]: print the message and a backtrace, then [_Exit(66)]. *)
Definition __asan_die {A} (msg : string) : M A := fun st => Exit 66 msg st.

(** ** Fault reports *)

Definition __asan_dscribe_free_poison (c : Z) : string :=
  if c =? kAsanHeapFree then "heap double free"
  else if c =? kAsanRelocated then "free after relocate"
  else if c =? kAsanStackFree then "stack double free"
  else "invalid pointer".

Definition __asan_describe_access_poison (c : Z) : string :=
  if c =? kAsanHeapFree then "heap use after free"
  else if c =? kAsanStackFree then "stack use after release"
  else if c =? kAsanRelocated then "heap use after relocate"
  else if c =? kAsanHeapUnderrun then "heap underrun"
  else if c =? kAsanHeapOverrun then "heap overrun"
  else if c =? kAsanGlobalOverrun then "global overrun"
  else if c =? kAsanGlobalUnregistered then "global unregistered"
  else if c =? kAsanStackUnderrun then "stack underflow"
  else if c =? kAsanStackOverrun then "stack overflow"
  else if c =? kAsanAllocaOverrun then "alloca overflow"
  else if c =? kAsanUnscoped then "unscoped"
  else "poisoned".

Definition newline : string := String (ascii_of_nat 10) EmptyString.

Definition deallocate_fault_message (ptr c : Z) : string :=
  ("error: " ++ __asan_dscribe_free_poison c ++ " "
     ++ int64toarray_radix10 c ++ " at 0x"
     ++ uint64toarray_fixed16 ptr 48 ++ newline)%string.

Definition __asan_report_deallocate_fault {A} (ptr c : Z) : M A :=
  __asan_die (deallocate_fault_message ptr c).

(** ** The instrumented allocator *)

Definition __asan_allocate (align size underrun overrun : Z) : M Z :=
  ptr <- call_dlmemalign align (wrap64 (wrap64 (ROUNDUP size 8) + 16)) ;;
  if ptr =? 0 then ret 0
  else
    let s := SHADOW (ptr - 16) in
    let q := size / 8 in
    let r := size mod 8 in
    store_shadow s underrun ;;;
    store_shadow (s + 1) underrun ;;;
    memset_shadow (s + 2) 0 q ;;;
    let s := s + 2 + q in
    s <- (if r =? 0 then ret s else (store_shadow s r ;;; ret (s + 1))) ;;
    store_shadow s overrun ;;;
    store_shadow (s + 1) overrun ;;;
    ret ptr.

Definition __asan_deallocate (ptr kind : Z) : M unit :=
  let s := SHADOW ptr in
  c <- load_shadow s ;;
  (if (c <? 0) && negb (c =? kAsanHeapOverrun) || (8 <=? c)
   then __asan_report_deallocate_fault ptr c
   else ret tt) ;;;
  u <- call_dlmalloc_usable_size ptr ;;
  memset_shadow s kind (Z.shiftr u 3) ;;;
  r <- morgue_add ptr ;;
  call_dlfree r.

Definition __asan_poison_redzone (addr size redsize kind : Z) : M unit :=
  let w := Z.land addr 7 in
  let p := sint64 (addr - w) in
  let a := wrap64 (w + size) in
  let b := wrap64 (w + redsize) in
  let s := SHADOW (wrap64 (p + a)) in
  s <- (if Z.land a 7 =? 0 then ret s
        else (store_shadow s (Z.land a 7) ;;; ret (s + 1))) ;;
  memset_shadow s kind (Z.shiftr (wrap64 (b - wrap64 (ROUNDUP a 8))) 3).

Definition __asan_free (ptr : Z) : M unit :=
  if ptr =? 0 then ret tt else __asan_deallocate ptr kAsanHeapFree.

Definition __asan_memalign (align size : Z) : M Z :=
  __asan_allocate align size kAsanHeapUnderrun kAsanHeapOverrun.

Definition __asan_malloc (size : Z) : M Z := __asan_memalign 16 size.

(** [__builtin_mul_overflow(n, m, &size)] on [size_t]. *)
Definition mul_overflow (n m : Z) : bool * Z :=
  (2 ^ 64 <=? n * m, wrap64 (n * m)).

Definition __asan_calloc (n m : Z) : M Z :=
  let '(ovf, size) := mul_overflow n m in
  let size := if ovf then wrap64 (-1) else size in
  ptr <- __asan_malloc size ;;
  (if ptr =? 0 then ret tt else memset_memory ptr 0 size) ;;;
  ret ptr.

Definition __asan_realloc (ptr n : Z) : M Z :=
  if negb (ptr =? 0) then
    if negb (n =? 0) then
      p2 <- __asan_malloc n ;;
      if negb (p2 =? 0) then
        u <- call_dlmalloc_usable_size ptr ;;
        memcpy_memory p2 ptr (Z.min n u) ;;;
        __asan_deallocate ptr kAsanRelocated ;;;
        ret p2
      else ret p2
    else
      (__asan_free ptr ;;; ret 0)
  else __asan_malloc n.

(** ** Globals *)

Fixpoint for_each {A} (f : A -> M unit) (l : list A) : M unit :=
  match l with
  | [] => ret tt
  | x :: l' => f x ;;; for_each f l'
  end.

Definition register_global (g : AsanGlobal.t) : M unit :=
  __asan_poison_redzone (AsanGlobal.addr g) (AsanGlobal.size g)
    (AsanGlobal.size_with_redzone g) kAsanGlobalOverrun.

Definition unregister_global (g : AsanGlobal.t) : M unit :=
  let a := sint64 (ROUNDUP (AsanGlobal.addr g) 8) in
  let b := sint64 (ROUNDDOWN
                     (wrap64 (AsanGlobal.addr g + AsanGlobal.size_with_redzone g))
                     8) in
  if a <? b
  then memset_shadow (SHADOW a) kAsanGlobalUnregistered
         (wrap64 (Z.shiftr (b - a) 3))
  else ret tt.

(** The loops run over [g[0]], ..., [g[n-1]]; the descriptor array is a list
    and [unsigned i < n] compares against [n] converted to [unsigned]. *)
Definition __asan_register_globals (g : list AsanGlobal.t) (n : Z) : M unit :=
  for_each register_global (take (Z.to_nat (wrap32 n)) g).

Definition __asan_unregister_globals (g : list AsanGlobal.t) (n : Z)
  : M unit :=
  for_each unregister_global (take (Z.to_nat (wrap32 n)) g).

(** ** Stack hooks *)

Definition __asan_stack_malloc (size classid : Z) : M Z :=
  __asan_allocate 32 size kAsanStackUnderrun kAsanStackOverrun.

Definition __asan_stack_free (ptr size classid : Z) : M unit :=
  call_dlfree ptr.

(** [size] is an [int]; handing it to [uint64toarray_radix10] converts it to
    [uint64_t], so a negative size is printed as its 64-bit wrap-around. *)
Definition memory_fault_message (addr size : Z) (kind : string) (c : Z)
  : string :=
  ("error: " ++ __asan_describe_access_poison c ++ " "
     ++ uint64toarray_radix10 (wrap64 size) ++ "-byte " ++ kind ++ " at 0x"
     ++ uint64toarray_fixed16 addr 48 ++ newline)%string.

Definition __asan_report_memory_fault {A} (addr size : Z) (kind : string)
  : M A :=
  c <- load_shadow (SHADOW addr) ;;
  __asan_die (memory_fault_message addr size kind c).

Definition __asan_report_load_n {A} (addr size : Z) : M A :=
  __asan_report_memory_fault addr size "load".

Definition __asan_report_store_n {A} (addr size : Z) : M A :=
  __asan_report_memory_fault addr size "store".

Definition __asan_poison_stack_memory (ptr n : Z) : M unit :=
  memset_shadow (SHADOW ptr) kAsanUnscoped (Z.shiftr n 3) ;;;
  if Z.land n 7 =? 0 then ret tt
  else store_shadow (SHADOW (wrap64 (ptr + n))) (8 - Z.land n 7).

Definition __asan_unpoison_stack_memory (ptr n : Z) : M unit :=
  memset_shadow (SHADOW ptr) 0 (Z.shiftr n 3) ;;;
  if Z.land n 7 =? 0 then ret tt
  else store_shadow (SHADOW (wrap64 (ptr + n))) (Z.land n 7).

Definition __asan_alloca_poison (addr size : Z) : M unit :=
  __asan_poison_redzone addr size (wrap64 (size + 32)) kAsanAllocaOverrun.

Definition __asan_allocas_unpoison (top bottom : Z) : M unit :=
  memset_shadow (SHADOW top) 0 (Z.shiftr (wrap64 (bottom - top)) 3).

(** ** Allocate-then-free cycles

    [p = malloc(n); free(p);] repeated over a list of sizes, returning the
    pointers in allocation order. *)
Definition alloc_free_cycle (n : Z) : M Z :=
  ptr <- __asan_malloc n ;;
  __asan_free ptr ;;;
  ret ptr.

Fixpoint cycles (ns : list Z) : M (list Z) :=
  match ns with
  | [] => ret []
  | n :: ns' =>
      ptr <- alloc_free_cycle n ;;
      ps <- cycles ns' ;;
      ret (ptr :: ps)
  end.

(** ** Reading the shadow the way an instrumented access does

    The file header fixes the encoding: [0] means all eight bytes of the word
    are addressable, [k] in [1..7] that the first [k] are, a negative byte
    that none is.  A one-byte access at [a] passes exactly when the shadow
    byte is [0] or exceeds [a mod 8]. *)
Definition addressable (sh : bytes) (a : Z) : bool :=
  let c := sh (SHADOW a) in
  (c =? 0) || ((0 <? c) && (a mod 8 + 1 <=? c)).

(** ** Flushing the quarantine

    [__asan_morgue_flush] walks the sixteen slots in index order; each slot
    is read, nulled and its old value handed to [dlfree]. *)
Definition morgue_take (idx : nat) : M Z := fun st =>
  let m := morgue st in
  Ret (default 0 (AsanMorgue.p m !! idx))
      {| shadow := shadow st; memory := memory st;
         morgue := {| AsanMorgue.i := AsanMorgue.i m;
                      AsanMorgue.p := <[idx := 0]> (AsanMorgue.p m) |};
         backing := backing st; trace := trace st |}.

Definition __asan_morgue_flush : M unit :=
  for_each (fun idx => ptr <- morgue_take idx ;; call_dlfree ptr) (seq 0 16).

(** ** Page-aligned allocation

    [PAGESIZE] is a constant of a header that is not among the sources at
    hand; the two functions take it as a parameter. *)
Definition __asan_valloc (PAGESIZE n : Z) : M Z := __asan_memalign PAGESIZE n.

Definition __asan_pvalloc (PAGESIZE n : Z) : M Z :=
  __asan_valloc PAGESIZE (wrap64 (ROUNDUP n PAGESIZE)).

(** ** The palette as a list, in the order of [__asan_describe_access_poison] *)
Definition palette : list Z :=
  [kAsanHeapFree; kAsanStackFree; kAsanRelocated; kAsanHeapUnderrun;
   kAsanHeapOverrun; kAsanGlobalOverrun; kAsanGlobalUnregistered;
   kAsanStackUnderrun; kAsanStackOverrun; kAsanAllocaOverrun; kAsanUnscoped].

End Runtime.


Arguments Ret {B A} a st.
Arguments Exit {B A} status msg st.

(** ** A concrete environment

    A palette of negative bytes, a bump allocator over a bounded arena and
    plain formatters, used to run the model on concrete inputs. *)

Definition sample_kinds : AsanKinds := {|
  kAsanHeapFree := -1;
  kAsanStackFree := -2;
  kAsanRelocated := -3;
  kAsanHeapUnderrun := -4;
  kAsanHeapOverrun := -5;
  kAsanGlobalOverrun := -6;
  kAsanGlobalUnregistered := -7;
  kAsanStackUnderrun := -8;
  kAsanStackOverrun := -9;
  kAsanAllocaOverrun := -11;
  kAsanUnscoped := -12
|}.

Record arena := { brk : Z; limit : Z; chunks : list (Z * Z) }.

Definition arena_memalign (h : arena) (align size : Z) : Z * arena :=
  let ptr := ROUNDUP (brk h + 16) align in
  if limit h <? ptr + size then (0, h)
  else (ptr, {| brk := ptr + size; limit := limit h;
                chunks := (ptr, size) :: chunks h |}).

Definition arena_usable_size (h : arena) (ptr : Z) : Z :=
  match find (fun c => fst c =? ptr) (chunks h) with
  | Some c => snd c
  | None => 0
  end.

Definition arena_free (h : arena) (ptr : Z) : arena :=
  {| brk := brk h; limit := limit h;
     chunks := filter (fun c => negb (fst c =? ptr)) (chunks h) |}.

Definition arena_backing : Backing := {|
  heap := arena;
  dlmemalign := arena_memalign;
  dlmalloc_usable_size := arena_usable_size;
  dlfree := arena_free
|}.

Fixpoint hex_digits (n : nat) (z : Z) (acc : string) : string :=
  match n with
  | O => acc
  | S n' =>
      let d := z mod 16 in
      let c := ascii_of_nat (Z.to_nat (if d <? 10 then 48 + d else 87 + d)) in
      hex_digits n' (z / 16) (String c acc)
  end.

Fixpoint dec_digits (fuel : nat) (z : Z) (acc : string) : string :=
  match fuel with
  | O => acc
  | S fuel' =>
      let c := ascii_of_nat (Z.to_nat (48 + z mod 10)) in
      if z <? 10 then String c acc else dec_digits fuel' (z / 10) (String c acc)
  end.

Definition sample_itoa : Itoa := {|
  int64toarray_radix10 z :=
    if z <? 0 then String "-"%char (dec_digits 20 (- z) EmptyString)
    else dec_digits 20 z EmptyString;
  uint64toarray_radix10 z := dec_digits 20 z EmptyString;
  uint64toarray_fixed16 z w := hex_digits (Z.to_nat (w / 4)) z EmptyString
|}.

Definition arena0 (lim : Z) : arena :=
  {| brk := 0x10000; limit := lim; chunks := [] |}.

(** The state at program start: clean shadow, zeroed memory, empty morgue. *)
Definition boot (lim : Z) : @state arena_backing :=
  {| shadow := fun _ => 0; memory := fun _ => 0; morgue := morgue_init;
     backing := (arena0 lim : @heap arena_backing); trace := [] |}.


Definition st0 : @state arena_backing := boot 0x20000.

(** The state after [malloc(n)] on a fresh arena of the given limit; the
    block is at [0x10010] when the arena has room for it. *)
Definition st_malloc (n lim : Z) : @state arena_backing :=
  state_of (@__asan_malloc sample_kinds arena_backing n (boot lim)).

(** A descriptor with only the fields the runtime reads filled in. *)
Definition global_at (addr size redsize : Z) : AsanGlobal.t :=
  {| AsanGlobal.addr := addr; AsanGlobal.size := size;
     AsanGlobal.size_with_redzone := redsize; AsanGlobal.name := 0;
     AsanGlobal.module_name := 0; AsanGlobal.has_cxx_init := 0;
     AsanGlobal.location := 0; AsanGlobal.odr_indicator := 0 |}.

(** A shadow holding a partial byte, a clean word and then poison. *)
Definition scan_demo : bytes :=
  fun x => if x =? SHADOW 0 then 5 else if x =? SHADOW 0 + 1 then 0 else -1.

(** * Properties *)

(** ** Arithmetic of the machine types and of the shadow mapping *)

Ltac zdiv := unfold ROUNDUP, ROUNDDOWN, wrap64, sint64, schar in *;
  Z.div_mod_to_equations; lia.

Lemma schar_small (v : Z) : -128 <= v < 128 -> schar v = v.
Proof. intros Hv. zdiv. Qed.

Lemma schar_poison (k : Z) : is_poison k -> schar k = k.
Proof. unfold is_poison. intros Hk. apply schar_small. lia. Qed.

Lemma wrap64_small (z : Z) : 0 <= z < 2 ^ 64 -> wrap64 z = z.
Proof. intros Hz. unfold wrap64. apply Z.mod_small. lia. Qed.

Lemma sint64_small (z : Z) : - 2 ^ 63 <= z < 2 ^ 63 -> sint64 z = z.
Proof. intros Hz. zdiv. Qed.

Lemma SHADOW_div (x : Z) : SHADOW x = x / 8 + kAsanMagic.
Proof. unfold SHADOW. now rewrite Z.shiftr_div_pow2 by lia. Qed.

Lemma SHADOW_left_redzone (ptr : Z) : SHADOW (ptr - 16) = SHADOW ptr - 2.
Proof. rewrite !SHADOW_div. Z.div_mod_to_equations. lia. Qed.

Lemma SHADOW_offset (ptr i : Z) :
  ptr mod 8 = 0 -> SHADOW (ptr + i) = SHADOW ptr + i / 8.
Proof. intros Hp. rewrite !SHADOW_div. Z.div_mod_to_equations. lia. Qed.

Lemma land7_mod (z : Z) : Z.land z 7 = z mod 8.
Proof. change 7 with (Z.ones 3). rewrite Z.land_ones by lia. reflexivity. Qed.

Lemma shiftr3_div (z : Z) : Z.shiftr z 3 = z / 8.
Proof. now rewrite Z.shiftr_div_pow2 by lia. Qed.

Ltac bytes_cases :=
  unfold poke, memset, memcpy;
  repeat (match goal with
    | |- context [?a =? ?b] => destruct (Z.eqb_spec a b)
    | |- context [?a <=? ?b] => destruct (Z.leb_spec a b)
    | |- context [?a <? ?b] => destruct (Z.ltb_spec a b)
    end; try (exfalso; lia)); simpl; try reflexivity; try lia.

Ltac if_head :=
  repeat match goal with
    | |- (if ?c then _ else _) = _ => destruct c eqn:?
    end.

Ltac bool_to_Z :=
  repeat match goal with
    | H : _ && _ = true |- _ => apply andb_true_iff in H; destruct H
    | H : _ && _ = false |- _ => apply andb_false_iff in H; destruct H
    | H : _ || _ = true |- _ => apply orb_true_iff in H; destruct H
    | H : _ || _ = false |- _ => apply orb_false_iff in H; destruct H
    | H : negb _ = true |- _ => apply negb_true_iff in H
    | H : negb _ = false |- _ => apply negb_false_iff in H
    | H : (_ =? _) = true |- _ => apply Z.eqb_eq in H
    | H : (_ =? _) = false |- _ => apply Z.eqb_neq in H
    | H : (_ <=? _) = true |- _ => apply Z.leb_le in H
    | H : (_ <=? _) = false |- _ => apply Z.leb_gt in H
    | H : (_ <? _) = true |- _ => apply Z.ltb_lt in H
    | H : (_ <? _) = false |- _ => apply Z.ltb_ge in H
    end.

Section Properties.
Context {K : AsanKinds} {B : Backing} {F : Itoa}.

Notation "x <- c ;; k" := (bind c (fun x => k))
  (at level 100, c at next level, right associativity).
Notation "c ;;; k" := (bind c (fun _ => k))
  (at level 100, right associativity).

(** ** [__asan_allocate] in closed form *)

Lemma allocate_null st align size underrun overrun h' :
  dlmemalign (backing st) align (wrap64 (wrap64 (ROUNDUP size 8) + 16))
    = (0, h') ->
  __asan_allocate align size underrun overrun st
  = Ret 0 {| shadow := shadow st; memory := memory st; morgue := morgue st;
             backing := h';
             trace := trace st ++
               [EvMemalign align (wrap64 (wrap64 (ROUNDUP size 8) + 16)) 0] |}.
Proof.
  intros Hd. unfold __asan_allocate, bind, call_dlmemalign. rewrite Hd.
  reflexivity.
Qed.

Lemma allocate_run st align size underrun overrun ptr h' :
  dlmemalign (backing st) align (wrap64 (wrap64 (ROUNDUP size 8) + 16))
    = (ptr, h') ->
  ptr <> 0 ->
  __asan_allocate align size underrun overrun st
  = Ret ptr {| shadow := replay (shadow st)
                           (allocate_writes ptr size underrun overrun);
               memory := memory st; morgue := morgue st; backing := h';
               trace := (trace st ++
                 [EvMemalign align (wrap64 (wrap64 (ROUNDUP size 8) + 16)) ptr])
                 ++ allocate_writes ptr size underrun overrun |}.
Proof.
  intros Hd Hp. unfold __asan_allocate, bind, call_dlmemalign. rewrite Hd.
  destruct (Z.eqb_spec ptr 0) as [|_]; [contradiction|].
  unfold allocate_writes, store_shadow, memset_shadow, ret, log; simpl.
  destruct (Z.eqb_spec (size mod 8) 0); simpl;
    rewrite <- ?app_assoc; simpl; reflexivity.
Qed.

(** The shadow byte at distance [d] from [SHADOW ptr] once the writes of an
    allocation of [n] bytes have been replayed. *)
Lemma allocate_shadow_at sh ptr n underrun overrun d :
  0 <= n ->
  replay sh (allocate_writes ptr n underrun overrun) (SHADOW ptr + d)
  = if (d =? -2) || (d =? -1) then schar underrun
    else if (0 <=? d) && (d <? n / 8) then 0
    else if (d =? n / 8) && negb (n mod 8 =? 0) then n mod 8
    else if (ROUNDUP n 8 / 8 <=? d) && (d <? ROUNDUP n 8 / 8 + 2)
         then schar overrun
    else sh (SHADOW ptr + d).
Proof.
  intros Hn. unfold replay, allocate_writes. rewrite SHADOW_left_redzone.
  assert (Hr : 0 <= n mod 8 < 8) by (apply Z.mod_pos_bound; lia).
  assert (Hq : 0 <= n / 8) by (apply Z.div_pos; lia).
  assert (Hup : ROUNDUP n 8 / 8 = if n mod 8 =? 0 then n / 8 else n / 8 + 1).
  { destruct (Z.eqb_spec (n mod 8) 0); zdiv. }
  rewrite Hup. rewrite (schar_small (n mod 8)) by lia.
  generalize (SHADOW ptr) as P. intros P.
  generalize dependent (n / 8). intros q Hq Hup.
  generalize dependent (n mod 8). intros r Hr Hup.
  destruct (Z.eqb_spec r 0); simpl; unfold schar at 3; simpl;
    bytes_cases.
Qed.

(** ** Heap allocation layout *)

Section AllocateShadow.
Variables (sh : bytes) (ptr n underrun overrun : Z).
Hypothesis Hn : 0 <= n.

Local Abbreviation after := (replay sh (allocate_writes ptr n underrun overrun)).

Lemma allocate_shadow_underrun d :
  d = -2 \/ d = -1 -> after (SHADOW ptr + d) = schar underrun.
Proof.
  intros Hd. rewrite allocate_shadow_at by exact Hn.
  if_head; bool_to_Z; try reflexivity; lia.
Qed.

Lemma allocate_shadow_body d :
  0 <= d < n / 8 -> after (SHADOW ptr + d) = 0.
Proof.
  intros Hd. rewrite allocate_shadow_at by exact Hn.
  if_head; bool_to_Z; try reflexivity; lia.
Qed.

Lemma allocate_shadow_partial :
  n mod 8 <> 0 -> after (SHADOW ptr + n / 8) = n mod 8.
Proof.
  intros Hd. rewrite allocate_shadow_at by exact Hn.
  assert (0 <= n / 8) by (apply Z.div_pos; lia).
  if_head; bool_to_Z; try reflexivity; lia.
Qed.

Lemma allocate_shadow_overrun d :
  ROUNDUP n 8 / 8 <= d < ROUNDUP n 8 / 8 + 2 ->
  after (SHADOW ptr + d) = schar overrun.
Proof.
  intros Hd. rewrite allocate_shadow_at by exact Hn.
  assert (0 <= n / 8) by (apply Z.div_pos; lia).
  assert (n / 8 <= ROUNDUP n 8 / 8) by zdiv.
  assert (n mod 8 <> 0 -> n / 8 < ROUNDUP n 8 / 8) by zdiv.
  if_head; bool_to_Z; try reflexivity; lia.
Qed.

Lemma allocate_shadow_frame d :
  d < -2 \/ ROUNDUP n 8 / 8 + 2 <= d ->
  after (SHADOW ptr + d) = sh (SHADOW ptr + d).
Proof.
  intros Hd. rewrite allocate_shadow_at by exact Hn.
  assert (0 <= n / 8) by (apply Z.div_pos; lia).
  assert (n / 8 <= ROUNDUP n 8 / 8) by zdiv.
  if_head; bool_to_Z; try reflexivity; lia.
Qed.

(** The head byte of a fresh block: what [__asan_deallocate] will test. *)
Lemma allocate_shadow_head :
  let c := after (SHADOW ptr) in
  0 <= c < 8 \/ c = schar overrun.
Proof.
  cbv zeta. replace (SHADOW ptr) with (SHADOW ptr + 0) by lia.
  assert (0 <= n / 8) by (apply Z.div_pos; lia).
  assert (0 <= n mod 8 < 8) by (apply Z.mod_pos_bound; lia).
  destruct (Z.eq_dec (n / 8) 0) as [Hq|Hq].
  - destruct (Z.eq_dec (n mod 8) 0) as [Hr|Hr].
    + right. apply allocate_shadow_overrun. zdiv.
    + left. replace (SHADOW ptr + 0) with (SHADOW ptr + n / 8) by lia.
      rewrite allocate_shadow_partial; lia.
  - left. rewrite allocate_shadow_body; lia.
Qed.

End AllocateShadow.

Lemma malloc_run st n ptr h' :
  dlmemalign (backing st) 16 (wrap64 (wrap64 (ROUNDUP n 8) + 16)) = (ptr, h') ->
  ptr <> 0 ->
  __asan_malloc n st
  = Ret ptr {| shadow := replay (shadow st)
                 (allocate_writes ptr n kAsanHeapUnderrun kAsanHeapOverrun);
               memory := memory st; morgue := morgue st; backing := h';
               trace := (trace st ++
                 [EvMemalign 16 (wrap64 (wrap64 (ROUNDUP n 8) + 16)) ptr])
                 ++ allocate_writes ptr n kAsanHeapUnderrun kAsanHeapOverrun |}.
Proof.
  intros Hd Hp. unfold __asan_malloc, __asan_memalign. now apply allocate_run.
Qed.

(** C1 (as amended).  A successful [malloc(n)] on a 16-byte aligned block
    leaves every body offset addressable, the two shadow bytes before the
    block equal to [kAsanHeapUnderrun], and the two shadow bytes after the
    rounded-up body equal to [kAsanHeapOverrun], so that offsets
    [roundUp(n,8) .. roundUp(n,8)+15] read as heap overrun.  The offsets
    between [n] and [roundUp(n,8)] are covered by the partial byte [n mod 8]:
    they are unaddressable, but their shadow byte is the partial, not
    [kAsanHeapOverrun].  For [n = 13] the shadow from [SHADOW ptr] on reads
    [0; 5; kAsanHeapOverrun; kAsanHeapOverrun]. *)
Theorem malloc_shadow_layout st n ptr h' :
  is_poison kAsanHeapUnderrun -> is_poison kAsanHeapOverrun ->
  0 <= n ->
  dlmemalign (backing st) 16 (wrap64 (wrap64 (ROUNDUP n 8) + 16)) = (ptr, h') ->
  ptr <> 0 -> ptr mod 16 = 0 ->
  exists st', __asan_malloc n st = Ret ptr st' /\
    (forall i, 0 <= i < n -> addressable (shadow st') (ptr + i) = true) /\
    (forall i, -16 <= i <= -1 ->
       shadow st' (SHADOW (ptr + i)) = kAsanHeapUnderrun) /\
    shadow st' (SHADOW ptr - 2) = kAsanHeapUnderrun /\
    shadow st' (SHADOW ptr - 1) = kAsanHeapUnderrun /\
    (forall i, ROUNDUP n 8 <= i <= ROUNDUP n 8 + 15 ->
       shadow st' (SHADOW (ptr + i)) = kAsanHeapOverrun) /\
    (forall i, n <= i < ROUNDUP n 8 ->
       shadow st' (SHADOW (ptr + i)) = n mod 8 /\
       addressable (shadow st') (ptr + i) = false) /\
    (n mod 8 = 0 -> forall i, n <= i <= n + 15 ->
       shadow st' (SHADOW (ptr + i)) = kAsanHeapOverrun) /\
    (n = 13 ->
       map (shadow st')
         [SHADOW ptr; SHADOW ptr + 1; SHADOW ptr + 2; SHADOW ptr + 3]
       = [0; 5; kAsanHeapOverrun; kAsanHeapOverrun]).
Proof.
  intros Hu Ho Hn Hd Hp Hal.
  assert (Hp8 : ptr mod 8 = 0) by (Z.div_mod_to_equations; lia).
  eexists. split; [exact (malloc_run _ _ _ _ Hd Hp)|]. cbn [shadow].
  pose proof (schar_poison _ Hu) as Eu. pose proof (schar_poison _ Ho) as Eo.
  assert (Hr : 0 <= n mod 8 < 8) by (apply Z.mod_pos_bound; lia).
  assert (Hmod : forall i, (ptr + i) mod 8 = i mod 8)
    by (intros i; Z.div_mod_to_equations; lia).
  split; [|split; [|split; [|split; [|split; [|split; [|split]]]]]].
  - intros i Hi. unfold addressable.
    rewrite SHADOW_offset, Hmod by assumption.
    assert (Hcase : 0 <= i / 8 < n / 8 \/
                    (i / 8 = n / 8 /\ i mod 8 < n mod 8))
      by (Z.div_mod_to_equations; lia).
    destruct Hcase as [Hlt | [Heq Hlt]].
    + rewrite allocate_shadow_body by assumption. reflexivity.
    + assert (0 <= i mod 8) by (apply Z.mod_pos_bound; lia).
      rewrite Heq, allocate_shadow_partial by lia. bytes_cases.
  - intros i Hi. rewrite SHADOW_offset by assumption.
    rewrite allocate_shadow_underrun
      by first [assumption | Z.div_mod_to_equations; lia].
    assumption.
  - replace (SHADOW ptr - 2) with (SHADOW ptr + -2) by lia.
    rewrite allocate_shadow_underrun; auto.
  - replace (SHADOW ptr - 1) with (SHADOW ptr + -1) by lia.
    rewrite allocate_shadow_underrun; auto.
  - intros i Hi. rewrite SHADOW_offset by assumption.
    rewrite allocate_shadow_overrun by first [assumption | zdiv].
    assumption.
  - intros i Hi. rewrite ?SHADOW_offset by assumption.
    assert (i / 8 = n / 8 /\ n mod 8 <> 0 /\ n mod 8 <= i mod 8)
      as (Hq & Hne & Hle) by zdiv.
    unfold addressable. rewrite SHADOW_offset, Hmod, Hq by assumption.
    rewrite allocate_shadow_partial by assumption.
    split; [reflexivity|]. bytes_cases.
  - intros H0 i Hi. rewrite SHADOW_offset by assumption.
    rewrite allocate_shadow_overrun by first [assumption | zdiv].
    assumption.
  - intros ->. cbn [map].
    replace (SHADOW ptr) with (SHADOW ptr + 0) at 1 by lia.
    rewrite (allocate_shadow_body _ _ 13) by (vm_compute; intuition congruence).
    change 1 with (13 / 8) at 1.
    rewrite (allocate_shadow_partial _ _ 13) by (vm_compute; congruence).
    rewrite !(allocate_shadow_overrun _ _ 13)
      by (vm_compute; intuition congruence).
    rewrite Eo. reflexivity.
Qed.

(** ** Deallocation *)

Lemma deallocate_fault st ptr kind :
  let c := shadow st (SHADOW ptr) in
  (c < 0 /\ c <> kAsanHeapOverrun) \/ 8 <= c ->
  __asan_deallocate ptr kind st
  = Exit 66 (deallocate_fault_message ptr c) st.
Proof.
  intros c Hc. unfold __asan_deallocate, bind, load_shadow. fold c.
  replace ((c <? 0) && negb (c =? kAsanHeapOverrun) || (8 <=? c)) with true.
  - reflexivity.
  - symmetry. bytes_cases.
Qed.

Lemma deallocate_run st ptr kind :
  let c := shadow st (SHADOW ptr) in
  ~ ((c < 0 /\ c <> kAsanHeapOverrun) \/ 8 <= c) ->
  __asan_deallocate ptr kind st
  = Ret tt
      {| shadow := memset (shadow st) (SHADOW ptr) kind
                     (Z.shiftr (dlmalloc_usable_size (backing st) ptr) 3);
         memory := memory st;
         morgue := snd (__asan_morgue_add (morgue st) ptr);
         backing := dlfree (backing st)
                      (fst (__asan_morgue_add (morgue st) ptr));
         trace := (trace st ++
           [EvMemset (SHADOW ptr) kind
              (Z.shiftr (dlmalloc_usable_size (backing st) ptr) 3)])
           ++ [EvFree (fst (__asan_morgue_add (morgue st) ptr))] |}.
Proof.
  intros c Hc. unfold __asan_deallocate, bind, load_shadow. fold c.
  replace ((c <? 0) && negb (c =? kAsanHeapOverrun) || (8 <=? c)) with false.
  - reflexivity.
  - symmetry. bytes_cases.
Qed.

(** C3.  [__asan_deallocate] exits with status 66 exactly when the shadow
    byte at the head of the block is negative and not [kAsanHeapOverrun], or
    is at least 8; the report names the byte.  A [free] that follows a
    successful [free] of the same block finds [kAsanHeapFree] there and
    reports "heap double free"; a head byte equal to [kAsanHeapOverrun] is
    not a fault: the block is poisoned and quarantined. *)
Theorem deallocate_fault_iff st ptr kind :
  let c := shadow st (SHADOW ptr) in
  let u := dlmalloc_usable_size (backing st) ptr in
  ((exists msg st', __asan_deallocate ptr kind st = Exit 66 msg st')
     <-> ((c < 0 /\ c <> kAsanHeapOverrun) \/ 8 <= c)) /\
  ((c < 0 /\ c <> kAsanHeapOverrun) \/ 8 <= c ->
     __asan_deallocate ptr kind st
     = Exit 66 (deallocate_fault_message ptr c) st) /\
  (is_poison kAsanHeapFree -> kAsanHeapFree <> kAsanHeapOverrun ->
   ptr <> 0 -> 8 <= u ->
   forall st1, __asan_free ptr st = Ret tt st1 ->
     shadow st1 (SHADOW ptr) = kAsanHeapFree /\
     __asan_free ptr st1
     = Exit 66 ("error: heap double free " ++
                int64toarray_radix10 kAsanHeapFree ++ " at 0x" ++
                uint64toarray_fixed16 ptr 48 ++ newline)%string st1) /\
  (is_poison kAsanHeapOverrun -> c = kAsanHeapOverrun ->
   exists st', __asan_deallocate ptr kind st = Ret tt st' /\
     (forall x, shadow st' x = memset (shadow st) (SHADOW ptr) kind
                                 (Z.shiftr u 3) x) /\
     morgue st' = snd (__asan_morgue_add (morgue st) ptr) /\
     trace st' = trace st ++
       [EvMemset (SHADOW ptr) kind (Z.shiftr u 3);
        EvFree (fst (__asan_morgue_add (morgue st) ptr))]).
Proof.
  intros c u.
  assert (Hdec : ((c < 0 /\ c <> kAsanHeapOverrun) \/ 8 <= c) \/
                 ~ ((c < 0 /\ c <> kAsanHeapOverrun) \/ 8 <= c)) by lia.
  split; [|split; [|split]].
  - split.
    + intros (msg & st' & Hex). destruct Hdec as [Hc|Hc]; [exact Hc|].
      rewrite (deallocate_run st ptr kind Hc) in Hex. discriminate.
    + intros Hc. do 2 eexists. apply deallocate_fault. exact Hc.
  - apply deallocate_fault.
  - intros Hf Hne Hp Hu st1 H1.
    unfold __asan_free in *.
    destruct (Z.eqb_spec ptr 0) as [|_]; [contradiction|].
    destruct Hdec as [Hc|Hc].
    { rewrite (deallocate_fault st ptr _ Hc) in H1. discriminate. }
    rewrite (deallocate_run st ptr _ Hc) in H1.
    injection H1 as <-.
    assert (Hb : memset (shadow st) (SHADOW ptr) kAsanHeapFree
                   (Z.shiftr (dlmalloc_usable_size (backing st) ptr) 3)
                   (SHADOW ptr) = kAsanHeapFree).
    { fold u. rewrite shiftr3_div.
      assert (1 <= u / 8) by (Z.div_mod_to_equations; lia).
      unfold memset.
      replace ((SHADOW ptr <=? SHADOW ptr) && (SHADOW ptr <? SHADOW ptr + u / 8))
        with true by (symmetry; bytes_cases).
      now apply schar_poison. }
    split; [exact Hb|].
    rewrite deallocate_fault; cbn [shadow]; rewrite Hb.
    + unfold deallocate_fault_message, __asan_dscribe_free_poison.
      rewrite Z.eqb_refl. reflexivity.
    + left. unfold is_poison in Hf. lia.
  - intros Ho Hc.
    assert (Hok : ~ ((c < 0 /\ c <> kAsanHeapOverrun) \/ 8 <= c))
      by (unfold is_poison in Ho; lia).
    eexists. split; [exact (deallocate_run st ptr kind Hok)|].
    cbn [shadow morgue trace]. rewrite <- app_assoc.
    split; [reflexivity|]. split; reflexivity.
Qed.

(** ** The quarantine ring *)

Lemma morgue_add_queue m ptr :
  morgue_ok m ->
  morgue_ok (snd (__asan_morgue_add m ptr)) /\
  morgue_queue m
    = fst (__asan_morgue_add m ptr) :: tail (morgue_queue m) /\
  morgue_queue (snd (__asan_morgue_add m ptr))
    = tail (morgue_queue m) ++ [ptr].
Proof.
  destruct m as [i p]. unfold morgue_ok. cbn [AsanMorgue.i AsanMorgue.p].
  intros [Hlen Hi].
  do 16 (destruct p as [|? p]; [discriminate Hlen|]).
  destruct p; [|discriminate Hlen].
  assert (Hcases : i = 0 \/ i = 1 \/ i = 2 \/ i = 3 \/ i = 4 \/ i = 5 \/
                   i = 6 \/ i = 7 \/ i = 8 \/ i = 9 \/ i = 10 \/ i = 11 \/
                   i = 12 \/ i = 13 \/ i = 14 \/ i = 15) by lia.
  repeat destruct Hcases as [-> | Hcases]; try subst i;
    (split; [split; [reflexivity | vm_compute; intuition congruence]
            | split; reflexivity]).
Qed.

Lemma morgue_add_slot m ptr :
  morgue_ok m ->
  let idx := Z.to_nat (AsanMorgue.i m) in
  AsanMorgue.p m !! idx = Some (fst (__asan_morgue_add m ptr)) /\
  AsanMorgue.p (snd (__asan_morgue_add m ptr)) = <[idx := ptr]> (AsanMorgue.p m) /\
  AsanMorgue.p (snd (__asan_morgue_add m ptr)) !! idx = Some ptr /\
  length (AsanMorgue.p (snd (__asan_morgue_add m ptr))) = 16%nat.
Proof.
  intros [Hlen Hi] idx. cbn [__asan_morgue_add fst snd AsanMorgue.p].
  fold idx. assert (Hidx : (idx < length (AsanMorgue.p m))%nat) by (subst idx; lia).
  destruct (lookup_lt_is_Some_2 _ _ Hidx) as [r Hr].
  rewrite Hr. cbn. repeat split.
  - now apply list_lookup_insert_eq.
  - now rewrite length_insert.
Qed.

Lemma morgue_init_queue : morgue_queue morgue_init = replicate 16 0.
Proof. reflexivity. Qed.

Lemma morgue_init_ok : morgue_ok morgue_init.
Proof. split; [reflexivity | cbn; lia]. Qed.

Lemma frees_app (l1 l2 : list event) : frees (l1 ++ l2) = frees l1 ++ frees l2.
Proof. unfold frees. apply omap_app. Qed.

Lemma frees_allocate_writes ptr n u o : frees (allocate_writes ptr n u o) = [].
Proof. unfold allocate_writes. destruct (n mod 8 =? 0); reflexivity. Qed.

Lemma alloc_free_cycle_run st n :
  is_poison kAsanHeapOverrun -> 0 <= n ->
  exists ptr st' evs,
    alloc_free_cycle n st = Ret ptr st' /\
    trace st' = trace st ++ evs /\
    (ptr = 0 -> morgue st' = morgue st /\ frees evs = []) /\
    (ptr <> 0 ->
       morgue st' = snd (__asan_morgue_add (morgue st) ptr) /\
       frees evs = [fst (__asan_morgue_add (morgue st) ptr)]).
Proof.
  intros Ho Hn. unfold alloc_free_cycle, bind.
  destruct (dlmemalign (backing st) 16 (wrap64 (wrap64 (ROUNDUP n 8) + 16)))
    as [ptr h'] eqn:Hd.
  destruct (Z.eq_dec ptr 0) as [-> | Hp].
  - unfold __asan_malloc, __asan_memalign. rewrite (allocate_null _ _ _ _ _ _ Hd).
    cbn. do 3 eexists. split; [reflexivity|]. cbn [trace morgue].
    split; [reflexivity|]. split; [intros _; split; reflexivity | congruence].
  - rewrite (malloc_run _ _ _ _ Hd Hp). unfold __asan_free.
    destruct (Z.eqb_spec ptr 0) as [|_]; [contradiction|].
    rewrite deallocate_run.
    + cbn [shadow memory morgue backing trace ret].
      do 3 eexists. split; [reflexivity|]. cbn [trace morgue].
      rewrite <- !app_assoc. split; [reflexivity|].
      split; [congruence|]. intros _. split; [reflexivity|].
      rewrite !frees_app, frees_allocate_writes. reflexivity.
    + cbn [shadow].
      pose proof (allocate_shadow_head (shadow st) ptr n kAsanHeapUnderrun
                    kAsanHeapOverrun Hn) as Hh.
      cbv zeta in Hh. rewrite (schar_poison _ Ho) in Hh.
      unfold is_poison in Ho. lia.
Qed.

Lemma cycles_run ns : forall st,
  is_poison kAsanHeapOverrun -> Forall (fun n => 0 <= n) ns ->
  morgue_ok (morgue st) ->
  exists ps st' evs,
    cycles ns st = Ret ps st' /\
    trace st' = trace st ++ evs /\
    length ps = length ns /\
    morgue_ok (morgue st') /\
    let qs := filter (fun x => x <> 0) ps in
    frees evs = take (length qs) (morgue_queue (morgue st) ++ qs) /\
    morgue_queue (morgue st')
      = drop (length qs) (morgue_queue (morgue st) ++ qs).
Proof.
  induction ns as [|n ns IH]; intros st Ho Hns Hok.
  - exists [], st, []. cbn [cycles ret length filter].
    split; [reflexivity|]. split; [now rewrite app_nil_r|].
    split; [reflexivity|]. split; [exact Hok|].
    cbv zeta. rewrite filter_nil. cbn [length take drop].
    split; [reflexivity | now rewrite app_nil_r].
  - inversion Hns as [|? ? Hn Hns']; subst.
    destruct (alloc_free_cycle_run st n Ho Hn)
      as (ptr & st1 & evs1 & Hrun & Htr & Hnull & Hlive).
    assert (Hok1 : morgue_ok (morgue st1)).
    { destruct (Z.eq_dec ptr 0) as [E|E].
      - destruct (Hnull E) as [-> _]. exact Hok.
      - destruct (Hlive E) as [-> _]. now apply morgue_add_queue. }
    destruct (IH st1 Ho Hns' Hok1)
      as (ps & st' & evs2 & Hrun2 & Htr2 & Hlen & Hok' & Hfr & Hq).
    exists (ptr :: ps), st', (evs1 ++ evs2).
    cbn [cycles]. unfold bind at 1. rewrite Hrun.
    unfold bind at 1. rewrite Hrun2.
    split; [reflexivity|]. split; [now rewrite Htr2, Htr, app_assoc|].
    split; [cbn; now rewrite Hlen|]. split; [exact Hok'|].
    cbv zeta in *. rewrite frees_app.
    destruct (Z.eq_dec ptr 0) as [E|E].
    + destruct (Hnull E) as [Hm Hf]. rewrite Hm in *. subst ptr.
      rewrite filter_cons_False by (intros Hc; now apply Hc).
      rewrite Hf. split; [exact Hfr | exact Hq].
    + destruct (Hlive E) as [Hm Hf].
      rewrite filter_cons_True by exact E.
      destruct (morgue_add_queue (morgue st) ptr Hok) as (_ & Hhd & Htl).
      rewrite Hm, Htl in Hfr, Hq. rewrite <- app_assoc in Hfr, Hq.
      cbn [app] in Hfr, Hq.
      rewrite Hf, Hhd. cbn [length app take drop tail]. rewrite Hfr.
      split; [reflexivity | exact Hq].
Qed.

Lemma filter_nonnull_all (ps : list Z) :
  Forall (fun x => x <> 0) ps -> filter (fun x => x <> 0) ps = ps.
Proof.
  induction 1 as [|x l Hx Hl IH]; [reflexivity|].
  rewrite filter_cons_True by exact Hx. now rewrite IH.
Qed.

(** C4.  From an empty morgue, [K] allocate-then-free cycles hand the backing
    [dlfree] the first [K] entries of sixteen nulls followed by the freed
    pointers: with [K = 16] it receives only null, with [K = 17] successful
    cycles exactly one pointer, the first one freed.  The ring keeps sixteen
    slots; each insertion overwrites the slot at the cursor with the new
    pointer and returns the value that slot held. *)
Theorem morgue_quarantine st ns :
  is_poison kAsanHeapOverrun ->
  morgue st = morgue_init ->
  Forall (fun n => 0 <= n) ns ->
  exists ps st' evs,
    cycles ns st = Ret ps st' /\
    trace st' = trace st ++ evs /\
    length ps = length ns /\
    length (AsanMorgue.p (morgue st')) = 16%nat /\
    (let qs := filter (fun x => x <> 0) ps in
     frees evs = take (length qs) (replicate 16 0 ++ qs)) /\
    (length ns = 16%nat -> Forall (fun r => r = 0) (frees evs)) /\
    (length ns = 17%nat -> Forall (fun x => x <> 0) ps ->
     frees evs = replicate 16 0 ++ [default 0 (head ps)] /\
     filter (fun r => r <> 0) (frees evs) = [default 0 (head ps)]) /\
    (forall m ptr, morgue_ok m ->
       let idx := Z.to_nat (AsanMorgue.i m) in
       let m' := snd (__asan_morgue_add m ptr) in
       morgue_ok m' /\
       AsanMorgue.p m !! idx = Some (fst (__asan_morgue_add m ptr)) /\
       AsanMorgue.p m' = <[idx := ptr]> (AsanMorgue.p m) /\
       AsanMorgue.p m' !! idx = Some ptr).
Proof.
  intros Ho Hm Hns.
  assert (Hok : morgue_ok (morgue st)) by (rewrite Hm; apply morgue_init_ok).
  destruct (cycles_run ns st Ho Hns Hok)
    as (ps & st' & evs & Hrun & Htr & Hlen & Hok' & Hfr & _).
  rewrite Hm, morgue_init_queue in Hfr. cbv zeta in Hfr.
  exists ps, st', evs.
  split; [exact Hrun|]. split; [exact Htr|]. split; [exact Hlen|].
  split; [apply Hok'|]. split; [exact Hfr|].
  split; [|split].
  - intros H16. rewrite Hfr.
    pose proof (length_filter (fun x => x <> 0) ps) as Hle.
    rewrite take_app_le by (rewrite length_replicate; lia).
    rewrite take_replicate. apply Forall_replicate. reflexivity.
  - intros H17 Hall. rewrite Hfr, (filter_nonnull_all ps Hall).
    rewrite Hlen, H17.
    destruct ps as [|p1 rest]; [cbn in Hlen; lia|].
    cbn [head default from_option id].
    inversion Hall as [|? ? Hp1 _]; subst.
    change (take 17 (replicate 16 0 ++ p1 :: rest)) with (replicate 16 0 ++ [p1]).
    split; [reflexivity|]. rewrite filter_app.
    rewrite (filter_cons_True _ p1 []) by exact Hp1. reflexivity.
  - intros m ptr Hmo idx m'.
    destruct (morgue_add_queue m ptr Hmo) as (Hmo' & _).
    destruct (morgue_add_slot m ptr Hmo) as (H1 & H2 & H3 & _).
    split; [exact Hmo'|]. split; [exact H1|]. split; [exact H2 | exact H3].
Qed.

(** ** Order of shadow writes and backing calls *)

(** C9 (as amended).  [__asan_allocate] performs all of its shadow writes
    (two underrun bytes, the body zeros, the partial byte, two overrun bytes)
    after the backing [dlmemalign] and before it returns the pointer: the
    state handed back with the pointer already holds them.  In
    [__asan_deallocate] the poisoning [memset] comes first and the backing
    [dlfree] of the evicted pointer last. *)
Theorem shadow_write_order st :
  (forall align size underrun overrun ptr h',
     dlmemalign (backing st) align (wrap64 (wrap64 (ROUNDUP size 8) + 16))
       = (ptr, h') ->
     ptr <> 0 ->
     exists st',
       __asan_allocate align size underrun overrun st = Ret ptr st' /\
       trace st' = trace st ++
         EvMemalign align (wrap64 (wrap64 (ROUNDUP size 8) + 16)) ptr
           :: allocate_writes ptr size underrun overrun /\
       shadow st' = replay (shadow st)
                      (allocate_writes ptr size underrun overrun) /\
       all_before is_backing_alloc is_shadow_write
         (EvMemalign align (wrap64 (wrap64 (ROUNDUP size 8) + 16)) ptr
            :: allocate_writes ptr size underrun overrun)) /\
  (forall ptr kind,
     let c := shadow st (SHADOW ptr) in
     ~ ((c < 0 /\ c <> kAsanHeapOverrun) \/ 8 <= c) ->
     exists st' evs,
       __asan_deallocate ptr kind st = Ret tt st' /\
       trace st' = trace st ++ evs /\
       evs = [EvMemset (SHADOW ptr) kind
                (Z.shiftr (dlmalloc_usable_size (backing st) ptr) 3);
              EvFree (fst (__asan_morgue_add (morgue st) ptr))] /\
       shadow st' = replay (shadow st) evs /\
       all_before is_shadow_write is_backing_free evs).
Proof.
  split.
  - intros align size underrun overrun ptr h' Hd Hp.
    eexists. split; [exact (allocate_run _ _ _ _ _ _ _ Hd Hp)|].
    cbn [trace shadow]. rewrite <- app_assoc.
    split; [reflexivity|]. split; [reflexivity|].
    intros i j e1 e2 Hi Hj H1 H2.
    destruct i as [|i].
    + destruct j as [|j]; [|lia].
      cbn in Hj. injection Hj as <-. discriminate H2.
    + exfalso. cbn [lookup list_lookup] in Hi. unfold allocate_writes in Hi.
      destruct (size mod 8 =? 0); cbn [app] in Hi;
        repeat (destruct i as [|i];
                [cbn in Hi; injection Hi as <-; discriminate H1|]);
        cbn in Hi; discriminate Hi.
  - intros ptr kind c Hc.
    do 2 eexists. split; [exact (deallocate_run st ptr kind Hc)|].
    cbn [trace shadow]. rewrite <- app_assoc.
    split; [reflexivity|]. split; [reflexivity|]. split; [reflexivity|].
    intros i j e1 e2 Hi Hj H1 H2.
    destruct i as [|[|i]]; cbn in Hi; try discriminate Hi.
    + destruct j as [|j]; [|lia].
      cbn in Hj. injection Hj as <-. discriminate H2.
    + injection Hi as <-. discriminate H1.
Qed.

(** ** Redzone painting *)

Lemma redzone_start addr size :
  0 <= addr -> 0 <= size ->
  let a := addr mod 8 + size in
  SHADOW (addr - addr mod 8 + ROUNDUP a 8)
  = if a mod 8 =? 0 then SHADOW (addr + size) else SHADOW (addr + size) + 1.
Proof.
  intros Ha Hs a. rewrite !SHADOW_div.
  destruct (Z.eqb_spec (a mod 8) 0); subst a; zdiv.
Qed.

Lemma poison_redzone_run st addr size redsize kind :
  let w := addr mod 8 in
  let a := w + size in
  let b := w + redsize in
  let start := SHADOW (addr - w + ROUNDUP a 8) in
  let count := (ROUNDDOWN b 8 - ROUNDUP a 8) / 8 in
  0 <= addr -> 0 <= size -> 0 <= redsize -> addr + redsize < 2 ^ 63 ->
  ROUNDUP a 8 <= b ->
  __asan_poison_redzone addr size redsize kind st
  = Ret tt
      {| shadow :=
           memset (if a mod 8 =? 0 then shadow st
                   else poke (shadow st) (SHADOW (addr + size)) (a mod 8))
             start kind count;
         memory := memory st; morgue := morgue st; backing := backing st;
         trace := trace st ++
           (if a mod 8 =? 0 then []
            else [EvStore (SHADOW (addr + size)) (a mod 8)]) ++
           [EvMemset start kind count] |}.
Proof.
  intros w a b start count Haddr Hsize Hred Hmax Hab.
  assert (Hw : 0 <= w < 8) by (apply Z.mod_pos_bound; lia).
  assert (Hwle : w <= addr) by (subst w; Z.div_mod_to_equations; lia).
  assert (Hra : a <= ROUNDUP a 8 < a + 8) by zdiv.
  unfold __asan_poison_redzone, bind.
  rewrite !land7_mod. fold w.
  rewrite (sint64_small (addr - w)) by lia.
  rewrite (wrap64_small (w + size)) by lia. fold a.
  rewrite (wrap64_small (w + redsize)) by lia. fold b.
  rewrite (wrap64_small (addr - w + a)) by lia.
  rewrite (wrap64_small (ROUNDUP a 8)) by lia.
  rewrite (wrap64_small (b - ROUNDUP a 8)) by lia.
  rewrite shiftr3_div.
  replace (addr - w + a) with (addr + size) by lia.
  assert (Hcount : (b - ROUNDUP a 8) / 8 = count) by (subst count; zdiv).
  rewrite Hcount.
  pose proof (redzone_start addr size Haddr Hsize) as Hstart.
  cbv zeta in Hstart. fold w a start in Hstart.
  assert (Hsa : 0 <= a mod 8 < 8) by (apply Z.mod_pos_bound; lia).
  destruct (Z.eqb_spec (a mod 8) 0) as [Ha0 | Ha0]; rewrite <- Hstart.
  - unfold memset_shadow, ret, log. cbn [trace shadow app]. reflexivity.
  - unfold memset_shadow, store_shadow, ret, log. cbn [trace shadow app].
    rewrite (schar_small (a mod 8)) by lia. rewrite <- app_assoc.
    reflexivity.
Qed.

(** C2 (as amended).  With [w = addr mod 8], [a = w + size] and
    [b = w + redsize], and provided the redzone reaches the end of the last
    body word, [__asan_poison_redzone] stores the partial byte [a mod 8] at
    the shadow byte covering [addr + size] when [a mod 8] is not zero, and
    then sets exactly [(roundDown(b,8) - roundUp(a,8)) / 8] consecutive shadow
    bytes to [kind], starting at the shadow byte of offset [roundUp(a,8)];
    every other shadow byte is left as it was. *)
Theorem poison_redzone_paints st addr size redsize kind :
  let w := addr mod 8 in
  let a := w + size in
  let b := w + redsize in
  let start := SHADOW (addr - w + ROUNDUP a 8) in
  let count := (ROUNDDOWN b 8 - ROUNDUP a 8) / 8 in
  0 <= addr -> 0 <= size -> 0 <= redsize -> addr + redsize < 2 ^ 63 ->
  ROUNDUP a 8 <= b ->
  exists st',
    __asan_poison_redzone addr size redsize kind st = Ret tt st' /\
    trace st' = trace st ++
      (if a mod 8 =? 0 then []
       else [EvStore (SHADOW (addr + size)) (a mod 8)]) ++
      [EvMemset start kind count] /\
    (a mod 8 <> 0 -> shadow st' (SHADOW (addr + size)) = a mod 8) /\
    (forall j, 0 <= j < count -> shadow st' (start + j) = schar kind) /\
    (forall x, ~ (start <= x < start + count) ->
       a mod 8 = 0 \/ x <> SHADOW (addr + size) ->
       shadow st' x = shadow st x).
Proof.
  intros w a b start count Haddr Hsize Hred Hmax Hab.
  eexists.
  split; [exact (poison_redzone_run st addr size redsize kind
                   Haddr Hsize Hred Hmax Hab)|].
  cbn [trace shadow]. fold w a b start count.
  split; [reflexivity|].
  pose proof (redzone_start addr size Haddr Hsize) as Hstart.
  cbv zeta in Hstart. fold w a start in Hstart.
  destruct (Z.eqb_spec (a mod 8) 0) as [Ha0 | Ha0].
  - split; [contradiction|]. split; intros; bytes_cases.
  - split; [|split]; intros; bytes_cases.
Qed.

(** ** Stack slots *)

(** The writes of the two scope hooks for [n] not a multiple of 8.
    [__asan_poison_stack_memory] paints [n / 8] shadow bytes with
    [kAsanUnscoped] and then stores [8 - (n mod 8)] at the shadow byte
    covering [ptr + n], a value between 1 and 7.
    [__asan_unpoison_stack_memory] paints zeros and stores [n mod 8] there. *)
Theorem stack_memory_partial st ptr n :
  0 <= ptr -> 0 <= n -> ptr + n < 2 ^ 64 -> n mod 8 <> 0 ->
  (exists st',
     __asan_poison_stack_memory ptr n st = Ret tt st' /\
     trace st' = trace st ++
       [EvMemset (SHADOW ptr) kAsanUnscoped (n / 8);
        EvStore (SHADOW (ptr + n)) (8 - n mod 8)] /\
     shadow st' (SHADOW (ptr + n)) = 8 - n mod 8 /\
     0 < shadow st' (SHADOW (ptr + n)) < 8 /\
     (forall j, 0 <= j < n / 8 ->
        shadow st' (SHADOW ptr + j) = schar kAsanUnscoped)) /\
  (exists st',
     __asan_unpoison_stack_memory ptr n st = Ret tt st' /\
     trace st' = trace st ++
       [EvMemset (SHADOW ptr) 0 (n / 8);
        EvStore (SHADOW (ptr + n)) (n mod 8)] /\
     shadow st' (SHADOW (ptr + n)) = n mod 8 /\
     0 < shadow st' (SHADOW (ptr + n)) < 8 /\
     (forall j, 0 <= j < n / 8 -> shadow st' (SHADOW ptr + j) = 0)).
Proof.
  intros Hp Hn Hmax Hr.
  assert (Hm : 0 <= n mod 8 < 8) by (apply Z.mod_pos_bound; lia).
  assert (Hs : SHADOW ptr + n / 8 <= SHADOW (ptr + n))
    by (rewrite !SHADOW_div; Z.div_mod_to_equations; lia).
  unfold __asan_poison_stack_memory, __asan_unpoison_stack_memory, bind.
  rewrite !land7_mod, !shiftr3_div, (wrap64_small (ptr + n)) by lia.
  destruct (Z.eqb_spec (n mod 8) 0) as [|_]; [contradiction|].
  split; eexists; (split; [reflexivity|]); cbn [trace shadow]; unfold log;
    cbn [trace]; unfold log; rewrite <- app_assoc;
    rewrite ?(schar_small (8 - n mod 8)), ?(schar_small (n mod 8)) by lia;
    (split; [reflexivity|]).
  - assert (E : poke (memset (shadow st) (SHADOW ptr) kAsanUnscoped (n / 8))
                  (SHADOW (ptr + n)) (8 - n mod 8) (SHADOW (ptr + n))
                = 8 - n mod 8) by (unfold poke; now rewrite Z.eqb_refl).
    rewrite E. split; [reflexivity|]. split; [lia|].
    intros j Hj. bytes_cases.
  - assert (E : poke (memset (shadow st) (SHADOW ptr) 0 (n / 8))
                  (SHADOW (ptr + n)) (n mod 8) (SHADOW (ptr + n))
                = n mod 8) by (unfold poke; now rewrite Z.eqb_refl).
    rewrite E. split; [reflexivity|]. split; [lia|].
    intros j Hj. bytes_cases.
Qed.

(** ** [realloc] and [calloc] *)

(** C6.  For [realloc(ptr, n)] with [ptr] and [n] non-zero: when the new
    block cannot be allocated the result is null and shadow, memory and
    morgue are exactly as before; when it can, [min(n, usable(ptr))] bytes
    are copied from the old block into the new one and the old block is then
    handed to [__asan_deallocate] with kind [kAsanRelocated], which (unless
    it reports a fault) paints its shadow with that kind. *)
Theorem realloc_relocates st ptr n p2 h' :
  ptr <> 0 -> n <> 0 ->
  dlmemalign (backing st) 16 (wrap64 (wrap64 (ROUNDUP n 8) + 16)) = (p2, h') ->
  let u := dlmalloc_usable_size h' ptr in
  (p2 = 0 ->
   exists st',
     __asan_realloc ptr n st = Ret 0 st' /\
     shadow st' = shadow st /\ memory st' = memory st /\
     morgue st' = morgue st /\
     trace st' = trace st ++
       [EvMemalign 16 (wrap64 (wrap64 (ROUNDUP n 8) + 16)) 0]) /\
  (p2 <> 0 ->
   exists st2,
     shadow st2 = replay (shadow st)
       (allocate_writes p2 n kAsanHeapUnderrun kAsanHeapOverrun) /\
     memory st2 = memcpy (memory st) p2 ptr (Z.min n u) /\
     (forall i, 0 <= i < Z.min n u ->
        memory st2 (p2 + i) = memory st (ptr + i)) /\
     morgue st2 = morgue st /\ backing st2 = h' /\
     __asan_realloc ptr n st
     = match __asan_deallocate ptr kAsanRelocated st2 with
       | Ret _ st3 => Ret p2 st3
       | Exit status msg st3 => Exit status msg st3
       end /\
     (let c := shadow st2 (SHADOW ptr) in
      ~ ((c < 0 /\ c <> kAsanHeapOverrun) \/ 8 <= c) ->
      exists st3,
        __asan_realloc ptr n st = Ret p2 st3 /\
        memory st3 = memory st2 /\
        (forall j, 0 <= j < u / 8 ->
           shadow st3 (SHADOW ptr + j) = schar kAsanRelocated) /\
        morgue st3 = snd (__asan_morgue_add (morgue st) ptr))).
Proof.
  intros Hp Hn Hd u. unfold __asan_realloc.
  destruct (Z.eqb_spec ptr 0) as [|_]; [contradiction|].
  destruct (Z.eqb_spec n 0) as [|_]; [contradiction|].
  cbn [negb]. split.
  - intros ->. unfold bind, __asan_malloc, __asan_memalign.
    rewrite (allocate_null _ _ _ _ _ _ Hd). cbn.
    eexists. split; [reflexivity|]. cbn. repeat split.
  - intros Hp2.
    set (st2 := {| shadow := replay (shadow st)
                     (allocate_writes p2 n kAsanHeapUnderrun kAsanHeapOverrun);
                   memory := memcpy (memory st) p2 ptr (Z.min n u);
                   morgue := morgue st; backing := h';
                   trace := (trace st ++
                     [EvMemalign 16 (wrap64 (wrap64 (ROUNDUP n 8) + 16)) p2])
                     ++ allocate_writes p2 n kAsanHeapUnderrun
                          kAsanHeapOverrun |}).
    assert (Heq : (p2 <- __asan_malloc n;;
                   (if negb (p2 =? 0)
                    then u0 <- call_dlmalloc_usable_size ptr;;
                         memcpy_memory p2 ptr (Z.min n u0);;;
                         __asan_deallocate ptr kAsanRelocated;;; ret p2
                    else ret p2)) st
                  = match __asan_deallocate ptr kAsanRelocated st2 with
                    | Ret _ st3 => Ret p2 st3
                    | Exit status msg st3 => Exit status msg st3
                    end).
    { unfold bind at 1. rewrite (malloc_run _ _ _ _ Hd Hp2).
      destruct (Z.eqb_spec p2 0) as [|_]; [contradiction|]. cbn [negb].
      reflexivity. }
    exists st2. rewrite Heq. clear Heq. subst st2.
    cbn [shadow memory morgue backing trace].
    split; [reflexivity|]. split; [reflexivity|].
    split.
    { intros i Hi. unfold memcpy.
      replace ((p2 <=? p2 + i) && (p2 + i <? p2 + Z.min n u)) with true
        by (symmetry; bytes_cases).
      f_equal. lia. }
    split; [reflexivity|]. split; [reflexivity|].
    split; [reflexivity|].
    intros Hc. rewrite deallocate_run by exact Hc.
    eexists. split; [reflexivity|]. cbn [shadow memory morgue backing].
    split; [reflexivity|]. split; [|reflexivity].
    intros j Hj. change (dlmalloc_usable_size h' ptr) with u.
    rewrite shiftr3_div. bytes_cases.
Qed.

(** [calloc(n, m)] computes the product with an overflow check and on
    overflow asks [malloc] for [SIZE_MAX] bytes.  What follows depends on the
    answer to the request that [__asan_allocate] makes of the backing
    allocator, which is for [ROUNDUP(size, 8) + 16] bytes modulo [2 ^ 64]: if
    that request is turned down, [calloc] returns null without a report and
    leaves shadow, memory and morgue as they were; if the product does not
    overflow and the request is served, every one of the [n * m] body bytes
    is zero when the pointer is returned. *)
Theorem calloc_saturates st n m ptr h' :
  0 <= n < 2 ^ 64 -> 0 <= m < 2 ^ 64 ->
  let size := if 2 ^ 64 <=? n * m then SIZE_MAX else n * m in
  dlmemalign (backing st) 16 (wrap64 (wrap64 (ROUNDUP size 8) + 16))
    = (ptr, h') ->
  __asan_calloc n m st
  = bind (__asan_malloc size)
      (fun q => bind (if q =? 0 then ret tt else memset_memory q 0 size)
                  (fun _ => ret q)) st /\
  (ptr = 0 ->
   exists st',
     __asan_calloc n m st = Ret 0 st' /\
     shadow st' = shadow st /\ memory st' = memory st /\
     morgue st' = morgue st /\
     trace st' = trace st ++
       [EvMemalign 16 (wrap64 (wrap64 (ROUNDUP size 8) + 16)) 0]) /\
  (ptr <> 0 -> n * m < 2 ^ 64 ->
   exists st',
     __asan_calloc n m st = Ret ptr st' /\
     (forall i, 0 <= i < n * m -> memory st' (ptr + i) = 0)).
Proof.
  intros Hn Hm size Hd.
  assert (Hc : __asan_calloc n m st
               = bind (__asan_malloc size)
                   (fun q => bind (if q =? 0 then ret tt
                                   else memset_memory q 0 size)
                               (fun _ => ret q)) st).
  { unfold __asan_calloc, mul_overflow. subst size.
    destruct (Z.leb_spec (2 ^ 64) (n * m)).
    - reflexivity.
    - rewrite (wrap64_small (n * m)) by nia. reflexivity. }
  split; [exact Hc|]. rewrite Hc. clear Hc. split.
  - intros ->. unfold bind at 1. unfold __asan_malloc, __asan_memalign.
    rewrite (allocate_null _ _ _ _ _ _ Hd). cbn.
    eexists. split; [reflexivity|]. cbn. repeat split.
  - intros Hp Hnm. unfold bind at 1. rewrite (malloc_run _ _ _ _ Hd Hp).
    destruct (Z.eqb_spec ptr 0) as [|_]; [contradiction|].
    unfold bind, memset_memory, ret. cbn [shadow memory morgue backing trace].
    eexists. split; [reflexivity|]. cbn [memory].
    intros i Hi. subst size.
    destruct (Z.leb_spec (2 ^ 64) (n * m)); [lia|]. bytes_cases.
Qed.

(** ** Globals *)

Lemma SHADOW_mono (x y : Z) : x <= y -> SHADOW x <= SHADOW y.
Proof. intros H. rewrite !SHADOW_div. Z.div_mod_to_equations. lia. Qed.

Lemma unregister_global_run st g :
  0 <= AsanGlobal.addr g -> 0 <= AsanGlobal.size_with_redzone g ->
  AsanGlobal.addr g + AsanGlobal.size_with_redzone g + 8 < 2 ^ 63 ->
  exists st',
    unregister_global g st = Ret tt st' /\
    forall x, shadow st' x
              = if in_unregistered_span g x then schar kAsanGlobalUnregistered
                else shadow st x.
Proof.
  intros Ha Hr Hmax. unfold unregister_global, in_unregistered_span.
  set (addr := AsanGlobal.addr g) in *.
  set (red := AsanGlobal.size_with_redzone g) in *.
  assert (Hup : addr <= ROUNDUP addr 8 < addr + 8) by zdiv.
  assert (Hdn : addr + red - 8 < ROUNDDOWN (addr + red) 8 <= addr + red)
    by zdiv.
  rewrite (wrap64_small (addr + red)) by lia.
  rewrite !sint64_small by lia.
  destruct (Z.ltb_spec (ROUNDUP addr 8) (ROUNDDOWN (addr + red) 8)) as [Hlt|Hge].
  - assert (Hc : (ROUNDDOWN (addr + red) 8 - ROUNDUP addr 8) / 8
                 = SHADOW (ROUNDDOWN (addr + red) 8) - SHADOW (ROUNDUP addr 8))
      by (rewrite !SHADOW_div; zdiv).
    rewrite shiftr3_div, wrap64_small by (Z.div_mod_to_equations; lia).
    eexists. split; [reflexivity|]. cbn [shadow]. intros x.
    unfold memset. rewrite Hc.
    replace (SHADOW (ROUNDUP addr 8) +
             (SHADOW (ROUNDDOWN (addr + red) 8) - SHADOW (ROUNDUP addr 8)))
      with (SHADOW (ROUNDDOWN (addr + red) 8)) by lia.
    reflexivity.
  - eexists. split; [reflexivity|]. intros x.
    pose proof (SHADOW_mono _ _ Hge).
    replace ((SHADOW (ROUNDUP addr 8) <=? x) &&
             (x <? SHADOW (ROUNDDOWN (addr + red) 8))) with false
      by (symmetry; bytes_cases).
    reflexivity.
Qed.

Lemma register_global_run st g :
  global_wf g ->
  exists st',
    register_global g st = Ret tt st' /\
    forall x, in_unregistered_span g x = false -> shadow st' x = shadow st x.
Proof.
  unfold global_wf, register_global, in_unregistered_span.
  set (addr := AsanGlobal.addr g). set (size := AsanGlobal.size g).
  set (red := AsanGlobal.size_with_redzone g).
  intros (Ha & Hs & Hr & Hmax & Hab & Hpart).
  eexists.
  split; [exact (poison_redzone_run st addr size red kAsanGlobalOverrun
                   Ha Hs Hr ltac:(lia) Hab)|].
  cbn [shadow]. intros x Hx.
  assert (Hframe : forall sh y,
            ~ (SHADOW (addr - addr mod 8 + ROUNDUP (addr mod 8 + size) 8) <= y
               < SHADOW (addr - addr mod 8 + ROUNDUP (addr mod 8 + size) 8)
                 + (ROUNDDOWN (addr mod 8 + red) 8
                    - ROUNDUP (addr mod 8 + size) 8) / 8) ->
            (addr mod 8 + size) mod 8 = 0 \/ y <> SHADOW (addr + size) ->
            memset (if (addr mod 8 + size) mod 8 =? 0 then sh
                    else poke sh (SHADOW (addr + size))
                           ((addr mod 8 + size) mod 8))
              (SHADOW (addr - addr mod 8 + ROUNDUP (addr mod 8 + size) 8))
              kAsanGlobalOverrun
              ((ROUNDDOWN (addr mod 8 + red) 8
                - ROUNDUP (addr mod 8 + size) 8) / 8) y = sh y).
  { intros sh y Hout Hpb.
    destruct (Z.eqb_spec ((addr mod 8 + size) mod 8) 0); bytes_cases. }
  apply Hframe.
  - rewrite !SHADOW_div in *. intros Hin.
    assert (Hlo : ROUNDUP addr 8 / 8
                  <= (addr - addr mod 8 + ROUNDUP (addr mod 8 + size) 8) / 8)
      by zdiv.
    assert (Hhi : (addr - addr mod 8 + ROUNDUP (addr mod 8 + size) 8) / 8 +
                  (ROUNDDOWN (addr mod 8 + red) 8
                   - ROUNDUP (addr mod 8 + size) 8) / 8
                  <= ROUNDDOWN (addr + red) 8 / 8) by zdiv.
    apply andb_false_iff in Hx.
    destruct Hx as [Hx|Hx]; [apply Z.leb_gt in Hx | apply Z.ltb_ge in Hx]; lia.
  - destruct (Z.eq_dec ((addr mod 8 + size) mod 8) 0) as [E|E]; [now left|].
    right. intros ->. rewrite !SHADOW_div in Hx.
    assert (Hlo : ROUNDUP addr 8 / 8 <= (addr + size) / 8) by zdiv.
    assert (Hhi : (addr + size) / 8 < ROUNDDOWN (addr + red) 8 / 8) by zdiv.
    apply andb_false_iff in Hx.
    destruct Hx as [Hx|Hx]; [apply Z.leb_gt in Hx | apply Z.ltb_ge in Hx]; lia.
Qed.

Lemma unregister_globals_run gs : forall st,
  Forall global_wf gs ->
  exists st',
    for_each unregister_global gs st = Ret tt st' /\
    forall x, shadow st' x
              = if existsb (fun g => in_unregistered_span g x) gs
                then schar kAsanGlobalUnregistered
                else shadow st x.
Proof.
  induction gs as [|g gs IH]; intros st Hwf.
  - exists st. split; reflexivity.
  - inversion Hwf as [|? ? Hg Hgs]; subst.
    destruct Hg as (Ha & _ & Hr & Hmax & _).
    destruct (unregister_global_run st g Ha Hr Hmax) as (st1 & Hrun1 & Hsh1).
    destruct (IH st1 Hgs) as (st' & Hrun & Hsh).
    exists st'. cbn [for_each]. unfold bind. rewrite Hrun1.
    split; [exact Hrun|]. intros x. rewrite Hsh, Hsh1. cbn [existsb].
    destruct (in_unregistered_span g x), (existsb _ gs); reflexivity.
Qed.

Lemma register_globals_run gs : forall st,
  Forall global_wf gs ->
  exists st',
    for_each register_global gs st = Ret tt st' /\
    forall x, existsb (fun g => in_unregistered_span g x) gs = false ->
              shadow st' x = shadow st x.
Proof.
  induction gs as [|g gs IH]; intros st Hwf.
  - exists st. split; reflexivity.
  - inversion Hwf as [|? ? Hg Hgs]; subst.
    destruct (register_global_run st g Hg) as (st1 & Hrun1 & Hsh1).
    destruct (IH st1 Hgs) as (st' & Hrun & Hsh).
    exists st'. cbn [for_each]. unfold bind. rewrite Hrun1.
    split; [exact Hrun|]. intros x Hx. cbn [existsb] in Hx.
    apply orb_false_iff in Hx. destruct Hx as [Hg' Hgs'].
    rewrite Hsh, Hsh1 by assumption. reflexivity.
Qed.

(** C8 (as amended).  For a descriptor array whose entries are well formed
    ([global_wf]: no wrap-around, the redzone reaches the end of the last
    body word, and the body ends on a word boundary or inside the span that
    unregistering paints), unregistering, registering and unregistering
    again leaves the shadow exactly as a single unregistering does.
    Unregistering paints the shadow of the words from [roundUp(addr,8)] to
    [roundDown(addr + size_with_redzone, 8)] with [kAsanGlobalUnregistered];
    registering is [__asan_poison_redzone] with [kAsanGlobalOverrun]. *)
Theorem unregister_idempotent st g n :
  Forall global_wf (take (Z.to_nat (wrap32 n)) g) ->
  exists st1 st2 st3,
    __asan_unregister_globals g n st = Ret tt st1 /\
    __asan_register_globals g n st1 = Ret tt st2 /\
    __asan_unregister_globals g n st2 = Ret tt st3 /\
    (forall x, shadow st3 x = shadow st1 x) /\
    (forall x, shadow st1 x
               = if existsb (fun d => in_unregistered_span d x)
                      (take (Z.to_nat (wrap32 n)) g)
                 then schar kAsanGlobalUnregistered
                 else shadow st x) /\
    (forall d, register_global d
               = __asan_poison_redzone (AsanGlobal.addr d) (AsanGlobal.size d)
                   (AsanGlobal.size_with_redzone d) kAsanGlobalOverrun).
Proof.
  intros Hwf. unfold __asan_unregister_globals, __asan_register_globals.
  destruct (unregister_globals_run _ st Hwf) as (st1 & Hrun1 & Hsh1).
  destruct (register_globals_run _ st1 Hwf) as (st2 & Hrun2 & Hsh2).
  destruct (unregister_globals_run _ st2 Hwf) as (st3 & Hrun3 & Hsh3).
  exists st1, st2, st3.
  split; [exact Hrun1|]. split; [exact Hrun2|]. split; [exact Hrun3|].
  split; [|split; [exact Hsh1 | reflexivity]].
  intros x. rewrite Hsh3, Hsh1.
  destruct (existsb _ _) eqn:Hc; [reflexivity|].
  rewrite Hsh2, Hsh1, Hc by exact Hc. reflexivity.
Qed.

(** ** The usable-size scan *)

Lemma usable_scan_zero fuel sh s n :
  sh s = 0 ->
  usable_scan (S fuel) sh s n = usable_scan fuel sh (s + 1) (wrap64 (n + 8)).
Proof. intros H. cbn [usable_scan]. rewrite H. reflexivity. Qed.

Lemma usable_scan_positive fuel sh s n :
  0 < sh s ->
  usable_scan (S fuel) sh s n
  = usable_scan fuel sh (s + 1) (wrap64 (n + Z.land (sh s) 7)).
Proof.
  intros H. cbn [usable_scan].
  destruct (Z.eqb_spec (sh s) 0); [lia|].
  destruct (Z.ltb_spec 0 (sh s)); [reflexivity | lia].
Qed.

Lemma usable_scan_negative fuel sh s n :
  sh s < 0 -> usable_scan (S fuel) sh s n = Some n.
Proof.
  intros H. cbn [usable_scan].
  destruct (Z.eqb_spec (sh s) 0); [lia|].
  destruct (Z.ltb_spec 0 (sh s)); [lia | reflexivity].
Qed.

Lemma usable_scan_runs_on fuel : forall sh s n,
  (forall k, 0 <= k < Z.of_nat fuel -> 0 <= sh (s + k)) ->
  usable_scan fuel sh s n = None.
Proof.
  induction fuel as [|fuel IH]; intros sh s n Hnn; [reflexivity|].
  assert (H0 : 0 <= sh s)
    by (replace s with (s + 0) by lia; apply Hnn; lia).
  assert (Hrest : forall k, 0 <= k < Z.of_nat fuel -> 0 <= sh (s + 1 + k)).
  { intros k Hk. replace (s + 1 + k) with (s + (k + 1)) by lia.
    apply Hnn. lia. }
  destruct (Z.eq_dec (sh s) 0) as [E|E].
  - rewrite usable_scan_zero by exact E. now apply IH.
  - rewrite usable_scan_positive by lia. now apply IH.
Qed.

Lemma usable_scan_stops (k : nat) : forall sh s n,
  sh (s + Z.of_nat k) < 0 ->
  exists fuel r, usable_scan fuel sh s n = Some r.
Proof.
  induction k as [|k IH]; intros sh s n Hneg.
  - exists 1%nat, n. apply usable_scan_negative.
    now replace (s + Z.of_nat 0) with s in Hneg by lia.
  - replace (s + Z.of_nat (S k)) with (s + 1 + Z.of_nat k) in Hneg by lia.
    destruct (Z.lt_trichotomy (sh s) 0) as [Hs|[Hs|Hs]].
    + exists 1%nat, n. now apply usable_scan_negative.
    + destruct (IH sh (s + 1) (wrap64 (n + 8)) Hneg) as (fuel & r & Hr).
      exists (S fuel), r. now rewrite usable_scan_zero.
    + destruct (IH sh (s + 1) (wrap64 (n + Z.land (sh s) 7)) Hneg)
        as (fuel & r & Hr).
      exists (S fuel), r. now rewrite usable_scan_positive.
Qed.

Lemma usable_scan_found fuel : forall sh s n r,
  usable_scan fuel sh s n = Some r ->
  exists k, 0 <= k < Z.of_nat fuel /\ sh (s + k) < 0.
Proof.
  induction fuel as [|fuel IH]; intros sh s n r Hr; [discriminate|].
  destruct (Z.lt_trichotomy (sh s) 0) as [Hs|[Hs|Hs]].
  - exists 0. split; [lia|]. now replace (s + 0) with s by lia.
  - rewrite usable_scan_zero in Hr by exact Hs.
    destruct (IH _ _ _ _ Hr) as (k & Hk & Hneg).
    exists (k + 1). split; [lia|].
    now replace (s + (k + 1)) with (s + 1 + k) by lia.
  - rewrite usable_scan_positive in Hr by exact Hs.
    destruct (IH _ _ _ _ Hr) as (k & Hk & Hneg).
    exists (k + 1). split; [lia|].
    now replace (s + (k + 1)) with (s + 1 + k) by lia.
Qed.

(** C10.  The scan of [__asan_malloc_usable_size] adds 8 for a zero shadow
    byte and [byte & 7] for a positive one and in both cases moves on to the
    next byte; only a negative byte ends it.  It therefore returns exactly
    when some shadow byte at or after [SHADOW vp] is negative, and on a
    shadow with no negative byte from there on it never returns. *)
Theorem usable_size_scan sh vp :
  (forall fuel s n, sh s = 0 ->
     usable_scan (S fuel) sh s n
     = usable_scan fuel sh (s + 1) (wrap64 (n + 8))) /\
  (forall fuel s n, 0 < sh s ->
     usable_scan (S fuel) sh s n
     = usable_scan fuel sh (s + 1) (wrap64 (n + Z.land (sh s) 7))) /\
  (forall fuel s n, sh s < 0 -> usable_scan (S fuel) sh s n = Some n) /\
  ((exists fuel r, __asan_malloc_usable_size fuel sh vp = Some r)
   <-> (exists k, 0 <= k /\ sh (SHADOW vp + k) < 0)) /\
  ((forall k, 0 <= k -> 0 <= sh (SHADOW vp + k)) ->
   forall fuel, __asan_malloc_usable_size fuel sh vp = None).
Proof.
  split; [intros; now apply usable_scan_zero|].
  split; [intros; now apply usable_scan_positive|].
  split; [intros; now apply usable_scan_negative|].
  unfold __asan_malloc_usable_size. split; [split|].
  - intros (fuel & r & Hr).
    destruct (usable_scan_found _ _ _ _ _ Hr) as (k & Hk & Hneg).
    exists k. split; [lia | exact Hneg].
  - intros (k & Hk & Hneg).
    apply (usable_scan_stops (Z.to_nat k)).
    now rewrite Z2Nat.id by exact Hk.
  - intros Hnn fuel. apply usable_scan_runs_on.
    intros k Hk. apply Hnn. lia.
Qed.

End Properties.

(** * Concrete runs *)

(** C1, evaluated: [malloc(13)] on the fresh arena returns [0x10010] and the
    shadow around it reads underrun, underrun, 0, 5, overrun, overrun. *)
Lemma malloc_shadow_layout_witness :
  exists st',
    @__asan_malloc sample_kinds arena_backing 13 st0 = Ret 65552 st' /\
    shadow st' (SHADOW 65552 - 2) = -4 /\
    shadow st' (SHADOW 65552 - 1) = -4 /\
    map (shadow st')
      [SHADOW 65552; SHADOW 65552 + 1; SHADOW 65552 + 2; SHADOW 65552 + 3]
    = [0; 5; -5; -5].
Proof.
  destruct (@malloc_shadow_layout sample_kinds arena_backing st0 13 65552
              (snd (arena_memalign (arena0 0x20000) 16 32)))
    as (st' & Hrun & _ & _ & Hu2 & Hu1 & _ & _ & _ & H13).
  - unfold is_poison. cbn. lia.
  - unfold is_poison. cbn. lia.
  - lia.
  - reflexivity.
  - lia.
  - reflexivity.
  - exists st'. split; [exact Hrun|]. split; [exact Hu2|].
    split; [exact Hu1|]. exact (H13 eq_refl).
Defined.

(** C1, the claim as stated fails: offset 13 of a 13-byte block is covered by
    the partial byte 5, not by [kAsanHeapOverrun], and a fault there is
    described as "poisoned". *)
Lemma malloc_overrun_offsets_cex :
  let out := @__asan_malloc sample_kinds arena_backing 13 st0 in
  (exists st', out = Ret 65552 st') /\
  65552 mod 16 = 0 /\
  shadow (state_of out) (SHADOW (65552 + 13)) = 5 /\
  @__asan_describe_access_poison sample_kinds 5 = "poisoned"%string /\
  ~ (forall i, 13 <= i <= 13 + 15 ->
       shadow (state_of out) (SHADOW (65552 + i))
       = @kAsanHeapOverrun sample_kinds).
Proof.
  cbv zeta.
  split.
  { eexists.
    apply (@malloc_run sample_kinds arena_backing st0 13 65552
             (snd (arena_memalign (arena0 0x20000) 16 32)));
      [reflexivity | lia]. }
  split; [reflexivity|]. split; [vm_compute; reflexivity|].
  split; [reflexivity|].
  intros H. specialize (H 13 ltac:(lia)). vm_compute in H. discriminate H.
Qed.

(** C2, evaluated at an unaligned address: partial byte 5, then four redzone
    bytes. *)
Lemma poison_redzone_paints_witness :
  exists st',
    @__asan_poison_redzone arena_backing 4099 10 45 (-6) st0 = Ret tt st' /\
    trace st' = [EvStore (SHADOW 4109) 5; EvMemset (SHADOW 4112) (-6) 4] /\
    shadow st' (SHADOW 4109) = 5 /\
    (forall j, 0 <= j < 4 -> shadow st' (SHADOW 4112 + j) = -6).
Proof.
  destruct (@poison_redzone_paints arena_backing st0 4099 10 45 (-6))
    as (st' & Hrun & Htr & Hpart & Hred & _).
  - lia.
  - lia.
  - lia.
  - lia.
  - vm_compute. discriminate.
  - exists st'. split; [exact Hrun|]. split; [exact Htr|].
    split; [apply Hpart; vm_compute; discriminate | exact Hred].
Defined.

(** C2, the claim as stated fails: with [redsize] not reaching a word
    boundary the count rounds down, so the word the spec's formula would
    paint is left alone. *)
Lemma poison_redzone_count_cex :
  let out := @__asan_poison_redzone arena_backing 0 8 12 (-6) st0 in
  let a := 0 mod 8 + 8 in
  let b := 0 mod 8 + 12 in
  ROUNDUP a 8 <= b /\
  (ROUNDUP b 8 - ROUNDUP a 8) / 8 = 1 /\
  trace (state_of out) = [EvMemset (SHADOW 8) (-6) 0] /\
  shadow (state_of out) (SHADOW (0 - 0 mod 8 + ROUNDUP a 8)) = 0 /\
  ~ (forall j, 0 <= j < (ROUNDUP b 8 - ROUNDUP a 8) / 8 ->
       shadow (state_of out) (SHADOW (0 - 0 mod 8 + ROUNDUP a 8) + j)
       = schar (-6)).
Proof.
  cbv zeta. split; [vm_compute; discriminate|]. split; [reflexivity|].
  split; [vm_compute; reflexivity|]. split; [vm_compute; reflexivity|].
  intros H. specialize (H 0 ltac:(vm_compute; split; [discriminate|reflexivity])).
  vm_compute in H. discriminate H.
Qed.

(** C3, evaluated: freeing a fresh 8-byte block twice reports a double free;
    freeing a fresh 0-byte block, whose head byte is [kAsanHeapOverrun],
    does not fault. *)
Lemma deallocate_fault_iff_witness :
  (exists st1,
     @__asan_free sample_kinds arena_backing sample_itoa 65552
       (st_malloc 8 0x20000) = Ret tt st1 /\
     shadow st1 (SHADOW 65552) = -1 /\
     @__asan_free sample_kinds arena_backing sample_itoa 65552 st1
     = Exit 66 ("error: heap double free -1 at 0x000000010010" ++ newline) st1)
  /\
  (shadow (st_malloc 0 0x20000) (SHADOW 65552) = -5 /\
   exists st',
     @__asan_deallocate sample_kinds arena_backing sample_itoa 65552 (-1)
       (st_malloc 0 0x20000) = Ret tt st' /\
     trace st' = trace (st_malloc 0 0x20000) ++
       [EvMemset (SHADOW 65552) (-1) 2; EvFree 0]).
Proof.
  split.
  - destruct (@deallocate_fault_iff sample_kinds arena_backing sample_itoa
                (st_malloc 8 0x20000) 65552 (-1)) as (_ & _ & Hdouble & _).
    assert (Hfree :
      @__asan_free sample_kinds arena_backing sample_itoa 65552
        (st_malloc 8 0x20000)
      = Ret tt (state_of (@__asan_free sample_kinds arena_backing sample_itoa
                            65552 (st_malloc 8 0x20000)))).
    { unfold __asan_free. cbn [Z.eqb].
      rewrite (@deallocate_run sample_kinds arena_backing sample_itoa).
      - reflexivity.
      - vm_compute. intros [[H _]|H]; [discriminate H | apply H; reflexivity]. }
    eexists. split; [exact Hfree|].
    apply Hdouble.
    + unfold is_poison. cbn. lia.
    + cbn. lia.
    + lia.
    + vm_compute. discriminate.
    + exact Hfree.
  - split; [vm_compute; reflexivity|].
    destruct (@deallocate_fault_iff sample_kinds arena_backing sample_itoa
                (st_malloc 0 0x20000) 65552 (-1)) as (_ & _ & _ & Hover).
    destruct Hover as (st' & Hrun & _ & _ & Htr).
    + unfold is_poison. cbn. lia.
    + vm_compute. reflexivity.
    + exists st'. split; [exact Hrun|]. exact Htr.
Defined.

(** C4, evaluated: seventeen 8-byte cycles hand [dlfree] sixteen nulls and
    then the first block; sixteen cycles hand it nulls only. *)
Lemma morgue_quarantine_witness :
  (exists ps st' evs,
     @cycles sample_kinds arena_backing sample_itoa (replicate 17 8) st0
       = Ret ps st' /\
     trace st' = trace st0 ++ evs /\
     head ps = Some 65552 /\
     frees evs = replicate 16 0 ++ [65552]) /\
  (exists ps st' evs,
     @cycles sample_kinds arena_backing sample_itoa (replicate 16 8) st0
       = Ret ps st' /\
     trace st' = trace st0 ++ evs /\
     Forall (fun r => r = 0) (frees evs)).
Proof.
  split.
  - destruct (@morgue_quarantine sample_kinds arena_backing sample_itoa st0
                (replicate 17 8))
      as (ps & st' & evs & Hrun & Htr & _ & _ & _ & _ & H17 & _).
    + unfold is_poison. cbn. lia.
    + reflexivity.
    + apply Forall_replicate. lia.
    + assert (Hps : Some ps
                    = result_of (@cycles sample_kinds arena_backing sample_itoa
                                   (replicate 17 8) st0))
        by (rewrite Hrun; reflexivity).
      vm_compute in Hps. injection Hps as ->.
      eexists. exists st', evs. split; [exact Hrun|]. split; [exact Htr|].
      split; [reflexivity|].
      refine (proj1 (H17 eq_refl _)).
      repeat (apply Forall_cons; split; [discriminate|]). apply Forall_nil_2.
  - destruct (@morgue_quarantine sample_kinds arena_backing sample_itoa st0
                (replicate 16 8))
      as (ps & st' & evs & Hrun & Htr & _ & _ & _ & H16 & _).
    + unfold is_poison. cbn. lia.
    + reflexivity.
    + apply Forall_replicate. lia.
    + exists ps, st', evs. split; [exact Hrun|]. split; [exact Htr|].
      apply H16. reflexivity.
Defined.

(** The scope hooks on three bytes at [0x1000]. *)
Lemma stack_memory_partial_witness :
  (exists st',
     @__asan_poison_stack_memory sample_kinds arena_backing 4096 3 st0
       = Ret tt st' /\
     shadow st' (SHADOW (4096 + 3)) = 5) /\
  (exists st',
     @__asan_unpoison_stack_memory arena_backing 4096 3 st0 = Ret tt st' /\
     shadow st' (SHADOW (4096 + 3)) = 3).
Proof.
  destruct (@stack_memory_partial sample_kinds arena_backing st0 4096 3)
    as ((st1 & Hrun1 & _ & Hb1 & _) & (st2 & Hrun2 & _ & Hb2 & _)).
  - lia.
  - lia.
  - lia.
  - vm_compute. discriminate.
  - split; [exists st1 | exists st2]; split; assumption.
Defined.

(** C5, evaluated at the failing input.  The eight bytes at [0x1000] are first
    put out of scope, so that their shadow byte is [kAsanUnscoped] and none of
    them is addressable.  Poisoning the first three of them once more stores
    [8 - 3 = 5] in the shadow byte covering [0x1000 + 3], which is that same
    byte.  The stored value is not negative, and under the shadow encoding it
    makes the first five bytes of the word addressable, the three that were
    to be poisoned among them.  [__asan_unpoison_stack_memory] stores 3 on
    the same input. *)
Lemma poison_stack_exposes_bytes :
  let poison := @__asan_poison_stack_memory sample_kinds arena_backing in
  let st1 := state_of (poison 4096 8 st0) in
  let st2 := state_of (poison 4096 3 st1) in
  3 mod 8 <> 0 /\
  SHADOW (4096 + 3) = SHADOW 4096 /\
  shadow st1 (SHADOW 4096) = -12 /\
  (forall i, 0 <= i < 8 -> addressable (shadow st1) (4096 + i) = false) /\
  result_of (poison 4096 3 st1) = Some tt /\
  trace st2
    = trace st1 ++ [EvMemset (SHADOW 4096) (-12) 0; EvStore (SHADOW 4099) 5] /\
  shadow st2 (SHADOW (4096 + 3)) = 5 /\
  ~ (shadow st2 (SHADOW (4096 + 3)) < 0) /\
  (forall i, 0 <= i < 5 -> addressable (shadow st2) (4096 + i) = true) /\
  shadow (state_of (@__asan_unpoison_stack_memory arena_backing 4096 3 st1))
    (SHADOW (4096 + 3)) = 3.
Proof.
  cbv zeta. split; [vm_compute; discriminate|].
  split; [vm_compute; reflexivity|]. split; [vm_compute; reflexivity|].
  split.
  { intros i Hi.
    assert (Hc : i = 0 \/ i = 1 \/ i = 2 \/ i = 3 \/ i = 4 \/ i = 5 \/
                 i = 6 \/ i = 7) by lia.
    repeat (destruct Hc as [->|Hc]; [vm_compute; reflexivity|]).
    subst i. vm_compute. reflexivity. }
  split; [vm_compute; reflexivity|]. split; [vm_compute; reflexivity|].
  split; [vm_compute; reflexivity|]. split; [vm_compute; discriminate|].
  split; [|vm_compute; reflexivity].
  intros i Hi.
  assert (Hc : i = 0 \/ i = 1 \/ i = 2 \/ i = 3 \/ i = 4) by lia.
  repeat (destruct Hc as [->|Hc]; [vm_compute; reflexivity|]).
  subst i. vm_compute. reflexivity.
Qed.

(** C6, evaluated: growing the 8-byte block at [0x10010] to 100 bytes fails on
    an arena with no room left and relocates it on a roomy one. *)
Lemma realloc_relocates_witness :
  (exists st',
     @__asan_realloc sample_kinds arena_backing sample_itoa 65552 100
       (st_malloc 8 0x10030) = Ret 0 st' /\
     shadow st' = shadow (st_malloc 8 0x10030) /\
     memory st' = memory (st_malloc 8 0x10030)) /\
  (exists st3,
     @__asan_realloc sample_kinds arena_backing sample_itoa 65552 100
       (st_malloc 8 0x20000) = Ret 65600 st3 /\
     (forall j, 0 <= j < 3 -> shadow st3 (SHADOW 65552 + j) = -3)).
Proof.
  split.
  - destruct (@realloc_relocates sample_kinds arena_backing sample_itoa
                (st_malloc 8 0x10030) 65552 100 0
                (snd (arena_memalign (backing (st_malloc 8 0x10030)) 16 120)))
      as (Hfail & _).
    + lia.
    + lia.
    + vm_compute. reflexivity.
    + destruct (Hfail eq_refl) as (st' & Hrun & Hsh & Hmem & _).
      exists st'. split; [exact Hrun|]. split; [exact Hsh | exact Hmem].
  - destruct (@realloc_relocates sample_kinds arena_backing sample_itoa
                (st_malloc 8 0x20000) 65552 100 65600
                (snd (arena_memalign (backing (st_malloc 8 0x20000)) 16 120)))
      as (_ & Hok).
    + lia.
    + lia.
    + vm_compute. reflexivity.
    + destruct Hok as (st2 & Hsh2 & _ & _ & _ & _ & _ & Hrun);
        [lia|].
      destruct Hrun as (st3 & Hrun & _ & Hpaint & _).
      * rewrite Hsh2. vm_compute.
        intros [[H _]|H]; [discriminate H | apply H; reflexivity].
      * exists st3. split; [exact Hrun|]. exact Hpaint.
Defined.

(** [calloc(SIZE_MAX/2, 4)] on an arena with no room at all returns null and
    leaves the shadow alone; [calloc(3, 5)] on a roomy one returns fifteen
    zero bytes. *)
Lemma calloc_saturates_witness :
  (exists st',
     @__asan_calloc sample_kinds arena_backing (2 ^ 63 - 1) 4 (boot 0x10000)
       = Ret 0 st' /\
     shadow st' = shadow (boot 0x10000) /\
     trace st' = [EvMemalign 16 16 0]) /\
  (exists st',
     @__asan_calloc sample_kinds arena_backing 3 5 st0 = Ret 65552 st' /\
     (forall i, 0 <= i < 15 -> memory st' (65552 + i) = 0)).
Proof.
  split.
  - destruct (@calloc_saturates sample_kinds arena_backing (boot 0x10000)
                (2 ^ 63 - 1) 4 0 (arena0 0x10000))
      as (_ & Hnull & _).
    + lia.
    + lia.
    + vm_compute. reflexivity.
    + destruct (Hnull eq_refl) as (st' & Hrun & Hsh & _ & _ & Htr).
      exists st'. split; [exact Hrun|]. split; [exact Hsh | exact Htr].
  - destruct (@calloc_saturates sample_kinds arena_backing st0 3 5 65552
                (snd (arena_memalign (arena0 0x20000) 16 32)))
      as (_ & _ & Hok).
    + lia.
    + lia.
    + vm_compute. reflexivity.
    + destruct Hok as (st' & Hrun & Hzero); [lia | lia |].
      exists st'. split; [exact Hrun | exact Hzero].
Defined.

(** The request that reaches the backing allocator for a saturated size: the
    rounding wraps around, so it is a request for 16 bytes. *)
Lemma saturated_backing_request :
  wrap64 (wrap64 (ROUNDUP SIZE_MAX 8) + 16) = 16.
Proof. reflexivity. Qed.

(** C7, evaluated at the failing input: [calloc(SIZE_MAX/2, 4)] on an arena
    that has room for small blocks and turns a request for [SIZE_MAX] bytes
    down.  The product overflows and is replaced by [SIZE_MAX], but
    [__asan_allocate] asks the arena for [ROUNDUP(SIZE_MAX, 8) + 16] bytes,
    which wraps around to 16.  The arena serves that request, so [calloc]
    does not return null: it returns a block of 16 usable bytes, having
    poisoned the shadow before it and cleared [2 ^ 61 - 1] shadow bytes from
    its start on, far beyond the block. *)
Lemma calloc_overflow_on_roomy_arena :
  let out := @__asan_calloc sample_kinds arena_backing (2 ^ 63 - 1) 4 st0 in
  2 ^ 64 <= (2 ^ 63 - 1) * 4 /\
  fst (arena_memalign (arena0 0x20000) 16 SIZE_MAX) = 0 /\
  wrap64 (wrap64 (ROUNDUP SIZE_MAX 8) + 16) = 16 /\
  result_of out = Some 65552 /\
  arena_usable_size (backing (state_of out)) 65552 = 16 /\
  trace (state_of out)
    = [EvMemalign 16 16 65552;
       EvStore (SHADOW 65552 - 2) (-4); EvStore (SHADOW 65552 - 1) (-4);
       EvMemset (SHADOW 65552) 0 (2 ^ 61 - 1);
       EvStore (SHADOW 65552 + (2 ^ 61 - 1)) 7;
       EvStore (SHADOW 65552 + 2 ^ 61) (-5);
       EvStore (SHADOW 65552 + 2 ^ 61 + 1) (-5)] /\
  shadow st0 (SHADOW 65552 - 1) = 0 /\
  shadow (state_of out) (SHADOW 65552 - 1) = -4.
Proof.
  cbv zeta. split; [vm_compute; discriminate|].
  repeat (split; [vm_compute; reflexivity|]). vm_compute. reflexivity.
Qed.

(** C8, evaluated on one aligned descriptor. *)
Lemma unregister_idempotent_witness :
  exists st1 st2 st3,
    @__asan_unregister_globals sample_kinds arena_backing
      [global_at 4096 13 64] 1 st0 = Ret tt st1 /\
    @__asan_register_globals sample_kinds arena_backing
      [global_at 4096 13 64] 1 st1 = Ret tt st2 /\
    @__asan_unregister_globals sample_kinds arena_backing
      [global_at 4096 13 64] 1 st2 = Ret tt st3 /\
    (forall x, shadow st3 x = shadow st1 x).
Proof.
  destruct (@unregister_idempotent sample_kinds arena_backing st0
              [global_at 4096 13 64] 1)
    as (st1 & st2 & st3 & H1 & H2 & H3 & Heq & _).
  - apply Forall_cons. split; [|apply Forall_nil_2].
    unfold global_wf. cbn. vm_compute.
    repeat split; try discriminate. right. discriminate.
  - exists st1, st2, st3. repeat split; assumption.
Defined.

(** C8, the claim as stated fails: for a global at an odd address whose body
    ends inside its first word, registering stores a partial byte that
    unregistering never repaints. *)
Lemma unregister_idempotent_cex :
  let g := [global_at 1 2 32] in
  let s1 := state_of (@__asan_unregister_globals sample_kinds arena_backing
                        g 1 st0) in
  let s2 := state_of (@__asan_register_globals sample_kinds arena_backing
                        g 1 s1) in
  let s3 := state_of (@__asan_unregister_globals sample_kinds arena_backing
                        g 1 s2) in
  shadow s1 (SHADOW 3) = 0 /\
  shadow s3 (SHADOW 3) = 3 /\
  ~ (forall x, shadow s3 x = shadow s1 x).
Proof.
  cbv zeta. split; [vm_compute; reflexivity|].
  split; [vm_compute; reflexivity|].
  intros H. specialize (H (SHADOW 3)). vm_compute in H. discriminate H.
Qed.

(** C9, evaluated: the events of [malloc(8)] and of the [free] after it. *)
Lemma shadow_write_order_witness :
  (exists st',
     @__asan_allocate arena_backing 16 8 (-4) (-5) st0 = Ret 65552 st' /\
     trace st' = [EvMemalign 16 24 65552;
                  EvStore (SHADOW 65552 - 2) (-4);
                  EvStore (SHADOW 65552 - 1) (-4);
                  EvMemset (SHADOW 65552) 0 1;
                  EvStore (SHADOW 65552 + 1) (-5);
                  EvStore (SHADOW 65552 + 2) (-5)]) /\
  (exists st' evs,
     @__asan_deallocate sample_kinds arena_backing sample_itoa 65552 (-1)
       (st_malloc 8 0x20000) = Ret tt st' /\
     evs = [EvMemset (SHADOW 65552) (-1) 3; EvFree 0] /\
     all_before is_shadow_write is_backing_free evs).
Proof.
  destruct (@shadow_write_order sample_kinds arena_backing sample_itoa st0)
    as (Halloc & _).
  destruct (@shadow_write_order sample_kinds arena_backing sample_itoa
              (st_malloc 8 0x20000)) as (_ & Hfree).
  split.
  - destruct (Halloc 16 8 (-4) (-5) 65552
                (snd (arena_memalign (arena0 0x20000) 16 24)))
      as (st' & Hrun & Htr & _); [reflexivity | lia |].
    exists st'. split; [exact Hrun | exact Htr].
  - destruct (Hfree 65552 (-1)) as (st' & evs & Hrun & _ & Hevs & _ & Hord).
    + vm_compute. intros [[H _]|H]; [discriminate H | apply H; reflexivity].
    + exists st', evs. split; [exact Hrun|]. split; [exact Hevs | exact Hord].
Defined.

(** C9, the claim as stated fails: in [free] the poisoning [memset] is logged
    before the backing [dlfree], not after it. *)
Lemma deallocate_order_cex :
  let out := @__asan_deallocate sample_kinds arena_backing sample_itoa
               65552 (-1) (st_malloc 8 0x20000) in
  let evs := [EvMemset (SHADOW 65552) (-1) 3; EvFree 0] in
  result_of out = Some tt /\
  trace (state_of out) = trace (st_malloc 8 0x20000) ++ evs /\
  ~ all_before is_backing_free is_shadow_write evs.
Proof.
  cbv zeta. split; [vm_compute; reflexivity|].
  split; [vm_compute; reflexivity|].
  intros H.
  specialize (H 1%nat 0%nat (EvFree 0) (EvMemset (SHADOW 65552) (-1) 3)
                eq_refl eq_refl eq_refl eq_refl).
  lia.
Qed.

(** C10, evaluated: the scan walks past the partial byte 5 and the clean word
    and stops at the poison, returning 5 + 8. *)
Lemma usable_size_scan_witness :
  __asan_malloc_usable_size 3 scan_demo 0 = Some 13 /\
  (exists fuel r, __asan_malloc_usable_size fuel scan_demo 0 = Some r) /\
  __asan_malloc_usable_size 2 scan_demo 0 = None.
Proof.
  destruct (usable_size_scan scan_demo 0) as (Hz & Hp & Hn & Hiff & _).
  split; [|split].
  - unfold __asan_malloc_usable_size.
    rewrite Hp by reflexivity. rewrite Hz by reflexivity.
    rewrite Hn by reflexivity. reflexivity.
  - apply Hiff. exists 2. split; [lia | reflexivity].
  - unfold __asan_malloc_usable_size.
    rewrite Hp by reflexivity. rewrite Hz by reflexivity. reflexivity.
Defined.

(** * Further properties of the runtime *)

Section Extras.
Context {K : AsanKinds} {B : Backing} {F : Itoa}.

(** ** The usable-size scan on allocator-written shadow *)

Lemma usable_scan_more_fuel fuel : forall sh s acc r k,
  usable_scan fuel sh s acc = Some r ->
  usable_scan (fuel + k) sh s acc = Some r.
Proof.
  induction fuel as [|fuel IH]; intros sh s acc r k Hr; [discriminate|].
  cbn [usable_scan Nat.add] in *.
  destruct (sh s =? 0); [now apply IH|].
  destruct (0 <? sh s); [now apply IH | exact Hr].
Qed.

Lemma usable_scan_zeros (k : nat) : forall fuel sh s acc,
  0 <= acc < 2 ^ 64 ->
  (forall j, 0 <= j < Z.of_nat k -> sh (s + j) = 0) ->
  usable_scan (k + fuel) sh s acc
  = usable_scan fuel sh (s + Z.of_nat k) (wrap64 (acc + 8 * Z.of_nat k)).
Proof.
  induction k as [|k IH]; intros fuel sh s acc Hacc Hz.
  - cbn [Nat.add]. rewrite Z.add_0_r, Z.mul_0_r, Z.add_0_r.
    now rewrite wrap64_small.
  - cbn [Nat.add]. rewrite usable_scan_zero
      by (replace s with (s + 0) by lia; apply Hz; lia).
    rewrite IH.
    + f_equal; [lia|]. unfold wrap64.
      rewrite Zplus_mod_idemp_l. f_equal. lia.
    + unfold wrap64. apply Z.mod_pos_bound. lia.
    + intros j Hj. replace (s + 1 + j) with (s + (j + 1)) by lia.
      apply Hz. lia.
Qed.

(** X1.  [malloc_usable_size] of a block fresh from [malloc(n)] is exactly
    [n]: the scan counts the [n / 8] clean words, adds the partial byte and
    stops at the right redzone. *)
Theorem usable_size_after_malloc st n ptr h' :
  is_poison kAsanHeapOverrun ->
  0 <= n < 2 ^ 64 ->
  dlmemalign (backing st) 16 (wrap64 (wrap64 (ROUNDUP n 8) + 16)) = (ptr, h') ->
  ptr <> 0 ->
  exists st',
    __asan_malloc n st = Ret ptr st' /\
    forall fuel, (Z.to_nat (n / 8) + 2 <= fuel)%nat ->
      __asan_malloc_usable_size fuel (shadow st') ptr = Some n.
Proof.
  intros Ho Hn Hd Hp.
  eexists. split; [exact (malloc_run _ _ _ _ Hd Hp)|]. cbn [shadow].
  intros fuel Hfuel. unfold __asan_malloc_usable_size.
  assert (Hn0 : 0 <= n) by lia.
  assert (Hq : 0 <= n / 8) by (apply Z.div_pos; lia).
  assert (Hr : 0 <= n mod 8 < 8) by (apply Z.mod_pos_bound; lia).
  replace fuel with (Z.to_nat (n / 8) + (2 + (fuel - Z.to_nat (n / 8) - 2)))%nat
    by lia.
  rewrite usable_scan_zeros;
    [| lia | intros j Hj; apply allocate_shadow_body; [exact Hn0 | lia]].
  rewrite Z2Nat.id by exact Hq. rewrite Z.add_0_l.
  rewrite (wrap64_small (8 * (n / 8))) by (Z.div_mod_to_equations; lia).
  apply usable_scan_more_fuel.
  pose proof (schar_poison _ Ho) as Eo. unfold is_poison in Ho.
  destruct (Z.eq_dec (n mod 8) 0) as [E|E].
  - rewrite usable_scan_negative.
    + f_equal. Z.div_mod_to_equations. lia.
    + rewrite allocate_shadow_overrun; [lia | exact Hn0 | zdiv].
  - rewrite usable_scan_positive
      by (rewrite allocate_shadow_partial; [lia | exact Hn0 | exact E]).
    rewrite allocate_shadow_partial by assumption.
    rewrite usable_scan_negative.
    + f_equal. rewrite land7_mod, Z.mod_mod by lia.
      rewrite wrap64_small; Z.div_mod_to_equations; lia.
    + replace (SHADOW ptr + n / 8 + 1) with (SHADOW ptr + (n / 8 + 1)) by lia.
      rewrite allocate_shadow_overrun; [lia | exact Hn0 | zdiv].
Qed.

(** ** What a program sees after [malloc] and [free] *)

Lemma malloc_head_not_faulty sh ptr n :
  is_poison kAsanHeapOverrun -> 0 <= n ->
  let c := replay sh (allocate_writes ptr n kAsanHeapUnderrun kAsanHeapOverrun)
             (SHADOW ptr) in
  ~ ((c < 0 /\ c <> kAsanHeapOverrun) \/ 8 <= c).
Proof.
  intros Ho Hn c.
  pose proof (allocate_shadow_head sh ptr n kAsanHeapUnderrun
                kAsanHeapOverrun Hn) as Hh.
  cbv zeta in Hh. fold c in Hh. rewrite (schar_poison _ Ho) in Hh.
  unfold is_poison in Ho. lia.
Qed.

Ltac describe_cases tac :=
  repeat (match goal with
    | |- context [?a =? ?b] => destruct (Z.eqb_spec a b)
    end; simpl; try (exfalso; tac)); try reflexivity.

Lemma describe_access_partial c :
  Forall is_poison palette -> 0 <= c ->
  __asan_describe_access_poison c = "poisoned"%string.
Proof.
  intros Hneg Hc. unfold palette in Hneg.
  repeat (apply Forall_cons in Hneg; destruct Hneg as [? Hneg]).
  unfold is_poison in *. unfold __asan_describe_access_poison.
  describe_cases lia.
Qed.

Lemma describe_access_overrun :
  NoDup palette ->
  __asan_describe_access_poison kAsanHeapOverrun = "heap overrun"%string /\
  __asan_describe_access_poison kAsanHeapUnderrun = "heap underrun"%string /\
  __asan_describe_access_poison kAsanRelocated
    = "heap use after relocate"%string.
Proof.
  intros Hnd. unfold palette in Hnd.
  repeat (apply NoDup_cons in Hnd; destruct Hnd as [? Hnd]).
  repeat match goal with
    | H : _ ∉ _ :: _ |- _ => apply not_elem_of_cons in H; destruct H
    end.
  unfold __asan_describe_access_poison.
  split; [|split]; describe_cases congruence.
Qed.

(** X2.  After [free] of a block fresh from [malloc(n)], every body byte is
    poisoned with [kAsanHeapFree]: it is unaddressable, an access to it is
    reported as "heap use after free" with exit status 66, and
    [malloc_usable_size] of the block is 0. *)
Theorem use_after_free st n ptr h' :
  is_poison kAsanHeapOverrun -> is_poison kAsanHeapFree ->
  0 < n ->
  dlmemalign (backing st) 16 (wrap64 (wrap64 (ROUNDUP n 8) + 16)) = (ptr, h') ->
  ptr <> 0 -> ptr mod 8 = 0 ->
  ROUNDUP n 8 <= dlmalloc_usable_size h' ptr ->
  exists st1 st2,
    __asan_malloc n st = Ret ptr st1 /\
    __asan_free ptr st1 = Ret tt st2 /\
    (forall i, 0 <= i < n ->
       shadow st2 (SHADOW (ptr + i)) = kAsanHeapFree /\
       addressable (shadow st2) (ptr + i) = false /\
       forall sz, - 2 ^ 31 <= sz < 2 ^ 31 ->
         __asan_report_load_n (A := unit) (ptr + i) sz st2
         = Exit 66 ("error: heap use after free "
                    ++ uint64toarray_radix10 (wrap64 sz)
                    ++ "-byte load at 0x"
                    ++ uint64toarray_fixed16 (ptr + i) 48 ++ newline)%string
             st2) /\
    (forall fuel,
       __asan_malloc_usable_size (S fuel) (shadow st2) ptr = Some 0).
Proof.
  intros Ho Hf Hn Hd Hp Hal Hu.
  eexists. eexists. split; [exact (malloc_run _ _ _ _ Hd Hp)|].
  unfold __asan_free. destruct (Z.eqb_spec ptr 0) as [|_]; [contradiction|].
  split.
  { apply deallocate_run. cbn [shadow]. apply malloc_head_not_faulty; [exact Ho | lia]. }
  cbn [shadow backing]. rewrite shiftr3_div.
  set (u := dlmalloc_usable_size h' ptr) in *.
  pose proof (schar_poison _ Hf) as Ef.
  assert (Hup : n <= ROUNDUP n 8) by zdiv.
  assert (Hin : forall i, 0 <= i < n ->
            memset (replay (shadow st)
                      (allocate_writes ptr n kAsanHeapUnderrun kAsanHeapOverrun))
              (SHADOW ptr) kAsanHeapFree (u / 8) (SHADOW (ptr + i))
            = kAsanHeapFree).
  { intros i Hi. rewrite SHADOW_offset by exact Hal. unfold memset.
    replace ((SHADOW ptr <=? SHADOW ptr + i / 8) &&
             (SHADOW ptr + i / 8 <? SHADOW ptr + u / 8)) with true;
      [exact Ef|].
    assert (Hw : i / 8 < u / 8) by (clear - Hi Hu Hup; zdiv).
    assert (0 <= i / 8) by (apply Z.div_pos; lia).
    symmetry. apply andb_true_iff. split.
    - apply Z.leb_le. lia.
    - apply Z.ltb_lt. lia. }
  split.
  - intros i Hi. split; [now apply Hin|]. split.
    + unfold addressable. rewrite Hin by exact Hi.
      unfold is_poison in Hf. bytes_cases.
    + intros sz _. unfold __asan_report_load_n, __asan_report_memory_fault,
        bind, load_shadow, __asan_die. cbn [shadow].
      rewrite Hin by exact Hi.
      unfold memory_fault_message, __asan_describe_access_poison.
      rewrite Z.eqb_refl. reflexivity.
  - intros fuel. unfold __asan_malloc_usable_size.
    apply usable_scan_negative.
    replace (SHADOW ptr) with (SHADOW (ptr + 0)) at 2 by (f_equal; lia).
    rewrite Hin by lia. unfold is_poison in Hf. lia.
Qed.

(** X3.  What the fault reporter prints around a fresh [malloc(n)] block,
    for a palette of distinct negative bytes: one byte before the block is
    "heap underrun"; the byte at offset [n] is "heap overrun" when [n] is a
    multiple of 8, but when it is not, that byte shares the partial shadow
    byte of the body's last word and the report says "poisoned". *)
Theorem reports_around_block st n ptr h' :
  Forall is_poison palette -> NoDup palette ->
  0 <= n ->
  dlmemalign (backing st) 16 (wrap64 (wrap64 (ROUNDUP n 8) + 16)) = (ptr, h') ->
  ptr <> 0 -> ptr mod 8 = 0 ->
  exists st1,
    __asan_malloc n st = Ret ptr st1 /\
    addressable (shadow st1) (ptr + n) = false /\
    (forall sz, - 2 ^ 31 <= sz < 2 ^ 31 ->
       __asan_report_store_n (A := unit) (ptr + n) sz st1
       = Exit 66 ("error: "
                  ++ (if (n mod 8 =? 0)%Z then "heap overrun" else "poisoned")
                  ++ " " ++ uint64toarray_radix10 (wrap64 sz)
                  ++ "-byte store at 0x"
                  ++ uint64toarray_fixed16 (ptr + n) 48 ++ newline)%string
           st1) /\
    addressable (shadow st1) (ptr - 1) = false /\
    (forall sz, - 2 ^ 31 <= sz < 2 ^ 31 ->
       __asan_report_load_n (A := unit) (ptr - 1) sz st1
       = Exit 66 ("error: heap underrun "
                  ++ uint64toarray_radix10 (wrap64 sz)
                  ++ "-byte load at 0x"
                  ++ uint64toarray_fixed16 (ptr - 1) 48 ++ newline)%string
           st1).
Proof.
  intros Hneg Hnd Hn Hd Hp Hal.
  destruct (describe_access_overrun Hnd) as (Dover & Dunder & _).
  pose proof (fun c => describe_access_partial c Hneg) as Dpart.
  assert (Ho : is_poison kAsanHeapOverrun).
  { unfold palette in Hneg.
    repeat (apply Forall_cons in Hneg; destruct Hneg as [? Hneg]).
    assumption. }
  assert (Hu : is_poison kAsanHeapUnderrun).
  { unfold palette in Hneg.
    repeat (apply Forall_cons in Hneg; destruct Hneg as [? Hneg]).
    assumption. }
  pose proof (schar_poison _ Ho) as Eo. pose proof (schar_poison _ Hu) as Eu.
  eexists. split; [exact (malloc_run _ _ _ _ Hd Hp)|]. cbn [shadow].
  assert (Hr : 0 <= n mod 8 < 8) by (apply Z.mod_pos_bound; lia).
  assert (Hbyte : replay (shadow st)
                    (allocate_writes ptr n kAsanHeapUnderrun kAsanHeapOverrun)
                    (SHADOW (ptr + n))
                  = if n mod 8 =? 0 then kAsanHeapOverrun else n mod 8).
  { rewrite SHADOW_offset by exact Hal.
    destruct (Z.eqb_spec (n mod 8) 0) as [E|E].
    - rewrite allocate_shadow_overrun; [exact Eo | exact Hn | zdiv].
    - now apply allocate_shadow_partial. }
  assert (Hleft : replay (shadow st)
                    (allocate_writes ptr n kAsanHeapUnderrun kAsanHeapOverrun)
                    (SHADOW (ptr - 1))
                  = kAsanHeapUnderrun).
  { replace (ptr - 1) with (ptr + -1) by lia.
    rewrite SHADOW_offset by exact Hal.
    rewrite allocate_shadow_underrun; [exact Eu | exact Hn |].
    right. reflexivity. }
  split; [|split; [|split]].
  - unfold addressable. rewrite Hbyte.
    replace ((ptr + n) mod 8) with (n mod 8) by (Z.div_mod_to_equations; lia).
    unfold is_poison in Ho.
    destruct (Z.eqb_spec (n mod 8) 0); bytes_cases.
  - intros sz _. unfold __asan_report_store_n, __asan_report_memory_fault,
      bind, load_shadow, __asan_die. cbn [shadow]. rewrite Hbyte.
    unfold memory_fault_message.
    destruct (Z.eqb_spec (n mod 8) 0) as [E|E].
    + rewrite Dover. reflexivity.
    + rewrite Dpart by lia. reflexivity.
  - unfold addressable. rewrite Hleft. unfold is_poison in Hu. bytes_cases.
  - intros sz _. unfold __asan_report_load_n, __asan_report_memory_fault,
      bind, load_shadow, __asan_die. cbn [shadow]. rewrite Hleft.
    unfold memory_fault_message. rewrite Dunder. reflexivity.
Qed.

(** ** The quarantine as a queue *)

(** X4.  Over any run of allocate-then-free cycles, from any well-formed
    morgue, the pointers handed to [dlfree] followed by the ring read in
    eviction order are exactly the ring's old contents followed by the
    pointers that were freed: every freed pointer is either still
    quarantined or has been released, once, and in the order of freeing. *)
Theorem quarantine_conserves st ns :
  is_poison kAsanHeapOverrun ->
  Forall (fun n => 0 <= n) ns ->
  morgue_ok (morgue st) ->
  exists ps st' evs,
    cycles ns st = Ret ps st' /\
    trace st' = trace st ++ evs /\
    morgue_ok (morgue st') /\
    frees evs ++ morgue_queue (morgue st')
    = morgue_queue (morgue st) ++ filter (fun x => x <> 0) ps.
Proof.
  intros Ho Hns Hok.
  destruct (cycles_run ns st Ho Hns Hok)
    as (ps & st' & evs & Hrun & Htr & _ & Hok' & Hfr & Hq).
  exists ps, st', evs. cbv zeta in Hfr, Hq.
  split; [exact Hrun|]. split; [exact Htr|]. split; [exact Hok'|].
  rewrite Hfr, Hq. apply take_drop.
Qed.

Lemma morgue_queue_perm m :
  morgue_queue m ≡ₚ AsanMorgue.p m.
Proof.
  unfold morgue_queue.
  etransitivity; [apply Permutation_app_comm|].
  rewrite take_drop. reflexivity.
Qed.

Lemma morgue_flush_loop (k : nat) : forall (start : nat) st,
  (start + k <= length (AsanMorgue.p (morgue st)))%nat ->
  exists st',
    for_each (fun idx => bind (morgue_take idx) call_dlfree) (seq start k) st
      = Ret tt st' /\
    AsanMorgue.i (morgue st') = AsanMorgue.i (morgue st) /\
    shadow st' = shadow st /\ memory st' = memory st /\
    length (AsanMorgue.p (morgue st')) = length (AsanMorgue.p (morgue st)) /\
    (forall j : nat,
       AsanMorgue.p (morgue st') !! j
       = if decide (start <= j < start + k)%nat then Some 0
         else AsanMorgue.p (morgue st) !! j) /\
    trace st' = trace st ++
      map EvFree (take k (drop start (AsanMorgue.p (morgue st)))).
Proof.
  induction k as [|k IH]; intros start st Hlen.
  - exists st. cbn [seq for_each ret take map]. rewrite app_nil_r.
    repeat split. intros j. rewrite decide_False by lia. reflexivity.
  - assert (Hlt : (start < length (AsanMorgue.p (morgue st)))%nat) by lia.
    destruct (lookup_lt_is_Some_2 _ _ Hlt) as [x Hx].
    cbn [seq for_each]. unfold bind at 1. unfold bind at 1.
    unfold morgue_take at 1. unfold call_dlfree at 1. rewrite Hx.
    cbn [default from_option id].
    match goal with
    | |- context [for_each _ (seq (S start) k) ?s] => set (st1 := s)
    end.
    destruct (IH (S start) st1) as (st' & Hrun & Hi & Hsh & Hmem & Hl & Hlook & Htr).
    { subst st1. cbn [morgue AsanMorgue.p]. rewrite length_insert. lia. }
    exists st'. split; [exact Hrun|].
    subst st1. cbn [morgue AsanMorgue.p AsanMorgue.i shadow memory trace] in *.
    rewrite length_insert in Hl.
    split; [exact Hi|]. split; [exact Hsh|]. split; [exact Hmem|].
    split; [exact Hl|]. split.
    + intros j. rewrite Hlook.
      destruct (decide (j = start)) as [->|Hne].
      * rewrite decide_False by lia. rewrite decide_True by lia.
        now apply list_lookup_insert_eq.
      * rewrite list_lookup_insert_ne by congruence.
        destruct (decide (S start <= j < S start + k)%nat).
        -- rewrite decide_True by lia. reflexivity.
        -- rewrite decide_False by lia. reflexivity.
    + rewrite Htr. unfold log. rewrite <- app_assoc. f_equal.
      rewrite drop_insert_lt by lia.
      rewrite (drop_S _ _ _ Hx). reflexivity.
Qed.

Lemma morgue_flush_run st :
  length (AsanMorgue.p (morgue st)) = 16%nat ->
  exists st',
    __asan_morgue_flush st = Ret tt st' /\
    morgue st' = {| AsanMorgue.i := AsanMorgue.i (morgue st);
                    AsanMorgue.p := replicate 16 0 |} /\
    trace st' = trace st ++ map EvFree (AsanMorgue.p (morgue st)) /\
    shadow st' = shadow st /\ memory st' = memory st.
Proof.
  intros Hlen.
  destruct (morgue_flush_loop 16 0 st)
    as (st' & Hrun & Hi & Hsh & Hmem & Hl & Hlook & Htr); [lia|].
  exists st'. split; [exact Hrun|].
  split; [|split; [|split; assumption]].
  - destruct (morgue st') as [i' p']. cbn [AsanMorgue.i AsanMorgue.p] in *.
    f_equal; [exact Hi|].
    apply list_eq. intros j. rewrite Hlook.
    destruct (decide (0 <= j < 0 + 16)%nat) as [Hj|Hj].
    + symmetry. apply lookup_replicate_2. lia.
    + rewrite (lookup_ge_None_2 (replicate 16 0))
        by (rewrite length_replicate; lia).
      apply lookup_ge_None_2. lia.
  - rewrite Htr. rewrite drop_0, take_ge by lia. reflexivity.
Qed.

Lemma frees_map_EvFree (l : list Z) : frees (map EvFree l) = l.
Proof.
  unfold frees. induction l as [|x l IH]; [reflexivity|].
  cbn. now rewrite IH.
Qed.

Lemma filter_nonnull_zeros (k : nat) :
  filter (fun x : Z => x <> 0) (replicate k 0) = [].
Proof.
  induction k as [|k IH]; [reflexivity|]. cbn [replicate].
  rewrite filter_cons_False by (intros H; now apply H). exact IH.
Qed.

(** X5.  [__asan_morgue_flush] nulls all sixteen slots, keeps the cursor,
    hands each slot's old value to [dlfree] in slot order and touches neither
    shadow nor memory.  Run after any number of allocate-then-free cycles
    from an empty morgue, it leaves no freed block behind: the non-null
    pointers [dlfree] has received are, up to order, exactly the pointers
    that were freed. *)
Theorem flush_releases_all st ns :
  is_poison kAsanHeapOverrun ->
  morgue st = morgue_init ->
  Forall (fun n => 0 <= n) ns ->
  exists ps st1 st2 evs,
    cycles ns st = Ret ps st1 /\
    __asan_morgue_flush st1 = Ret tt st2 /\
    trace st2 = trace st ++ evs /\
    AsanMorgue.p (morgue st2) = replicate 16 0 /\
    AsanMorgue.i (morgue st2) = AsanMorgue.i (morgue st1) /\
    shadow st2 = shadow st1 /\ memory st2 = memory st1 /\
    drop (length (frees evs) - 16) (frees evs) = AsanMorgue.p (morgue st1) /\
    filter (fun x => x <> 0) (frees evs) ≡ₚ filter (fun x => x <> 0) ps.
Proof.
  intros Ho Hm Hns.
  assert (Hok : morgue_ok (morgue st)) by (rewrite Hm; apply morgue_init_ok).
  destruct (cycles_run ns st Ho Hns Hok)
    as (ps & st1 & evs1 & Hrun & Htr & _ & Hok1 & Hfr & Hq).
  cbv zeta in Hfr, Hq. rewrite Hm, morgue_init_queue in Hfr, Hq.
  destruct (morgue_flush_run st1 (proj1 Hok1))
    as (st2 & Hflush & Hm2 & Htr2 & Hsh & Hmem).
  exists ps, st1, st2, (evs1 ++ map EvFree (AsanMorgue.p (morgue st1))).
  split; [exact Hrun|]. split; [exact Hflush|].
  split; [now rewrite Htr2, Htr, app_assoc|].
  rewrite Hm2. cbn [AsanMorgue.p AsanMorgue.i].
  split; [reflexivity|]. split; [reflexivity|].
  split; [exact Hsh|]. split; [exact Hmem|].
  rewrite frees_app, frees_map_EvFree. split.
  - rewrite length_app, (proj1 Hok1).
    replace (length (frees evs1) + 16 - 16)%nat with (length (frees evs1))
      by lia.
    now rewrite drop_app_length.
  - rewrite <- (morgue_queue_perm (morgue st1)), Hq, Hfr, take_drop.
    rewrite filter_app, filter_nonnull_zeros. cbn [app].
    rewrite list_filter_filter.
    apply Permutation_refl'. apply list_filter_iff. intros x. tauto.
Qed.

(** ** After a relocation *)

Lemma memset_head sh s c k : 1 <= k -> memset sh s c k s = schar c.
Proof. intros Hk. bytes_cases. Qed.

Lemma realloc_run st ptr n p2 h' :
  ptr <> 0 -> n <> 0 ->
  dlmemalign (backing st) 16 (wrap64 (wrap64 (ROUNDUP n 8) + 16)) = (p2, h') ->
  p2 <> 0 ->
  __asan_realloc ptr n st
  = match __asan_deallocate ptr kAsanRelocated
            {| shadow := replay (shadow st)
                 (allocate_writes p2 n kAsanHeapUnderrun kAsanHeapOverrun);
               memory := memcpy (memory st) p2 ptr
                           (Z.min n (dlmalloc_usable_size h' ptr));
               morgue := morgue st; backing := h';
               trace := (trace st ++
                 [EvMemalign 16 (wrap64 (wrap64 (ROUNDUP n 8) + 16)) p2])
                 ++ allocate_writes p2 n kAsanHeapUnderrun kAsanHeapOverrun |}
    with
    | Ret _ st3 => Ret p2 st3
    | Exit status msg st3 => Exit status msg st3
    end.
Proof.
  intros Hp Hn Hd Hp2. unfold __asan_realloc.
  destruct (Z.eqb_spec ptr 0) as [|_]; [contradiction|].
  destruct (Z.eqb_spec n 0) as [|_]; [contradiction|].
  cbn [negb]. unfold bind at 1. rewrite (malloc_run _ _ _ _ Hd Hp2).
  destruct (Z.eqb_spec p2 0) as [|_]; [contradiction|]. reflexivity.
Qed.

(** X6.  Once [realloc(ptr, n)] has returned a new block, the old block is
    poisoned with [kAsanRelocated]: an access to it is reported as "heap use
    after relocate", and freeing it again is reported as "free after
    relocate", both with exit status 66. *)
Theorem stale_pointer_after_realloc st ptr n p2 h' st3 :
  is_poison kAsanRelocated -> NoDup palette ->
  ptr <> 0 -> n <> 0 ->
  dlmemalign (backing st) 16 (wrap64 (wrap64 (ROUNDUP n 8) + 16)) = (p2, h') ->
  p2 <> 0 ->
  8 <= dlmalloc_usable_size h' ptr ->
  __asan_realloc ptr n st = Ret p2 st3 ->
  shadow st3 (SHADOW ptr) = kAsanRelocated /\
  addressable (shadow st3) ptr = false /\
  (forall sz, - 2 ^ 31 <= sz < 2 ^ 31 ->
     __asan_report_load_n (A := unit) ptr sz st3
     = Exit 66 ("error: heap use after relocate "
                ++ uint64toarray_radix10 (wrap64 sz)
                ++ "-byte load at 0x" ++ uint64toarray_fixed16 ptr 48
                ++ newline)%string st3) /\
  __asan_free ptr st3
  = Exit 66 ("error: free after relocate "
             ++ int64toarray_radix10 kAsanRelocated ++ " at 0x"
             ++ uint64toarray_fixed16 ptr 48 ++ newline)%string st3.
Proof.
  intros Hrel Hnd Hp Hn Hd Hp2 Hu Hrun.
  destruct (describe_access_overrun Hnd) as (_ & _ & Drel).
  assert (Hne : kAsanRelocated <> kAsanHeapFree /\
                kAsanRelocated <> kAsanHeapOverrun).
  { unfold palette in Hnd.
    repeat (apply NoDup_cons in Hnd; destruct Hnd as [? Hnd]).
    repeat match goal with
      | H : _ ∉ _ :: _ |- _ => apply not_elem_of_cons in H; destruct H
      end.
    split; congruence. }
  destruct Hne as [HneF HneO].
  rewrite (realloc_run _ _ _ _ _ Hp Hn Hd Hp2) in Hrun.
  match type of Hrun with
  | match __asan_deallocate _ _ ?s with _ => _ end = _ => set (st2 := s) in *
  end.
  assert (Hdec : ((shadow st2 (SHADOW ptr) < 0 /\
                   shadow st2 (SHADOW ptr) <> kAsanHeapOverrun) \/
                  8 <= shadow st2 (SHADOW ptr)) \/
                 ~ ((shadow st2 (SHADOW ptr) < 0 /\
                     shadow st2 (SHADOW ptr) <> kAsanHeapOverrun) \/
                    8 <= shadow st2 (SHADOW ptr))) by lia.
  destruct Hdec as [Hc|Hc].
  { rewrite (deallocate_fault st2 ptr _ Hc) in Hrun. discriminate Hrun. }
  rewrite (deallocate_run st2 ptr _ Hc) in Hrun. injection Hrun as <-.
  subst st2. cbn [shadow backing]. rewrite ?shiftr3_div.
  assert (Hk : 1 <= dlmalloc_usable_size h' ptr / 8)
    by (Z.div_mod_to_equations; lia).
  pose proof (schar_poison _ Hrel) as Er.
  unfold is_poison in Hrel.
  split; [|split; [|split]].
  - rewrite memset_head by exact Hk. exact Er.
  - unfold addressable. rewrite memset_head by exact Hk. rewrite Er.
    bytes_cases.
  - intros sz _. unfold __asan_report_load_n, __asan_report_memory_fault,
      bind, load_shadow, __asan_die. cbn [shadow].
    rewrite memset_head by exact Hk. rewrite Er.
    unfold memory_fault_message. rewrite Drel. reflexivity.
  - unfold __asan_free. destruct (Z.eqb_spec ptr 0) as [|_]; [contradiction|].
    rewrite deallocate_fault; cbn [shadow];
      rewrite memset_head by exact Hk; rewrite Er.
    + unfold deallocate_fault_message, __asan_dscribe_free_poison.
      destruct (Z.eqb_spec kAsanRelocated kAsanHeapFree); [contradiction|].
      rewrite Z.eqb_refl. reflexivity.
    + left. split; [lia | exact HneO].
Qed.

(** ** Fake-stack slots *)

(** X7.  [__asan_stack_malloc] lays a slot out like a heap block but with the
    stack kinds: two [kAsanStackUnderrun] shadow bytes before it, an
    addressable body, two [kAsanStackOverrun] bytes after the rounded-up
    body; the backing request is 32-byte aligned.  [__asan_stack_free] hands
    the slot straight to [dlfree]: it writes no shadow and does not use the
    morgue, so the body stays addressable after it. *)
Theorem stack_slot_lifecycle st size classid ptr h' :
  is_poison kAsanStackUnderrun -> is_poison kAsanStackOverrun ->
  0 <= size ->
  dlmemalign (backing st) 32 (wrap64 (wrap64 (ROUNDUP size 8) + 16))
    = (ptr, h') ->
  ptr <> 0 -> ptr mod 8 = 0 ->
  exists st1 st2,
    __asan_stack_malloc size classid st = Ret ptr st1 /\
    __asan_stack_free ptr size classid st1 = Ret tt st2 /\
    shadow st1 (SHADOW ptr - 2) = kAsanStackUnderrun /\
    shadow st1 (SHADOW ptr - 1) = kAsanStackUnderrun /\
    (forall i, ROUNDUP size 8 <= i < ROUNDUP size 8 + 16 ->
       shadow st1 (SHADOW (ptr + i)) = kAsanStackOverrun) /\
    (forall i, 0 <= i < size -> addressable (shadow st1) (ptr + i) = true) /\
    shadow st2 = shadow st1 /\ morgue st2 = morgue st /\
    trace st2 = trace st ++
      EvMemalign 32 (wrap64 (wrap64 (ROUNDUP size 8) + 16)) ptr
        :: allocate_writes ptr size kAsanStackUnderrun kAsanStackOverrun
        ++ [EvFree ptr] /\
    (forall i, 0 <= i < size -> addressable (shadow st2) (ptr + i) = true).
Proof.
  intros Hu Ho Hn Hd Hp Hal.
  pose proof (schar_poison _ Hu) as Eu. pose proof (schar_poison _ Ho) as Eo.
  assert (Hbody : forall i, 0 <= i < size ->
            addressable (replay (shadow st)
                           (allocate_writes ptr size kAsanStackUnderrun
                              kAsanStackOverrun)) (ptr + i) = true).
  { intros i Hi. unfold addressable. rewrite SHADOW_offset by exact Hal.
    replace ((ptr + i) mod 8) with (i mod 8) by (Z.div_mod_to_equations; lia).
    assert (Hcase : 0 <= i / 8 < size / 8 \/
                    (i / 8 = size / 8 /\ i mod 8 < size mod 8))
      by (Z.div_mod_to_equations; lia).
    destruct Hcase as [Hlt | [Heq Hlt]].
    - rewrite allocate_shadow_body by assumption. reflexivity.
    - assert (0 <= i mod 8) by (apply Z.mod_pos_bound; lia).
      assert (size mod 8 < 8) by (apply Z.mod_pos_bound; lia).
      rewrite Heq, allocate_shadow_partial by lia. bytes_cases. }
  eexists. eexists.
  split; [exact (allocate_run _ _ _ _ _ _ _ Hd Hp)|].
  split; [reflexivity|].
  cbn [shadow morgue trace]. unfold log. cbn [trace].
  split; [|split; [|split; [|split; [|split; [|split; [|split]]]]]].
  - replace (SHADOW ptr - 2) with (SHADOW ptr + -2) by lia.
    rewrite allocate_shadow_underrun; auto.
  - replace (SHADOW ptr - 1) with (SHADOW ptr + -1) by lia.
    rewrite allocate_shadow_underrun; auto.
  - intros i Hi. rewrite SHADOW_offset by exact Hal.
    rewrite allocate_shadow_overrun by first [assumption | zdiv]. exact Eo.
  - exact Hbody.
  - reflexivity.
  - reflexivity.
  - rewrite <- !app_assoc. reflexivity.
  - exact Hbody.
Qed.

(** ** Page-aligned allocation *)

Lemma ROUNDUP_bounds n k :
  0 < k -> n <= ROUNDUP n k < n + k /\ ROUNDUP n k mod k = 0.
Proof.
  intros Hk. unfold ROUNDUP. split.
  - pose proof (Z.div_mod (n + k - 1) k ltac:(lia)) as Hdm.
    pose proof (Z.mod_pos_bound (n + k - 1) k Hk) as Hm.
    rewrite (Z.mul_comm _ k). lia.
  - apply Z.mod_mul. lia.
Qed.

(** X8.  [pvalloc(n)] rounds the size up to a multiple of the page size
    before allocating: the backing allocator is asked for a page-aligned
    block of [roundUp(n, PAGESIZE) + 16] bytes, every byte of the rounded-up
    body is fully addressable (there is no partial shadow byte), and the
    sixteen bytes after it read [kAsanHeapOverrun]. *)
Theorem pvalloc_rounds_to_pages st PAGESIZE n ptr h' :
  is_poison kAsanHeapOverrun ->
  0 < PAGESIZE -> PAGESIZE mod 8 = 0 ->
  0 <= n -> n + PAGESIZE <= 2 ^ 64 ->
  dlmemalign (backing st) PAGESIZE (wrap64 (ROUNDUP n PAGESIZE + 16))
    = (ptr, h') ->
  ptr <> 0 -> ptr mod 8 = 0 ->
  exists st',
    __asan_pvalloc PAGESIZE n st = Ret ptr st' /\
    n <= ROUNDUP n PAGESIZE /\
    (forall i, 0 <= i < ROUNDUP n PAGESIZE ->
       shadow st' (SHADOW (ptr + i)) = 0) /\
    (forall i, ROUNDUP n PAGESIZE <= i < ROUNDUP n PAGESIZE + 16 ->
       shadow st' (SHADOW (ptr + i)) = kAsanHeapOverrun).
Proof.
  intros Ho HP HP8 Hn Hmax Hd Hp Hal.
  destruct (ROUNDUP_bounds n PAGESIZE HP) as [Hb Hdiv].
  set (m := ROUNDUP n PAGESIZE) in *.
  assert (Hm8 : m mod 8 = 0).
  { apply Z.mod_divide; [lia|].
    apply Z.divide_trans with PAGESIZE.
    - apply Z.mod_divide; [lia | exact HP8].
    - apply Z.mod_divide; [lia | exact Hdiv]. }
  assert (Hup : ROUNDUP m 8 = m) by zdiv.
  unfold __asan_pvalloc, __asan_valloc, __asan_memalign. fold m.
  rewrite (wrap64_small m) by lia.
  assert (Hreq : wrap64 (wrap64 (ROUNDUP m 8) + 16) = wrap64 (m + 16)).
  { rewrite Hup, (wrap64_small m) by lia. reflexivity. }
  rewrite <- Hreq in Hd.
  eexists. split; [exact (allocate_run _ _ _ _ _ _ _ Hd Hp)|].
  cbn [shadow]. split; [lia|].
  pose proof (schar_poison _ Ho) as Eo.
  split.
  - intros i Hi. rewrite SHADOW_offset by exact Hal.
    apply allocate_shadow_body; [lia|]. Z.div_mod_to_equations. lia.
  - intros i Hi. rewrite SHADOW_offset by exact Hal.
    rewrite allocate_shadow_overrun; [exact Eo | lia |].
    rewrite Hup. Z.div_mod_to_equations. lia.
Qed.

(** X9.  The rounding in [pvalloc] is done in [size_t]: for a page size that
    divides [2^64] and a request within one page of the top of the range, the
    rounded size wraps to 0.  The call then asks the backing allocator for 16
    bytes and, when that succeeds, returns a block whose first shadow byte
    is already [kAsanHeapOverrun]: not one byte of it is addressable. *)
Theorem pvalloc_near_size_max st PAGESIZE n ptr h' :
  is_poison kAsanHeapOverrun ->
  0 < PAGESIZE -> 2 ^ 64 mod PAGESIZE = 0 ->
  2 ^ 64 - PAGESIZE < n < 2 ^ 64 ->
  dlmemalign (backing st) PAGESIZE 16 = (ptr, h') ->
  ptr <> 0 ->
  exists st',
    __asan_pvalloc PAGESIZE n st = Ret ptr st' /\
    wrap64 (ROUNDUP n PAGESIZE) = 0 /\
    shadow st' (SHADOW ptr) = kAsanHeapOverrun /\
    addressable (shadow st') ptr = false.
Proof.
  intros Ho HP Hdiv Hn Hd Hp.
  destruct (ROUNDUP_bounds n PAGESIZE HP) as [Hb Hmul].
  assert (Hm : ROUNDUP n PAGESIZE = 2 ^ 64).
  { apply Z.mod_divide in Hdiv; [|lia]. destruct Hdiv as [c Hc].
    apply Z.mod_divide in Hmul; [|lia]. destruct Hmul as [d Hd'].
    rewrite Hd' in Hb |- *. rewrite Hc in Hn |- *.
    assert (d = c) by nia. now subst d. }
  assert (Hw : wrap64 (ROUNDUP n PAGESIZE) = 0) by (rewrite Hm; reflexivity).
  unfold __asan_pvalloc, __asan_valloc, __asan_memalign. rewrite Hw.
  change (wrap64 (wrap64 (ROUNDUP 0 8) + 16)) with 16 in *.
  assert (Hd0 : dlmemalign (backing st) PAGESIZE
                  (wrap64 (wrap64 (ROUNDUP 0 8) + 16)) = (ptr, h')) by exact Hd.
  eexists. split; [exact (allocate_run _ _ _ _ _ _ _ Hd0 Hp)|].
  cbn [shadow]. split; [reflexivity|].
  pose proof (schar_poison _ Ho) as Eo.
  assert (Hhead : replay (shadow st)
                    (allocate_writes ptr 0 kAsanHeapUnderrun kAsanHeapOverrun)
                    (SHADOW ptr) = kAsanHeapOverrun).
  { replace (SHADOW ptr) with (SHADOW ptr + 0) by lia.
    rewrite allocate_shadow_overrun; [exact Eo | lia |].
    vm_compute. split; [discriminate | reflexivity]. }
  split; [exact Hhead|].
  unfold addressable. rewrite Hhead. unfold is_poison in Ho. bytes_cases.
Qed.

(** ** Dynamic stack allocations *)

(** X10.  [__asan_alloca_poison(addr, size)] paints the redzone after an
    alloca: it stores the partial byte for a body that ends inside a word,
    then paints four shadow bytes with [kAsanAllocaOverrun] when
    [addr + size] is 8-aligned and three otherwise, starting at the first
    whole word after the body; nothing outside the shadow of
    [addr + size .. addr + size + 31] is written. *)
Theorem alloca_poison_redzone st addr size :
  0 <= addr -> 0 <= size -> addr + size + 32 < 2 ^ 63 ->
  let e := addr + size in
  let start := SHADOW (ROUNDUP e 8) in
  let count := if e mod 8 =? 0 then 4 else 3 in
  exists st',
    __asan_alloca_poison addr size st = Ret tt st' /\
    (e mod 8 <> 0 -> shadow st' (SHADOW e) = e mod 8) /\
    (forall j, 0 <= j < count ->
       shadow st' (start + j) = schar kAsanAllocaOverrun) /\
    (forall x, x < SHADOW e \/ SHADOW (e + 31) < x ->
       shadow st' x = shadow st x) /\
    (forall x, e mod 8 = 0 \/ x <> SHADOW e ->
       ~ (start <= x < start + count) -> shadow st' x = shadow st x).
Proof.
  intros Haddr Hsize Hmax e start count.
  assert (Hw : 0 <= addr mod 8 < 8) by (apply Z.mod_pos_bound; lia).
  assert (Hra : addr mod 8 + size <= ROUNDUP (addr mod 8 + size) 8
                < addr mod 8 + size + 8) by zdiv.
  assert (Hwle : addr mod 8 <= addr) by (Z.div_mod_to_equations; lia).
  unfold __asan_alloca_poison. rewrite (wrap64_small (size + 32)) by lia.
  rewrite (poison_redzone_run st addr size (size + 32) kAsanAllocaOverrun)
    by lia.
  assert (Hmod : (addr mod 8 + size) mod 8 = e mod 8)
    by (subst e; Z.div_mod_to_equations; lia).
  assert (Hstart : SHADOW (addr - addr mod 8 + ROUNDUP (addr mod 8 + size) 8)
                   = start).
  { subst start e. f_equal. zdiv. }
  assert (Hcount : (ROUNDDOWN (addr mod 8 + (size + 32)) 8
                    - ROUNDUP (addr mod 8 + size) 8) / 8 = count).
  { subst count. rewrite <- Hmod.
    destruct (Z.eqb_spec ((addr mod 8 + size) mod 8) 0); zdiv. }
  rewrite Hmod, Hstart, Hcount. fold e.
  assert (Hs : start = if e mod 8 =? 0 then SHADOW e else SHADOW e + 1).
  { subst start. rewrite !SHADOW_div.
    destruct (Z.eqb_spec (e mod 8) 0); zdiv. }
  assert (He31 : SHADOW (e + 31) = SHADOW e + 3 \/ SHADOW (e + 31) = SHADOW e + 4)
    by (rewrite !SHADOW_div; Z.div_mod_to_equations; lia).
  assert (He31' : e mod 8 = 0 -> SHADOW (e + 31) = SHADOW e + 3)
    by (rewrite !SHADOW_div; Z.div_mod_to_equations; lia).
  eexists. split; [reflexivity|]. cbn [shadow].
  subst count.
  destruct (Z.eqb_spec (e mod 8) 0) as [E|E].
  - split; [contradiction|].
    split; [|split]; intros; bytes_cases.
  - split; [|split; [|split]]; intros; bytes_cases.
Qed.

(** X11.  Unwinding undoes the poisoning of an alloca: after
    [__asan_alloca_poison(addr, size)], a call
    [__asan_allocas_unpoison(top, bottom)] with an 8-aligned [top] at or
    below [addr] and [bottom] at or above the end of the redzone clears
    every shadow byte of [top .. bottom) and nothing else, so a shadow that
    was clean there is exactly restored. *)
Theorem allocas_unpoison_restores st addr size top bottom :
  0 <= top -> top mod 8 = 0 -> top <= addr -> 0 <= size ->
  addr + size + 32 <= bottom -> bottom < 2 ^ 63 ->
  exists st1 st2,
    __asan_alloca_poison addr size st = Ret tt st1 /\
    __asan_allocas_unpoison top bottom st1 = Ret tt st2 /\
    (forall x, shadow st2 x
               = if (SHADOW top <=? x) && (x <? SHADOW bottom) then 0
                 else shadow st x) /\
    ((forall x, SHADOW top <= x < SHADOW bottom -> shadow st x = 0) ->
     forall x, shadow st2 x = shadow st x).
Proof.
  intros Htop Hal Hle Hsize Hbot Hmax.
  assert (Haddr : 0 <= addr) by lia.
  assert (Hw : 0 <= addr mod 8 < 8) by (apply Z.mod_pos_bound; lia).
  assert (Hra : addr mod 8 + size <= ROUNDUP (addr mod 8 + size) 8
                < addr mod 8 + size + 8) by zdiv.
  assert (Hwle : addr mod 8 <= addr) by (Z.div_mod_to_equations; lia).
  unfold __asan_alloca_poison, __asan_allocas_unpoison.
  rewrite (wrap64_small (size + 32)) by lia.
  rewrite (poison_redzone_run st addr size (size + 32) kAsanAllocaOverrun)
    by lia.
  rewrite (wrap64_small (bottom - top)), shiftr3_div by lia.
  assert (Hend : SHADOW top + (bottom - top) / 8 = SHADOW bottom)
    by (rewrite !SHADOW_div; Z.div_mod_to_equations; lia).
  assert (Hlo : SHADOW top <= SHADOW (addr + size))
    by (apply SHADOW_mono; lia).
  assert (Hhi : SHADOW (addr - addr mod 8 + ROUNDUP (addr mod 8 + size) 8)
                + (ROUNDDOWN (addr mod 8 + (size + 32)) 8
                   - ROUNDUP (addr mod 8 + size) 8) / 8
                <= SHADOW bottom)
    by (rewrite !SHADOW_div; zdiv).
  assert (Hmid : SHADOW (addr + size)
                 <= SHADOW (addr - addr mod 8 + ROUNDUP (addr mod 8 + size) 8))
    by (apply SHADOW_mono; lia).
  assert (Hin : SHADOW (addr + size) < SHADOW bottom)
    by (rewrite !SHADOW_div; Z.div_mod_to_equations; lia).
  set (start := SHADOW (addr - addr mod 8 + ROUNDUP (addr mod 8 + size) 8)) in *.
  set (count := (ROUNDDOWN (addr mod 8 + (size + 32)) 8
                 - ROUNDUP (addr mod 8 + size) 8) / 8) in *.
  eexists. eexists. split; [reflexivity|]. split; [reflexivity|].
  cbn [shadow].
  assert (Hpt : forall x,
            memset
              (memset
                 (if (addr mod 8 + size) mod 8 =? 0 then shadow st
                  else poke (shadow st) (SHADOW (addr + size))
                         ((addr mod 8 + size) mod 8))
                 start kAsanAllocaOverrun count)
              (SHADOW top) 0 ((bottom - top) / 8) x
            = if (SHADOW top <=? x) && (x <? SHADOW bottom) then 0
              else shadow st x).
  { intros x. unfold memset at 1. rewrite Hend.
    destruct ((SHADOW top <=? x) && (x <? SHADOW bottom)) eqn:Hc;
      [reflexivity|].
    apply andb_false_iff in Hc.
    assert (Hout : x < SHADOW top \/ SHADOW bottom <= x)
      by (destruct Hc as [Hc|Hc];
          [apply Z.leb_gt in Hc | apply Z.ltb_ge in Hc]; lia).
    clear Hc.
    destruct (Z.eqb_spec ((addr mod 8 + size) mod 8) 0); bytes_cases. }
  split; [exact Hpt|].
  intros Hclean x. rewrite Hpt.
  destruct ((SHADOW top <=? x) && (x <? SHADOW bottom)) eqn:Hc;
    [|reflexivity].
  apply andb_true_iff in Hc. destruct Hc as [H1 H2].
  apply Z.leb_le in H1. apply Z.ltb_lt in H2.
  symmetry. apply Hclean. lia.
Qed.

(** ** Stack slots going in and out of scope *)

Lemma poison_stack_run st ptr n :
  0 <= ptr -> 0 <= n -> ptr + n < 2 ^ 64 ->
  __asan_poison_stack_memory ptr n st
  = Ret tt
      {| shadow :=
           if n mod 8 =? 0
           then memset (shadow st) (SHADOW ptr) kAsanUnscoped (n / 8)
           else poke (memset (shadow st) (SHADOW ptr) kAsanUnscoped (n / 8))
                  (SHADOW (ptr + n)) (8 - n mod 8);
         memory := memory st; morgue := morgue st; backing := backing st;
         trace := trace st ++
           EvMemset (SHADOW ptr) kAsanUnscoped (n / 8)
             :: (if n mod 8 =? 0 then []
                 else [EvStore (SHADOW (ptr + n)) (8 - n mod 8)]) |}.
Proof.
  intros Hp Hn Hmax.
  assert (Hm : 0 <= n mod 8 < 8) by (apply Z.mod_pos_bound; lia).
  unfold __asan_poison_stack_memory, bind, memset_shadow, store_shadow, ret.
  rewrite !land7_mod, !shiftr3_div, (wrap64_small (ptr + n)) by lia.
  destruct (Z.eqb_spec (n mod 8) 0); [reflexivity|].
  cbn [shadow memory morgue backing trace]. unfold log. cbn [trace].
  rewrite (schar_small (8 - n mod 8)) by lia.
  rewrite <- app_assoc. reflexivity.
Qed.

Lemma unpoison_stack_run st ptr n :
  0 <= ptr -> 0 <= n -> ptr + n < 2 ^ 64 ->
  __asan_unpoison_stack_memory ptr n st
  = Ret tt
      {| shadow :=
           if n mod 8 =? 0
           then memset (shadow st) (SHADOW ptr) 0 (n / 8)
           else poke (memset (shadow st) (SHADOW ptr) 0 (n / 8))
                  (SHADOW (ptr + n)) (n mod 8);
         memory := memory st; morgue := morgue st; backing := backing st;
         trace := trace st ++
           EvMemset (SHADOW ptr) 0 (n / 8)
             :: (if n mod 8 =? 0 then []
                 else [EvStore (SHADOW (ptr + n)) (n mod 8)]) |}.
Proof.
  intros Hp Hn Hmax.
  assert (Hm : 0 <= n mod 8 < 8) by (apply Z.mod_pos_bound; lia).
  unfold __asan_unpoison_stack_memory, bind, memset_shadow, store_shadow, ret.
  rewrite !land7_mod, !shiftr3_div, (wrap64_small (ptr + n)) by lia.
  destruct (Z.eqb_spec (n mod 8) 0); [reflexivity|].
  cbn [shadow memory morgue backing trace]. unfold log. cbn [trace].
  rewrite (schar_small (n mod 8)) by lia.
  rewrite <- app_assoc. reflexivity.
Qed.

(** X12.  [__asan_poison_stack_memory] and [__asan_unpoison_stack_memory]
    write the same shadow bytes for the same arguments, so whichever runs
    last wins: unpoisoning a poisoned slot leaves the shadow that
    unpoisoning alone does, and poisoning an unpoisoned slot the shadow that
    poisoning alone does. *)
Theorem stack_scope_last_wins st ptr n :
  0 <= ptr -> 0 <= n -> ptr + n < 2 ^ 64 ->
  exists sp su spu sup,
    __asan_poison_stack_memory ptr n st = Ret tt sp /\
    __asan_unpoison_stack_memory ptr n st = Ret tt su /\
    __asan_unpoison_stack_memory ptr n sp = Ret tt spu /\
    __asan_poison_stack_memory ptr n su = Ret tt sup /\
    (forall x, shadow spu x = shadow su x) /\
    (forall x, shadow sup x = shadow sp x).
Proof.
  intros Hp Hn Hmax.
  do 4 eexists.
  split; [exact (poison_stack_run st ptr n Hp Hn Hmax)|].
  split; [exact (unpoison_stack_run st ptr n Hp Hn Hmax)|].
  split; [exact (unpoison_stack_run _ ptr n Hp Hn Hmax)|].
  split; [exact (poison_stack_run _ ptr n Hp Hn Hmax)|].
  cbn [shadow].
  split; intros x; destruct (Z.eqb_spec (n mod 8) 0); bytes_cases.
Qed.

(** X13.  For an 8-aligned slot, [__asan_unpoison_stack_memory(ptr, n)]
    makes exactly the bytes [0 .. n) of the slot's words addressable.
    [__asan_poison_stack_memory(ptr, n)] makes every whole word of the slot
    unaddressable; in a trailing fragment the byte it stores is
    [8 - (n mod 8)], so offset [i] there stays addressable exactly when
    [i mod 8 < 8 - (n mod 8)]. *)
Theorem stack_scope_addressability st ptr n :
  is_poison kAsanUnscoped ->
  0 <= ptr -> ptr mod 8 = 0 -> 0 <= n -> ptr + n < 2 ^ 64 ->
  exists su sp,
    __asan_unpoison_stack_memory ptr n st = Ret tt su /\
    __asan_poison_stack_memory ptr n st = Ret tt sp /\
    (forall i, 0 <= i < n -> addressable (shadow su) (ptr + i) = true) /\
    (forall i, n <= i < ROUNDUP n 8 ->
       addressable (shadow su) (ptr + i) = false) /\
    (forall i, 0 <= i < 8 * (n / 8) ->
       addressable (shadow sp) (ptr + i) = false) /\
    (forall i, 8 * (n / 8) <= i < n ->
       addressable (shadow sp) (ptr + i) = (i mod 8 + 1 <=? 8 - n mod 8)).
Proof.
  intros Hu Hp Hal Hn Hmax.
  pose proof (schar_poison _ Hu) as Eu. unfold is_poison in Hu.
  assert (Hm : 0 <= n mod 8 < 8) by (apply Z.mod_pos_bound; lia).
  assert (Hq : 0 <= n / 8) by (apply Z.div_pos; lia).
  assert (Hend : SHADOW (ptr + n) = SHADOW ptr + n / 8)
    by (apply SHADOW_offset; exact Hal).
  do 2 eexists.
  split; [exact (unpoison_stack_run st ptr n Hp Hn Hmax)|].
  split; [exact (poison_stack_run st ptr n Hp Hn Hmax)|].
  cbn [shadow]. rewrite Hend.
  set (S0 := SHADOW ptr) in *. set (q := n / 8) in *. set (r := n mod 8) in *.
  set (su := if r =? 0 then memset (shadow st) S0 0 q
             else poke (memset (shadow st) S0 0 q) (S0 + q) r).
  set (sp := if r =? 0 then memset (shadow st) S0 kAsanUnscoped q
             else poke (memset (shadow st) S0 kAsanUnscoped q) (S0 + q)
                    (8 - r)).
  assert (A1 : forall d, 0 <= d < q -> su (S0 + d) = 0).
  { intros d Hd. subst su. destruct (r =? 0); unfold poke, memset;
      if_head; bool_to_Z; try reflexivity; lia. }
  assert (A2 : r <> 0 -> su (S0 + q) = r).
  { intros Hr. subst su. destruct (Z.eqb_spec r 0); [contradiction|].
    unfold poke. now rewrite Z.eqb_refl. }
  assert (B1 : forall d, 0 <= d < q -> sp (S0 + d) = kAsanUnscoped).
  { intros d Hd. subst sp. rewrite <- Eu at 3.
    destruct (r =? 0); unfold poke, memset;
      if_head; bool_to_Z; try reflexivity; lia. }
  assert (B2 : r <> 0 -> sp (S0 + q) = 8 - r).
  { intros Hr. subst sp. destruct (Z.eqb_spec r 0); [contradiction|].
    unfold poke. now rewrite Z.eqb_refl. }
  clearbody su sp. unfold addressable.
  assert (Hmod : forall i, (ptr + i) mod 8 = i mod 8)
    by (intros i; Z.div_mod_to_equations; lia).
  assert (Hoff : forall i, SHADOW (ptr + i) = S0 + i / 8)
    by (intros i; apply SHADOW_offset; exact Hal).
  split; [|split; [|split]]; intros i Hi; rewrite Hoff, Hmod.
  - assert (Hcase : 0 <= i / 8 < q \/ (i / 8 = q /\ i mod 8 < r))
      by (subst q r; Z.div_mod_to_equations; lia).
    assert (0 <= i mod 8) by (apply Z.mod_pos_bound; lia).
    destruct Hcase as [Hlt | [Heq Hlt]].
    + rewrite A1 by exact Hlt. reflexivity.
    + rewrite Heq, A2 by lia. bytes_cases.
  - assert (i / 8 = q /\ r <> 0 /\ r <= i mod 8)
      as (Heq & Hne & Hle) by (subst q r; zdiv).
    rewrite Heq, A2 by exact Hne. bytes_cases.
  - assert (Hlt : 0 <= i / 8 < q) by (subst q; Z.div_mod_to_equations; lia).
    rewrite B1 by exact Hlt. bytes_cases.
  - assert (i / 8 = q /\ r <> 0 /\ 0 <= i mod 8)
      as (Heq & Hne & Hi0) by (subst q r; Z.div_mod_to_equations; lia).
    rewrite Heq, B2 by exact Hne. bytes_cases.
Qed.

(** ** A registered global *)

(** X14.  Registering one 8-aligned global whose body words are clean in the
    shadow makes exactly its [size] body bytes addressable: the bytes from
    [size] to the end of the last body word are cut off by the partial
    byte, and every whole word of the redzone reads [kAsanGlobalOverrun]. *)
Theorem registered_global_layout st g :
  let addr := AsanGlobal.addr g in
  let size := AsanGlobal.size g in
  let redsize := AsanGlobal.size_with_redzone g in
  is_poison kAsanGlobalOverrun ->
  0 <= addr -> addr mod 8 = 0 -> 0 <= size ->
  ROUNDUP size 8 <= redsize -> addr + redsize < 2 ^ 63 ->
  (forall j, 0 <= j < size / 8 -> shadow st (SHADOW addr + j) = 0) ->
  exists st',
    __asan_register_globals [g] 1 st = Ret tt st' /\
    (forall i, 0 <= i < size -> addressable (shadow st') (addr + i) = true) /\
    (forall i, size <= i < ROUNDUP size 8 ->
       addressable (shadow st') (addr + i) = false) /\
    (forall i, ROUNDUP size 8 <= i < ROUNDDOWN redsize 8 ->
       shadow st' (SHADOW (addr + i)) = kAsanGlobalOverrun /\
       addressable (shadow st') (addr + i) = false).
Proof.
  intros addr size redsize Hgo Haddr Hal Hsize Hred Hmax Hclean.
  pose proof (schar_poison _ Hgo) as Eg. unfold is_poison in Hgo.
  unfold __asan_register_globals.
  change (take (Z.to_nat (wrap32 1)) [g]) with [g].
  cbn [for_each]. unfold bind, register_global. fold addr size redsize.
  assert (Hrs : size <= ROUNDUP size 8 < size + 8) by zdiv.
  assert (Hred0 : 0 <= redsize) by lia.
  assert (Hab : ROUNDUP (addr mod 8 + size) 8 <= addr mod 8 + redsize)
    by (rewrite Hal, !Z.add_0_l; exact Hred).
  rewrite (poison_redzone_run st addr size redsize kAsanGlobalOverrun
             Haddr Hsize Hred0 Hmax Hab).
  rewrite Hal, !Z.add_0_l, Z.sub_0_r.
  cbn [ret]. eexists. split; [reflexivity|]. cbn [shadow].
  set (S0 := SHADOW addr) in *. set (q := size / 8) in *.
  set (r := size mod 8) in *.
  assert (Hq : 0 <= q) by (apply Z.div_pos; lia).
  assert (Hr : 0 <= r < 8) by (apply Z.mod_pos_bound; lia).
  assert (Hstart : SHADOW (addr + ROUNDUP size 8) = S0 + ROUNDUP size 8 / 8)
    by (apply SHADOW_offset; exact Hal).
  assert (Hpart : SHADOW (addr + size) = S0 + q)
    by (apply SHADOW_offset; exact Hal).
  assert (Hup : ROUNDUP size 8 / 8 = if r =? 0 then q else q + 1).
  { subst q r. destruct (Z.eqb_spec (size mod 8) 0); zdiv. }
  rewrite Hstart, Hpart, Hup.
  set (cnt := (ROUNDDOWN redsize 8 - ROUNDUP size 8) / 8).
  assert (Hcnt : 0 <= cnt) by (subst cnt; zdiv).
  set (sh' := memset (if r =? 0 then shadow st
                      else poke (shadow st) (S0 + q) r)
                (S0 + (if r =? 0 then q else q + 1)) kAsanGlobalOverrun cnt).
  assert (A1 : forall d, 0 <= d < q -> sh' (S0 + d) = 0).
  { intros d Hd. transitivity (shadow st (S0 + d)); [|now apply Hclean].
    subst sh'. destruct (r =? 0); cbv iota; unfold poke, memset;
      if_head; bool_to_Z; try reflexivity; lia. }
  assert (A2 : r <> 0 -> sh' (S0 + q) = r).
  { intros Hne. subst sh'. destruct (Z.eqb_spec r 0); [contradiction|].
    cbv iota. unfold poke, memset. if_head; bool_to_Z; try reflexivity; lia. }
  assert (A3 : forall d, (if r =? 0 then q else q + 1) <= d
                         < (if r =? 0 then q else q + 1) + cnt ->
                         sh' (S0 + d) = kAsanGlobalOverrun).
  { intros d Hd. subst sh'. rewrite <- Eg at 2.
    unfold memset at 1. if_head; bool_to_Z; try reflexivity; lia. }
  clearbody sh'. clear Hclean. unfold addressable.
  assert (Hmod : forall i, (addr + i) mod 8 = i mod 8)
    by (intros i; Z.div_mod_to_equations; lia).
  assert (Hoff : forall i, SHADOW (addr + i) = S0 + i / 8)
    by (intros i; apply SHADOW_offset; exact Hal).
  split; [|split]; intros i Hi; rewrite ?Hoff, ?Hmod.
  - assert (Hcase : 0 <= i / 8 < q \/ (i / 8 = q /\ i mod 8 < r))
      by (subst q r; Z.div_mod_to_equations; lia).
    assert (0 <= i mod 8) by (apply Z.mod_pos_bound; lia).
    destruct Hcase as [Hlt | [Heq Hlt]].
    + rewrite A1 by exact Hlt. reflexivity.
    + rewrite Heq, A2 by lia. bytes_cases.
  - assert (i / 8 = q /\ r <> 0 /\ r <= i mod 8)
      as (Heq & Hne & Hle) by (subst q r; zdiv).
    rewrite Heq, A2 by exact Hne. bytes_cases.
  - assert (Hd : (if r =? 0 then q else q + 1) <= i / 8
                 < (if r =? 0 then q else q + 1) + cnt).
    { rewrite <- Hup. subst cnt. clear - Hi Hrs Hred. zdiv. }
    rewrite A3 by exact Hd. split; [reflexivity | bytes_cases].
Qed.

(** ** Freeing what is not a block *)

(** X15.  After [malloc(n)] has returned [ptr], a [free] of [ptr - 16] or
    [ptr - 8] finds the left redzone and exits with status 66 and an
    "invalid pointer" report.  A [free] of the first byte after the
    rounded-up body finds [kAsanHeapOverrun] there, which the check lets
    through: that address is poisoned and put into the morgue like a real
    block. *)
Theorem free_of_redzone_pointer st n ptr h' :
  Forall is_poison palette -> NoDup palette ->
  0 <= n ->
  dlmemalign (backing st) 16 (wrap64 (wrap64 (ROUNDUP n 8) + 16)) = (ptr, h') ->
  16 < ptr -> ptr mod 8 = 0 ->
  exists st1,
    __asan_malloc n st = Ret ptr st1 /\
    (forall d, d = 16 \/ d = 8 ->
       __asan_free (ptr - d) st1
       = Exit 66 ("error: invalid pointer "
                  ++ int64toarray_radix10 kAsanHeapUnderrun ++ " at 0x"
                  ++ uint64toarray_fixed16 (ptr - d) 48 ++ newline)%string
           st1) /\
    exists st2,
      __asan_free (ptr + ROUNDUP n 8) st1 = Ret tt st2 /\
      morgue st2
      = snd (__asan_morgue_add (morgue st) (ptr + ROUNDUP n 8)) /\
      frees (drop (length (trace st1)) (trace st2))
      = [fst (__asan_morgue_add (morgue st) (ptr + ROUNDUP n 8))].
Proof.
  intros Hneg Hnd Hn Hd Hp Hal.
  assert (Hp0 : ptr <> 0) by lia.
  assert (Hfacts : is_poison kAsanHeapUnderrun /\ is_poison kAsanHeapOverrun /\
                   kAsanHeapUnderrun <> kAsanHeapFree /\
                   kAsanHeapUnderrun <> kAsanRelocated /\
                   kAsanHeapUnderrun <> kAsanStackFree /\
                   kAsanHeapUnderrun <> kAsanHeapOverrun).
  { unfold palette in Hneg, Hnd.
    repeat (apply Forall_cons in Hneg; destruct Hneg as [? Hneg]).
    repeat (apply NoDup_cons in Hnd; destruct Hnd as [? Hnd]).
    repeat match goal with
      | H : _ ∉ _ :: _ |- _ => apply not_elem_of_cons in H; destruct H
      end.
    split; [assumption|]. split; [assumption|].
    repeat split; congruence. }
  destruct Hfacts as (Hu & Ho & D1 & D2 & D3 & D4).
  pose proof (schar_poison _ Hu) as Eu. pose proof (schar_poison _ Ho) as Eo.
  eexists. split; [exact (malloc_run _ _ _ _ Hd Hp0)|].
  assert (Hrs : n <= ROUNDUP n 8) by zdiv.
  split.
  - intros d Hdd. unfold __asan_free.
    destruct (Z.eqb_spec (ptr - d) 0) as [|_]; [lia|].
    assert (Hbyte : replay (shadow st)
                      (allocate_writes ptr n kAsanHeapUnderrun kAsanHeapOverrun)
                      (SHADOW (ptr - d)) = kAsanHeapUnderrun).
    { replace (ptr - d) with (ptr + - d) by lia.
      rewrite SHADOW_offset by exact Hal.
      rewrite allocate_shadow_underrun; [exact Eu | exact Hn |].
      destruct Hdd as [-> | ->]; [left | right]; reflexivity. }
    rewrite deallocate_fault; cbn [shadow]; rewrite Hbyte.
    + unfold deallocate_fault_message, __asan_dscribe_free_poison.
      destruct (Z.eqb_spec kAsanHeapUnderrun kAsanHeapFree); [contradiction|].
      destruct (Z.eqb_spec kAsanHeapUnderrun kAsanRelocated); [contradiction|].
      destruct (Z.eqb_spec kAsanHeapUnderrun kAsanStackFree); [contradiction|].
      reflexivity.
    + left. unfold is_poison in Hu. split; [lia | exact D4].
  - unfold __asan_free.
    destruct (Z.eqb_spec (ptr + ROUNDUP n 8) 0) as [|_]; [lia|].
    assert (Hbyte : replay (shadow st)
                      (allocate_writes ptr n kAsanHeapUnderrun kAsanHeapOverrun)
                      (SHADOW (ptr + ROUNDUP n 8)) = kAsanHeapOverrun).
    { rewrite SHADOW_offset by exact Hal.
      rewrite allocate_shadow_overrun; [exact Eo | exact Hn | lia]. }
    eexists. split.
    + apply deallocate_run. cbn [shadow]. rewrite Hbyte.
      unfold is_poison in Ho. lia.
    + cbn [morgue trace]. split; [reflexivity|].
      match goal with
      | |- context [drop (length ?t) _] => set (T1 := t)
      end.
      rewrite <- (app_assoc T1), drop_app_length. reflexivity.
Qed.

(** ** What [malloc] leaves alone *)

(** X16.  [malloc(n)] writes only the shadow of its own block and of the
    sixteen bytes on either side: every other shadow byte, all of
    application memory and the morgue are as before, and nothing is handed
    to [dlfree].  When the backing allocator returns null, no shadow byte
    changes at all. *)
Theorem malloc_footprint st n ptr h' :
  0 <= n ->
  dlmemalign (backing st) 16 (wrap64 (wrap64 (ROUNDUP n 8) + 16)) = (ptr, h') ->
  exists st',
    __asan_malloc n st = Ret ptr st' /\
    memory st' = memory st /\ morgue st' = morgue st /\ backing st' = h' /\
    frees (drop (length (trace st)) (trace st')) = [] /\
    (ptr = 0 -> shadow st' = shadow st) /\
    (forall x,
       x < SHADOW ptr - 2 \/ SHADOW ptr + ROUNDUP n 8 / 8 + 2 <= x ->
       shadow st' x = shadow st x).
Proof.
  intros Hn Hd. destruct (Z.eq_dec ptr 0) as [-> | Hp].
  - unfold __asan_malloc, __asan_memalign.
    rewrite (allocate_null _ _ _ _ _ _ Hd).
    eexists. split; [reflexivity|]. cbn [memory morgue backing trace shadow].
    rewrite drop_app_length.
    repeat split.
  - eexists. split; [exact (malloc_run _ _ _ _ Hd Hp)|].
    cbn [memory morgue backing trace shadow].
    split; [reflexivity|]. split; [reflexivity|]. split; [reflexivity|].
    split.
    { rewrite <- (app_assoc (trace st)), drop_app_length.
      rewrite (frees_app [_]). apply frees_allocate_writes. }
    split; [contradiction|].
    intros x Hx.
    replace x with (SHADOW ptr + (x - SHADOW ptr)) by lia.
    apply allocate_shadow_frame; [exact Hn | lia].
Qed.

End Extras.

(** * Concrete runs of the further properties *)

Lemma sample_palette_negative : Forall is_poison (@palette sample_kinds).
Proof.
  unfold palette. repeat (apply Forall_cons; split; [unfold is_poison; cbn; lia|]).
  apply Forall_nil_2.
Qed.

Lemma sample_palette_distinct : NoDup (@palette sample_kinds).
Proof.
  apply (@bool_decide_unpack _ (NoDup_dec (@palette sample_kinds))).
  vm_compute. exact I.
Qed.

Lemma sample_overrun_poison : is_poison (@kAsanHeapOverrun sample_kinds).
Proof. unfold is_poison. cbn. lia. Qed.

(** X1, evaluated: a 13-byte block scans as 13 bytes. *)
Lemma usable_size_after_malloc_witness :
  exists st',
    @__asan_malloc sample_kinds arena_backing 13 st0 = Ret 65552 st' /\
    __asan_malloc_usable_size 3 (shadow st') 65552 = Some 13.
Proof.
  destruct (@usable_size_after_malloc sample_kinds arena_backing st0 13 65552
              (snd (arena_memalign (arena0 0x20000) 16 32)))
    as (st' & Hrun & Hscan).
  - exact sample_overrun_poison.
  - lia.
  - reflexivity.
  - lia.
  - exists st'. split; [exact Hrun|]. apply Hscan. vm_compute. lia.
Defined.

(** X2, evaluated: byte 5 of a freed 13-byte block, reported with size 1 and
    with size -1, which is printed as [2 ^ 64 - 1]. *)
Lemma use_after_free_witness :
  exists st1 st2,
    @__asan_malloc sample_kinds arena_backing 13 st0 = Ret 65552 st1 /\
    @__asan_free sample_kinds arena_backing sample_itoa 65552 st1
      = Ret tt st2 /\
    shadow st2 (SHADOW (65552 + 5)) = -1 /\
    @__asan_report_load_n sample_kinds arena_backing sample_itoa unit
      (65552 + 5) 1 st2
    = Exit 66 ("error: heap use after free 1-byte load at 0x000000010015"
               ++ newline) st2 /\
    @__asan_report_load_n sample_kinds arena_backing sample_itoa unit
      (65552 + 5) (-1) st2
    = Exit 66 ("error: heap use after free 18446744073709551615-byte load"
               ++ " at 0x000000010015" ++ newline) st2.
Proof.
  destruct (@use_after_free sample_kinds arena_backing sample_itoa st0 13 65552
              (snd (arena_memalign (arena0 0x20000) 16 32)))
    as (st1 & st2 & Hm & Hf & Hbody & _).
  - exact sample_overrun_poison.
  - unfold is_poison. cbn. lia.
  - lia.
  - reflexivity.
  - lia.
  - reflexivity.
  - vm_compute. discriminate.
  - exists st1, st2. split; [exact Hm|]. split; [exact Hf|].
    destruct (Hbody 5 ltac:(lia)) as (Hb & _ & Hrep).
    split; [exact Hb|].
    split; [exact (Hrep 1 ltac:(lia)) | exact (Hrep (-1) ltac:(lia))].
Defined.

(** X3, evaluated: a store one past a 10-byte block is reported as
    "poisoned". *)
Lemma reports_around_block_witness :
  exists st1,
    @__asan_malloc sample_kinds arena_backing 10 st0 = Ret 65552 st1 /\
    @__asan_report_store_n sample_kinds arena_backing sample_itoa unit
      (65552 + 10) 1 st1
    = Exit 66 ("error: poisoned 1-byte store at 0x00000001001a" ++ newline)
        st1.
Proof.
  destruct (@reports_around_block sample_kinds arena_backing sample_itoa st0
              10 65552 (snd (arena_memalign (arena0 0x20000) 16 32)))
    as (st1 & Hm & _ & Hrep & _).
  - exact sample_palette_negative.
  - exact sample_palette_distinct.
  - lia.
  - reflexivity.
  - lia.
  - reflexivity.
  - exists st1. split; [exact Hm | exact (Hrep 1 ltac:(lia))].
Defined.

(** X4, evaluated on twenty cycles. *)
Lemma quarantine_conserves_witness :
  exists ps st' evs,
    @cycles sample_kinds arena_backing sample_itoa (replicate 20 8) st0
      = Ret ps st' /\
    trace st' = trace st0 ++ evs /\
    frees evs ++ morgue_queue (morgue st')
    = replicate 16 0 ++ filter (fun x => x <> 0) ps.
Proof.
  destruct (@quarantine_conserves sample_kinds arena_backing sample_itoa st0
              (replicate 20 8))
    as (ps & st' & evs & Hrun & Htr & _ & Hcons).
  - exact sample_overrun_poison.
  - apply Forall_replicate. lia.
  - exact morgue_init_ok.
  - exists ps, st', evs. split; [exact Hrun|]. split; [exact Htr | exact Hcons].
Defined.

(** X5, evaluated on three cycles followed by a flush. *)
Lemma flush_releases_all_witness :
  exists ps st1 st2 evs,
    @cycles sample_kinds arena_backing sample_itoa (replicate 3 8) st0
      = Ret ps st1 /\
    @__asan_morgue_flush arena_backing st1 = Ret tt st2 /\
    trace st2 = trace st0 ++ evs /\
    AsanMorgue.p (morgue st2) = replicate 16 0 /\
    filter (fun x => x <> 0) (frees evs) ≡ₚ filter (fun x => x <> 0) ps.
Proof.
  destruct (@flush_releases_all sample_kinds arena_backing sample_itoa st0
              (replicate 3 8))
    as (ps & st1 & st2 & evs & Hrun & Hfl & Htr & Hp & _ & _ & _ & _ & Hperm).
  - exact sample_overrun_poison.
  - reflexivity.
  - apply Forall_replicate. lia.
  - exists ps, st1, st2, evs. repeat split; assumption.
Defined.

(** X6, evaluated: the 8-byte block at [0x10010] after it was grown to 100
    bytes. *)
Lemma stale_pointer_after_realloc_witness :
  let st := st_malloc 8 0x20000 in
  let out := @__asan_realloc sample_kinds arena_backing sample_itoa
               65552 100 st in
  out = Ret 65600 (state_of out) /\
  shadow (state_of out) (SHADOW 65552) = -3 /\
  @__asan_report_load_n sample_kinds arena_backing sample_itoa unit
    65552 8 (state_of out)
  = Exit 66 ("error: heap use after relocate 8-byte load at 0x000000010010"
             ++ newline) (state_of out) /\
  @__asan_free sample_kinds arena_backing sample_itoa 65552 (state_of out)
  = Exit 66 ("error: free after relocate -3 at 0x000000010010" ++ newline)
      (state_of out).
Proof.
  cbv zeta.
  assert (Hrun :
    @__asan_realloc sample_kinds arena_backing sample_itoa 65552 100
      (st_malloc 8 0x20000)
    = Ret 65600
        (state_of (@__asan_realloc sample_kinds arena_backing sample_itoa
                     65552 100 (st_malloc 8 0x20000)))).
  { rewrite (@realloc_run sample_kinds arena_backing sample_itoa
               (st_malloc 8 0x20000) 65552 100 65600
               (snd (arena_memalign (backing (st_malloc 8 0x20000)) 16 120)));
      [| lia | lia | vm_compute; reflexivity | lia].
    rewrite (@deallocate_run sample_kinds arena_backing sample_itoa).
    - reflexivity.
    - vm_compute. intros [[H _]|H]; [discriminate H | apply H; reflexivity]. }
  split; [exact Hrun|].
  destruct (@stale_pointer_after_realloc sample_kinds arena_backing sample_itoa
              (st_malloc 8 0x20000) 65552 100 65600
              (snd (arena_memalign (backing (st_malloc 8 0x20000)) 16 120))
              _ ltac:(unfold is_poison; cbn; lia) sample_palette_distinct
              ltac:(lia) ltac:(lia) ltac:(vm_compute; reflexivity) ltac:(lia)
              ltac:(vm_compute; discriminate) Hrun)
    as (Hb & _ & Hrep & Hfree).
  split; [exact Hb|]. split; [exact (Hrep 8 ltac:(lia)) | exact Hfree].
Defined.

(** X7, evaluated: a 13-byte fake-stack slot. *)
Lemma stack_slot_lifecycle_witness :
  exists st1 st2,
    @__asan_stack_malloc sample_kinds arena_backing 13 0 st0 = Ret 65568 st1 /\
    @__asan_stack_free arena_backing 65568 13 0 st1 = Ret tt st2 /\
    shadow st1 (SHADOW 65568 - 1) = -8 /\
    (forall i, 0 <= i < 13 -> addressable (shadow st2) (65568 + i) = true).
Proof.
  destruct (@stack_slot_lifecycle sample_kinds arena_backing st0 13 0 65568
              (snd (arena_memalign (arena0 0x20000) 32 32)))
    as (st1 & st2 & Hm & Hf & _ & Hu & _ & _ & _ & _ & _ & Hbody).
  - unfold is_poison. cbn. lia.
  - unfold is_poison. cbn. lia.
  - lia.
  - reflexivity.
  - lia.
  - reflexivity.
  - exists st1, st2. repeat split; assumption.
Defined.

(** X8, evaluated: [pvalloc(100)] with 4096-byte pages. *)
Lemma pvalloc_rounds_to_pages_witness :
  exists st',
    @__asan_pvalloc sample_kinds arena_backing 4096 100 st0 = Ret 69632 st' /\
    (forall i, 0 <= i < 4096 -> shadow st' (SHADOW (69632 + i)) = 0) /\
    shadow st' (SHADOW (69632 + 4096)) = -5.
Proof.
  destruct (@pvalloc_rounds_to_pages sample_kinds arena_backing st0 4096 100
              69632 (snd (arena_memalign (arena0 0x20000) 4096 4112)))
    as (st' & Hrun & _ & Hbody & Hover).
  - exact sample_overrun_poison.
  - lia.
  - reflexivity.
  - lia.
  - lia.
  - reflexivity.
  - lia.
  - reflexivity.
  - exists st'. split; [exact Hrun|]. split; [exact Hbody|].
    apply Hover. vm_compute. split; [discriminate | reflexivity].
Defined.

(** X9, evaluated: [pvalloc(SIZE_MAX)] with 4096-byte pages. *)
Lemma pvalloc_near_size_max_witness :
  exists st',
    @__asan_pvalloc sample_kinds arena_backing 4096 SIZE_MAX st0
      = Ret 69632 st' /\
    addressable (shadow st') 69632 = false.
Proof.
  destruct (@pvalloc_near_size_max sample_kinds arena_backing st0 4096 SIZE_MAX
              69632 (snd (arena_memalign (arena0 0x20000) 4096 16)))
    as (st' & Hrun & _ & _ & Hna).
  - exact sample_overrun_poison.
  - lia.
  - reflexivity.
  - unfold SIZE_MAX. lia.
  - reflexivity.
  - lia.
  - exists st'. split; [exact Hrun | exact Hna].
Defined.

(** X10, evaluated: ten bytes at [0x1003]. *)
Lemma alloca_poison_redzone_witness :
  exists st',
    @__asan_alloca_poison sample_kinds arena_backing 4099 10 st0 = Ret tt st' /\
    shadow st' (SHADOW 4109) = 5 /\
    (forall j, 0 <= j < 3 -> shadow st' (SHADOW 4112 + j) = -11).
Proof.
  destruct (@alloca_poison_redzone sample_kinds arena_backing st0 4099 10)
    as (st' & Hrun & Hpart & Hred & _).
  - lia.
  - lia.
  - lia.
  - exists st'. split; [exact Hrun|].
    split; [apply Hpart; vm_compute; discriminate | exact Hred].
Defined.

(** X11, evaluated: the same alloca unwound between [0x1000] and [0x1040]. *)
Lemma allocas_unpoison_restores_witness :
  exists st1 st2,
    @__asan_alloca_poison sample_kinds arena_backing 4099 10 st0
      = Ret tt st1 /\
    @__asan_allocas_unpoison arena_backing 4096 4160 st1 = Ret tt st2 /\
    (forall x, shadow st2 x = shadow st0 x).
Proof.
  destruct (@allocas_unpoison_restores sample_kinds arena_backing st0 4099 10
              4096 4160)
    as (st1 & st2 & H1 & H2 & _ & Hrestore).
  - lia.
  - reflexivity.
  - lia.
  - lia.
  - lia.
  - lia.
  - exists st1, st2. split; [exact H1|]. split; [exact H2|].
    apply Hrestore. intros x _. reflexivity.
Defined.

(** X12, evaluated: thirteen bytes at [0x1000]. *)
Lemma stack_scope_last_wins_witness :
  exists sp su spu sup,
    @__asan_poison_stack_memory sample_kinds arena_backing 4096 13 st0
      = Ret tt sp /\
    @__asan_unpoison_stack_memory arena_backing 4096 13 st0 = Ret tt su /\
    @__asan_unpoison_stack_memory arena_backing 4096 13 sp = Ret tt spu /\
    @__asan_poison_stack_memory sample_kinds arena_backing 4096 13 su
      = Ret tt sup /\
    (forall x, shadow spu x = shadow su x) /\
    (forall x, shadow sup x = shadow sp x).
Proof.
  apply (@stack_scope_last_wins sample_kinds arena_backing st0 4096 13); lia.
Defined.

(** X13, evaluated: thirteen bytes at [0x1000]; after poisoning, bytes 8 to
    10 are still addressable and bytes 11 and 12 are not. *)
Lemma stack_scope_addressability_witness :
  exists su sp,
    @__asan_unpoison_stack_memory arena_backing 4096 13 st0 = Ret tt su /\
    @__asan_poison_stack_memory sample_kinds arena_backing 4096 13 st0
      = Ret tt sp /\
    (forall i, 0 <= i < 13 -> addressable (shadow su) (4096 + i) = true) /\
    addressable (shadow sp) (4096 + 10) = true /\
    addressable (shadow sp) (4096 + 11) = false.
Proof.
  destruct (@stack_scope_addressability sample_kinds arena_backing st0 4096 13)
    as (su & sp & Hu & Hp & Hbody & _ & _ & Htail).
  - unfold is_poison. cbn. lia.
  - lia.
  - reflexivity.
  - lia.
  - lia.
  - exists su, sp. split; [exact Hu|]. split; [exact Hp|].
    split; [exact Hbody|].
    split; [apply (Htail 10) | apply (Htail 11)]; vm_compute;
      (split; [discriminate | reflexivity]).
Defined.

(** X14, evaluated: a 13-byte global with a 64-byte footprint at [0x1000]. *)
Lemma registered_global_layout_witness :
  exists st',
    @__asan_register_globals sample_kinds arena_backing
      [global_at 4096 13 64] 1 st0 = Ret tt st' /\
    (forall i, 0 <= i < 13 -> addressable (shadow st') (4096 + i) = true) /\
    (forall i, 16 <= i < 64 -> shadow st' (SHADOW (4096 + i)) = -6).
Proof.
  destruct (@registered_global_layout sample_kinds arena_backing st0
              (global_at 4096 13 64))
    as (st' & Hrun & Hbody & _ & Hred).
  - unfold is_poison. cbn. lia.
  - cbn. lia.
  - reflexivity.
  - cbn. lia.
  - vm_compute. discriminate.
  - cbn. lia.
  - intros j _. reflexivity.
  - exists st'. split; [exact Hrun|]. split; [exact Hbody|].
    intros i Hi. apply Hred. exact Hi.
Defined.

(** X15, evaluated around an 8-byte block at [0x10010]. *)
Lemma free_of_redzone_pointer_witness :
  exists st1,
    @__asan_malloc sample_kinds arena_backing 8 st0 = Ret 65552 st1 /\
    @__asan_free sample_kinds arena_backing sample_itoa (65552 - 8) st1
    = Exit 66 ("error: invalid pointer -4 at 0x000000010008" ++ newline) st1 /\
    exists st2,
      @__asan_free sample_kinds arena_backing sample_itoa (65552 + 8) st1
      = Ret tt st2.
Proof.
  destruct (@free_of_redzone_pointer sample_kinds arena_backing sample_itoa
              st0 8 65552 (snd (arena_memalign (arena0 0x20000) 16 24)))
    as (st1 & Hm & Hleft & st2 & Hright & _).
  - exact sample_palette_negative.
  - exact sample_palette_distinct.
  - lia.
  - reflexivity.
  - lia.
  - reflexivity.
  - exists st1. split; [exact Hm|].
    split; [exact (Hleft 8 (or_intror eq_refl))|].
    exists st2. exact Hright.
Defined.

(** X16, evaluated: an 8-byte block on the fresh arena. *)
Lemma malloc_footprint_witness :
  exists st',
    @__asan_malloc sample_kinds arena_backing 8 st0 = Ret 65552 st' /\
    memory st' = memory st0 /\
    (forall x, x < SHADOW 65552 - 2 \/ SHADOW 65552 + 3 <= x ->
       shadow st' x = shadow st0 x).
Proof.
  destruct (@malloc_footprint sample_kinds arena_backing st0 8 65552
              (snd (arena_memalign (arena0 0x20000) 16 24)))
    as (st' & Hrun & Hmem & _ & _ & _ & _ & Hframe).
  - lia.
  - reflexivity.
  - exists st'. split; [exact Hrun|]. split; [exact Hmem | exact Hframe].
Defined.
